(** * The per-call state machine of [src/core/lib/surface/call.c]

    A shallow embedding of the gRPC core call object: the status arbiter,
    the batch translator ([call_start_batch]), the inbound receive
    coordination ([receiving_stream_ready] against
    [receiving_initial_metadata_ready]), the metadata filters, batch
    completion and call creation, followed by the properties the
    specification states about them.

    Conventions of the embedding.
    - C integers are [Z]; a [uint32_t] result is reduced modulo [2^32]
      where the source computes in that type.
    - A nullable pointer is an [option]; the arrays [active_batches] and
      [status] are maps from the slot index, respectively the source enum.
    - A [batch_control*] is the index of its slot in [active_batches]: the
      source allocates one [batch_control] per slot from the call arena and
      reuses it, so the slot determines the pointer.
    - [GPR_ASSERT] failures, [abort()] and accesses through a null pointer
      end the execution: functions that contain one return an [outcome].
    - Everything the call does to its collaborators (call combiner, filter
      stack, completion queue, child calls) is appended to the [trace] of
      the call, oldest event first. *)

From Stdlib Require Import ZArith Lia Bool String DecimalString.
From stdpp Require Import base option list gmap.

Local Open Scope Z_scope.
Set Warnings "-register-all".

(** ** Outcomes *)

Inductive outcome (A : Type) : Type :=
| Ret (a : A)
| Abort (reason : string).
Arguments Ret {A} a.
Arguments Abort {A} reason.

Definition obind {A B} (m : outcome A) (k : A -> outcome B) : outcome B :=
  match m with
  | Ret a => k a
  | Abort r => Abort r
  end.

Notation "'let*' x ':=' m 'in' k" := (obind m (fun x => k))
  (at level 10, x pattern, m at level 100, k at level 200).

Definition GPR_ASSERT (b : bool) (what : string) : outcome unit :=
  if b then Ret tt else Abort what.

(** ** Codes and enums of the public headers *)

Definition grpc_slice := string.
Definition grpc_empty_slice : grpc_slice := EmptyString.

Definition grpc_status_code := Z.
Definition GRPC_STATUS_OK : grpc_status_code := 0.
Definition GRPC_STATUS_CANCELLED : grpc_status_code := 1.
Definition GRPC_STATUS_UNKNOWN : grpc_status_code := 2.
Definition GRPC_STATUS_UNIMPLEMENTED : grpc_status_code := 12.
Definition GRPC_STATUS_INTERNAL : grpc_status_code := 13.

Inductive grpc_call_error : Set :=
| GRPC_CALL_OK
| GRPC_CALL_ERROR
| GRPC_CALL_ERROR_NOT_ON_SERVER
| GRPC_CALL_ERROR_NOT_ON_CLIENT
| GRPC_CALL_ERROR_ALREADY_ACCEPTED
| GRPC_CALL_ERROR_ALREADY_INVOKED
| GRPC_CALL_ERROR_NOT_INVOKED
| GRPC_CALL_ERROR_ALREADY_FINISHED
| GRPC_CALL_ERROR_TOO_MANY_OPERATIONS
| GRPC_CALL_ERROR_INVALID_FLAGS
| GRPC_CALL_ERROR_INVALID_METADATA
| GRPC_CALL_ERROR_INVALID_MESSAGE
| GRPC_CALL_ERROR_NOT_SERVER_COMPLETION_QUEUE
| GRPC_CALL_ERROR_BATCH_TOO_BIG
| GRPC_CALL_ERROR_PAYLOAD_TYPE_MISMATCH
| GRPC_CALL_ERROR_COMPLETION_QUEUE_SHUTDOWN.

Inductive grpc_op_type : Set :=
| GRPC_OP_SEND_INITIAL_METADATA
| GRPC_OP_SEND_MESSAGE
| GRPC_OP_SEND_CLOSE_FROM_CLIENT
| GRPC_OP_SEND_STATUS_FROM_SERVER
| GRPC_OP_RECV_INITIAL_METADATA
| GRPC_OP_RECV_MESSAGE
| GRPC_OP_RECV_STATUS_ON_CLIENT
| GRPC_OP_RECV_CLOSE_ON_SERVER.

Definition MAX_CONCURRENT_BATCHES : Z := 6.
Definition MAX_SEND_EXTRA_METADATA_COUNT : Z := 3.
Definition STATUS_OFFSET : Z := 1.
Definition INT_MAX : Z := 2147483647.
Definition UINT32_MODULUS : Z := 2 ^ 32.

(** Status data for a request can come from several sources; the order of
    the constructors is the priority order, earlier entries override later
    ones. *)
Inductive status_source : Set :=
| STATUS_FROM_API_OVERRIDE
| STATUS_FROM_WIRE
| STATUS_FROM_CORE
| STATUS_FROM_SURFACE
| STATUS_FROM_SERVER_STATUS.

Definition status_source_index (s : status_source) : nat :=
  match s with
  | STATUS_FROM_API_OVERRIDE => 0
  | STATUS_FROM_WIRE => 1
  | STATUS_FROM_CORE => 2
  | STATUS_FROM_SURFACE => 3
  | STATUS_FROM_SERVER_STATUS => 4
  end%nat.

(** The range [0 .. STATUS_SOURCE_COUNT) of the loops over [status]. *)
Definition STATUS_SOURCES : list status_source :=
  [STATUS_FROM_API_OVERRIDE; STATUS_FROM_WIRE; STATUS_FROM_CORE;
   STATUS_FROM_SURFACE; STATUS_FROM_SERVER_STATUS].

Definition status_source_eqb (a b : status_source) : bool :=
  Nat.eqb (status_source_index a) (status_source_index b).

(** ** Errors

    The error library is a collaborator of the call; an error is the term
    of the constructors the call applies. What the library reads back from
    such a term ([grpc_error_get_status],
    [grpc_error_has_clear_grpc_status]) is a parameter of the development,
    see [Externals]. *)

Inductive grpc_error_ints : Set := GRPC_ERROR_INT_GRPC_STATUS.
Inductive grpc_error_strs : Set := GRPC_ERROR_STR_GRPC_MESSAGE.

Inductive grpc_error : Type :=
| GRPC_ERROR_NONE
| GRPC_ERROR_CANCELLED
| GRPC_ERROR_CREATE (description : string)
| grpc_error_set_int (e : grpc_error) (which : grpc_error_ints) (value : Z)
| grpc_error_set_str (e : grpc_error) (which : grpc_error_strs) (value : grpc_slice)
| grpc_error_add_child (e child : grpc_error)
| GRPC_ERROR_CREATE_REFERENCING (description : string) (referencing : list grpc_error).

(** [error == GRPC_ERROR_NONE], a pointer comparison in the source. *)
Definition is_error_none (e : grpc_error) : bool :=
  match e with
  | GRPC_ERROR_NONE => true
  | _ => false
  end.

Inductive gpr_timespec : Set :=
| gpr_time (t : Z)
| gpr_inf_future.

Definition gpr_time_is_inf_future (t : gpr_timespec) : bool :=
  match t with
  | gpr_inf_future => true
  | gpr_time _ => false
  end.

Definition gpr_time_min (a b : gpr_timespec) : gpr_timespec :=
  match a, b with
  | gpr_inf_future, _ => b
  | _, gpr_inf_future => a
  | gpr_time x, gpr_time y => if x <? y then a else b
  end.

(** ** Metadata elements and batches *)

Inductive user_data_key : Set :=
| destroy_status
| destroy_encodings_accepted_by_peer.

Definition user_data_key_eqb (a b : user_data_key) : bool :=
  match a, b with
  | destroy_status, destroy_status => true
  | destroy_encodings_accepted_by_peer, destroy_encodings_accepted_by_peer => true
  | _, _ => false
  end.

(** A metadata element is one of the three static [grpc-status] elements
    the source compares against, or an element with its key, its value and
    the user data cached on it (keyed by the destructor that stored it). *)
Inductive grpc_mdelem : Type :=
| GRPC_MDELEM_GRPC_STATUS_0
| GRPC_MDELEM_GRPC_STATUS_1
| GRPC_MDELEM_GRPC_STATUS_2
| MDELEM (key value : grpc_slice) (user_data : option (user_data_key * Z)).

Definition GRPC_MDSTR_GRPC_STATUS : grpc_slice := "grpc-status"%string.
Definition GRPC_MDSTR_GRPC_MESSAGE : grpc_slice := "grpc-message"%string.
Definition GRPC_MDSTR_CONTENT_ENCODING : grpc_slice := "content-encoding"%string.
Definition GRPC_MDSTR_GRPC_ENCODING : grpc_slice := "grpc-encoding"%string.
Definition GRPC_MDSTR_GRPC_ACCEPT_ENCODING : grpc_slice := "grpc-accept-encoding"%string.
Definition GRPC_MDSTR_ACCEPT_ENCODING : grpc_slice := "accept-encoding"%string.
Definition GRPC_MDSTR_PATH : grpc_slice := ":path"%string.
Definition GRPC_MDSTR_GRPC_INTERNAL_ENCODING_REQUEST : grpc_slice :=
  "grpc-internal-encoding-request"%string.

Definition GRPC_MDKEY (md : grpc_mdelem) : grpc_slice :=
  match md with
  | MDELEM k _ _ => k
  | _ => GRPC_MDSTR_GRPC_STATUS
  end.

Definition GRPC_MDVALUE (md : grpc_mdelem) : grpc_slice :=
  match md with
  | GRPC_MDELEM_GRPC_STATUS_0 => "0"%string
  | GRPC_MDELEM_GRPC_STATUS_1 => "1"%string
  | GRPC_MDELEM_GRPC_STATUS_2 => "2"%string
  | MDELEM _ v _ => v
  end.

(** Elements are compared by identity: a static element equals only itself. *)
Definition grpc_mdelem_eq (a b : grpc_mdelem) : bool :=
  match a, b with
  | GRPC_MDELEM_GRPC_STATUS_0, GRPC_MDELEM_GRPC_STATUS_0 => true
  | GRPC_MDELEM_GRPC_STATUS_1, GRPC_MDELEM_GRPC_STATUS_1 => true
  | GRPC_MDELEM_GRPC_STATUS_2, GRPC_MDELEM_GRPC_STATUS_2 => true
  | MDELEM k v _, MDELEM k' v' _ => String.eqb k k' && String.eqb v v'
  | _, _ => false
  end.

(** The user data stored under [key], [0] (a null pointer) when there is none. *)
Definition grpc_mdelem_get_user_data (md : grpc_mdelem) (key : user_data_key) : Z :=
  match md with
  | MDELEM _ _ (Some (k, v)) => if user_data_key_eqb k key then v else 0
  | _ => 0
  end.

Definition grpc_mdelem_set_user_data (md : grpc_mdelem) (key : user_data_key) (v : Z)
  : grpc_mdelem :=
  match md with
  | MDELEM k x None => MDELEM k x (Some (key, v))
  | _ => md
  end.

(** The application's view of one element. *)
Record grpc_metadata := {
  md_key : grpc_slice;
  md_value : grpc_slice
}.

Definition grpc_metadata_array := list grpc_metadata.

Record grpc_metadata_batch := {
  md_list : list grpc_mdelem;
  deadline : gpr_timespec
}.

Definition empty_metadata_batch : grpc_metadata_batch :=
  {| md_list := []; deadline := gpr_inf_future |}.

(** [b->idx.named.<key>]: the element linked under a named key, if any. *)
Definition idx_named (b : grpc_metadata_batch) (key : grpc_slice) : option grpc_mdelem :=
  find (fun md => String.eqb (GRPC_MDKEY md) key) (md_list b).

Fixpoint remove_named (key : grpc_slice) (l : list grpc_mdelem) : list grpc_mdelem :=
  match l with
  | [] => []
  | md :: l' => if String.eqb (GRPC_MDKEY md) key then l' else md :: remove_named key l'
  end.

(** [grpc_metadata_batch_remove(b, b->idx.named.<key>)]. *)
Definition grpc_metadata_batch_remove (b : grpc_metadata_batch) (key : grpc_slice)
  : grpc_metadata_batch :=
  {| md_list := remove_named key (md_list b); deadline := deadline b |}.

Definition grpc_metadata_batch_link_tail (b : grpc_metadata_batch) (md : grpc_mdelem)
  : grpc_metadata_batch :=
  {| md_list := md_list b ++ [md]; deadline := deadline b |}.

Definition grpc_metadata_batch_clear (b : grpc_metadata_batch) : grpc_metadata_batch :=
  empty_metadata_batch.

Definition set_deadline (t : gpr_timespec) (b : grpc_metadata_batch) : grpc_metadata_batch :=
  {| md_list := md_list b; deadline := t |}.

(** ** Byte streams and byte buffers *)

Record grpc_byte_buffer := {
  bb_compression : Z;
  bb_slices : list grpc_slice
}.

Definition slice_length (s : grpc_slice) : Z := Z.of_nat (String.length s).

Definition slice_buffer_length (l : list grpc_slice) : Z :=
  fold_right (fun s n => slice_length s + n) 0 l.

Definition grpc_raw_byte_buffer_create : grpc_byte_buffer :=
  {| bb_compression := 0; bb_slices := [] |}.

Definition grpc_raw_compressed_byte_buffer_create (algo : Z) : grpc_byte_buffer :=
  {| bb_compression := algo; bb_slices := [] |}.

Definition grpc_slice_buffer_add (b : grpc_byte_buffer) (s : grpc_slice) : grpc_byte_buffer :=
  {| bb_compression := bb_compression b; bb_slices := bb_slices b ++ [s] |}.

Inductive pull_result : Type :=
| PullSlice (s : grpc_slice)
| PullError (e : grpc_error).

(** What the stream answers to the successive [grpc_byte_stream_next]
    calls: the next slice is there ([NextReady], [next] returns true and
    [pull] gives the result), or it is not ([NextPending], [next] returns
    false and the armed closure pulls the result later). A stream whose
    script is used up stays pending. *)
Inductive stream_step : Type :=
| NextReady (r : pull_result)
| NextPending (r : pull_result).

Record grpc_byte_stream := {
  bs_length : Z;
  bs_flags : Z;
  bs_script : list stream_step
}.

Record grpc_slice_buffer_stream := {
  ss_flags : Z;
  ss_backing_buffer : list grpc_slice
}.

(** ** Collaborators whose code is outside the call

    The error library's readers, header validation, the flag masks and
    propagation bits of the public headers, slice parsing, the compression
    library, the channel's configuration and the completion queue. *)
Class Externals := {
  grpc_error_has_clear_grpc_status : grpc_error -> bool;
  grpc_error_get_status : grpc_error -> gpr_timespec -> grpc_status_code * grpc_slice;
  grpc_validate_header_key_is_legal : grpc_slice -> bool;
  grpc_is_binary_header : grpc_slice -> bool;
  grpc_validate_header_nonbin_value_is_legal : grpc_slice -> bool;
  GRPC_WRITE_USED_MASK : Z;
  GRPC_WRITE_INTERNAL_USED_MASK : Z;
  GRPC_WRITE_INTERNAL_COMPRESS : Z;
  GRPC_INITIAL_METADATA_USED_MASK : Z;
  GRPC_INITIAL_METADATA_IDEMPOTENT_REQUEST : Z;
  GRPC_PROPAGATE_DEADLINE : Z;
  GRPC_PROPAGATE_CENSUS_STATS_CONTEXT : Z;
  GRPC_PROPAGATE_CENSUS_TRACING_CONTEXT : Z;
  GRPC_PROPAGATE_CANCELLATION : Z;
  grpc_parse_slice_to_uint32 : grpc_slice -> option Z;
  grpc_slice_split_without_space : grpc_slice -> list grpc_slice;
  GRPC_MESSAGE_COMPRESS_ALGORITHMS_COUNT : Z;
  GRPC_STREAM_COMPRESS_ALGORITHMS_COUNT : Z;
  GRPC_COMPRESS_ALGORITHMS_COUNT : Z;
  grpc_message_compression_algorithm_from_slice : grpc_slice -> Z;
  grpc_stream_compression_algorithm_from_slice : grpc_slice -> Z;
  grpc_message_compression_algorithm_parse : grpc_slice -> option Z;
  grpc_stream_compression_algorithm_parse : grpc_slice -> option Z;
  grpc_compression_algorithm_from_message_stream_compression_algorithm :
    Z -> Z -> option Z;
  grpc_compression_bitset_from_message_stream_compression_bitset : Z -> Z -> Z;
  grpc_compression_algorithm_for_level : Z -> Z -> Z;
  grpc_compression_algorithm_slice : Z -> grpc_slice;
  grpc_compression_algorithm_name : Z -> string;
  channel_default_compression_level : option Z;
  grpc_compression_options_is_algorithm_enabled : Z -> bool;
  grpc_channel_get_reffed_status_elem : Z -> grpc_mdelem;
  grpc_cq_begin_op : Z -> bool
}.

Definition GRPC_MESSAGE_COMPRESS_NONE : Z := 0.
Definition GRPC_STREAM_COMPRESS_NONE : Z := 0.
Definition GRPC_COMPRESS_NONE : Z := 0.
Definition GRPC_COMPRESS_LEVEL_NONE : Z := 0.

(** [GPR_BITSET] and [GPR_BITGET] on a [uint32_t]. *)
Definition GPR_BITSET (bits i : Z) : Z := Z.lor bits (Z.shiftl 1 i) mod UINT32_MODULUS.
Definition GPR_BITGET (bits i : Z) : bool := Z.testbit bits i.

(** [~x] on a [uint32_t]. *)
Definition uint32_not (x : Z) : Z := Z.lxor (x mod UINT32_MODULUS) (UINT32_MODULUS - 1).

(** ** The transport batch, the batch control, the call *)

Inductive call_flag : Set :=
| sent_initial_metadata
| sending_message
| sent_final_op
| received_initial_metadata
| receiving_message
| requested_final_op.

Definition call_flag_eqb (a b : call_flag) : bool :=
  match a, b with
  | sent_initial_metadata, sent_initial_metadata
  | sending_message, sending_message
  | sent_final_op, sent_final_op
  | received_initial_metadata, received_initial_metadata
  | receiving_message, receiving_message
  | requested_final_op, requested_final_op => true
  | _, _ => false
  end.

Record grpc_transport_stream_op_batch := {
  send_initial_metadata : bool;
  send_message : bool;
  send_trailing_metadata : bool;
  recv_initial_metadata : bool;
  recv_message : bool;
  recv_trailing_metadata : bool;
  collect_stats : bool;
  cancel_stream : bool;
  cancel_error : grpc_error
}.

Definition op_upd_send_initial_metadata (v : bool) (o : grpc_transport_stream_op_batch)
  : grpc_transport_stream_op_batch :=
  {| send_initial_metadata := v; send_message := send_message o; send_trailing_metadata := send_trailing_metadata o;
     recv_initial_metadata := recv_initial_metadata o; recv_message := recv_message o; recv_trailing_metadata := recv_trailing_metadata o;
     collect_stats := collect_stats o; cancel_stream := cancel_stream o; cancel_error := cancel_error o |}.
Definition op_upd_send_message (v : bool) (o : grpc_transport_stream_op_batch)
  : grpc_transport_stream_op_batch :=
  {| send_initial_metadata := send_initial_metadata o; send_message := v; send_trailing_metadata := send_trailing_metadata o;
     recv_initial_metadata := recv_initial_metadata o; recv_message := recv_message o; recv_trailing_metadata := recv_trailing_metadata o;
     collect_stats := collect_stats o; cancel_stream := cancel_stream o; cancel_error := cancel_error o |}.
Definition op_upd_send_trailing_metadata (v : bool) (o : grpc_transport_stream_op_batch)
  : grpc_transport_stream_op_batch :=
  {| send_initial_metadata := send_initial_metadata o; send_message := send_message o; send_trailing_metadata := v;
     recv_initial_metadata := recv_initial_metadata o; recv_message := recv_message o; recv_trailing_metadata := recv_trailing_metadata o;
     collect_stats := collect_stats o; cancel_stream := cancel_stream o; cancel_error := cancel_error o |}.
Definition op_upd_recv_initial_metadata (v : bool) (o : grpc_transport_stream_op_batch)
  : grpc_transport_stream_op_batch :=
  {| send_initial_metadata := send_initial_metadata o; send_message := send_message o; send_trailing_metadata := send_trailing_metadata o;
     recv_initial_metadata := v; recv_message := recv_message o; recv_trailing_metadata := recv_trailing_metadata o;
     collect_stats := collect_stats o; cancel_stream := cancel_stream o; cancel_error := cancel_error o |}.
Definition op_upd_recv_message (v : bool) (o : grpc_transport_stream_op_batch)
  : grpc_transport_stream_op_batch :=
  {| send_initial_metadata := send_initial_metadata o; send_message := send_message o; send_trailing_metadata := send_trailing_metadata o;
     recv_initial_metadata := recv_initial_metadata o; recv_message := v; recv_trailing_metadata := recv_trailing_metadata o;
     collect_stats := collect_stats o; cancel_stream := cancel_stream o; cancel_error := cancel_error o |}.
Definition op_upd_recv_trailing_metadata (v : bool) (o : grpc_transport_stream_op_batch)
  : grpc_transport_stream_op_batch :=
  {| send_initial_metadata := send_initial_metadata o; send_message := send_message o; send_trailing_metadata := send_trailing_metadata o;
     recv_initial_metadata := recv_initial_metadata o; recv_message := recv_message o; recv_trailing_metadata := v;
     collect_stats := collect_stats o; cancel_stream := cancel_stream o; cancel_error := cancel_error o |}.
Definition op_upd_collect_stats (v : bool) (o : grpc_transport_stream_op_batch)
  : grpc_transport_stream_op_batch :=
  {| send_initial_metadata := send_initial_metadata o; send_message := send_message o; send_trailing_metadata := send_trailing_metadata o;
     recv_initial_metadata := recv_initial_metadata o; recv_message := recv_message o; recv_trailing_metadata := recv_trailing_metadata o;
     collect_stats := v; cancel_stream := cancel_stream o; cancel_error := cancel_error o |}.
Definition op_upd_cancel_stream (v : bool) (o : grpc_transport_stream_op_batch)
  : grpc_transport_stream_op_batch :=
  {| send_initial_metadata := send_initial_metadata o; send_message := send_message o; send_trailing_metadata := send_trailing_metadata o;
     recv_initial_metadata := recv_initial_metadata o; recv_message := recv_message o; recv_trailing_metadata := recv_trailing_metadata o;
     collect_stats := collect_stats o; cancel_stream := v; cancel_error := cancel_error o |}.
Definition op_upd_cancel_error (v : grpc_error) (o : grpc_transport_stream_op_batch)
  : grpc_transport_stream_op_batch :=
  {| send_initial_metadata := send_initial_metadata o; send_message := send_message o; send_trailing_metadata := send_trailing_metadata o;
     recv_initial_metadata := recv_initial_metadata o; recv_message := recv_message o; recv_trailing_metadata := recv_trailing_metadata o;
     collect_stats := collect_stats o; cancel_stream := cancel_stream o; cancel_error := v |}.

Definition zero_stream_op : grpc_transport_stream_op_batch :=
  {| send_initial_metadata := false; send_message := false; send_trailing_metadata := false;
     recv_initial_metadata := false; recv_message := false; recv_trailing_metadata := false;
     collect_stats := false; cancel_stream := false; cancel_error := GRPC_ERROR_NONE |}.

Record batch_control := {
  bctl_call : bool;
  notify_tag : Z;
  is_closure : bool;
  steps_to_complete : Z;
  errors : list grpc_error;
  num_errors : Z;
  stream_op : grpc_transport_stream_op_batch
}.

Definition bctl_upd_bctl_call (v : bool) (b : batch_control) : batch_control :=
  {| bctl_call := v; notify_tag := notify_tag b; is_closure := is_closure b; steps_to_complete := steps_to_complete b;
     errors := errors b; num_errors := num_errors b; stream_op := stream_op b |}.
Definition bctl_upd_notify_tag (v : Z) (b : batch_control) : batch_control :=
  {| bctl_call := bctl_call b; notify_tag := v; is_closure := is_closure b; steps_to_complete := steps_to_complete b;
     errors := errors b; num_errors := num_errors b; stream_op := stream_op b |}.
Definition bctl_upd_is_closure (v : bool) (b : batch_control) : batch_control :=
  {| bctl_call := bctl_call b; notify_tag := notify_tag b; is_closure := v; steps_to_complete := steps_to_complete b;
     errors := errors b; num_errors := num_errors b; stream_op := stream_op b |}.
Definition bctl_upd_steps_to_complete (v : Z) (b : batch_control) : batch_control :=
  {| bctl_call := bctl_call b; notify_tag := notify_tag b; is_closure := is_closure b; steps_to_complete := v;
     errors := errors b; num_errors := num_errors b; stream_op := stream_op b |}.
Definition bctl_upd_errors (v : list grpc_error) (b : batch_control) : batch_control :=
  {| bctl_call := bctl_call b; notify_tag := notify_tag b; is_closure := is_closure b; steps_to_complete := steps_to_complete b;
     errors := v; num_errors := num_errors b; stream_op := stream_op b |}.
Definition bctl_upd_num_errors (v : Z) (b : batch_control) : batch_control :=
  {| bctl_call := bctl_call b; notify_tag := notify_tag b; is_closure := is_closure b; steps_to_complete := steps_to_complete b;
     errors := errors b; num_errors := v; stream_op := stream_op b |}.
Definition bctl_upd_stream_op (v : grpc_transport_stream_op_batch) (b : batch_control) : batch_control :=
  {| bctl_call := bctl_call b; notify_tag := notify_tag b; is_closure := is_closure b; steps_to_complete := steps_to_complete b;
     errors := errors b; num_errors := num_errors b; stream_op := v |}.

(** [memset(bctl, 0, sizeof( *bctl))]. *)
Definition zero_batch_control : batch_control :=
  {| bctl_call := false; notify_tag := 0; is_closure := false; steps_to_complete := 0;
     errors := replicate 4 GRPC_ERROR_NONE; num_errors := 0; stream_op := zero_stream_op |}.

(** The sibling ring of a parent, from [first_child] following
    [sibling_next]; the empty list is [first_child == NULL]. *)
Record child_entry := {
  child_id : nat;
  child_cancellation_is_inherited : bool
}.

Record parent_call := {
  first_child_ring : list child_entry
}.

Inductive recv_state_t : Set :=
| RECV_NONE
| RECV_INITIAL_METADATA_FIRST
| RECV_BCTL (bctlp : nat).

(** The cells the pointers of [final_op] designate, [None] until written. *)
Record final_op_t := {
  client_status : option grpc_status_code;
  client_status_details : option grpc_slice;
  server_cancelled : option Z
}.

Inductive marker : Set :=
| Enter_recv_initial_filter
| Enter_validate_filtered_metadata
| Enter_process_data_after_md (bctlp : nat).

Inductive event : Type :=
| EvInternalRef (reason : string)
| EvInternalUnref (reason : string)
| EvCombinerStart (batch : grpc_transport_stream_op_batch)
| EvCombinerStop (reason : string)
| EvCombinerCancel (e : grpc_error)
| EvCqBeginOp (tag : Z)
| EvCqEndOp (tag : Z) (e : grpc_error)
| EvClosureRun (tag : Z) (e : grpc_error)
| EvClosureSched (tag : Z) (e : grpc_error)
| EvCancelChild (child : nat) (source : status_source) (e : grpc_error)
| EvMark (m : marker).

(** One atomic word of [status]: [0], or the error pointer with its low bit set. *)
Inductive gpr_atm_status : Type :=
| ATM_ZERO
| ATM_SET (e : grpc_error).

Record grpc_call := {
  is_client : bool;
  parent_call_atm : option parent_call;
  cancellation_is_inherited : bool;
  flag : call_flag -> bool;
  any_ops_sent_atm : Z;
  received_final_op_atm : Z;
  active_batches : gmap nat batch_control;
  metadata_batch : bool -> bool -> grpc_metadata_batch;
  buffered_metadata : bool -> option grpc_metadata_array;
  compression_md : grpc_metadata;
  status : status_source -> gpr_atm_status;
  incoming_message_compression_algorithm : Z;
  incoming_stream_compression_algorithm : Z;
  encodings_accepted_by_peer : Z;
  context_tracing : Z;
  send_extra_metadata : list grpc_mdelem;
  send_extra_metadata_count : Z;
  send_deadline : gpr_timespec;
  sending_stream : option grpc_slice_buffer_stream;
  receiving_stream : option grpc_byte_stream;
  receiving_buffer : option (option grpc_byte_buffer);
  test_only_last_message_flags : Z;
  final_op : final_op_t;
  recv_state : recv_state_t;
  trace : list event
}.

Definition upd_is_client (v : bool) (c : grpc_call) : grpc_call :=
  {| is_client := v; parent_call_atm := parent_call_atm c;
     cancellation_is_inherited := cancellation_is_inherited c; flag := flag c;
     any_ops_sent_atm := any_ops_sent_atm c; received_final_op_atm := received_final_op_atm c;
     active_batches := active_batches c; metadata_batch := metadata_batch c;
     buffered_metadata := buffered_metadata c; compression_md := compression_md c;
     status := status c;
     incoming_message_compression_algorithm := incoming_message_compression_algorithm c;
     incoming_stream_compression_algorithm := incoming_stream_compression_algorithm c;
     encodings_accepted_by_peer := encodings_accepted_by_peer c;
     context_tracing := context_tracing c; send_extra_metadata := send_extra_metadata c;
     send_extra_metadata_count := send_extra_metadata_count c;
     send_deadline := send_deadline c; sending_stream := sending_stream c;
     receiving_stream := receiving_stream c; receiving_buffer := receiving_buffer c;
     test_only_last_message_flags := test_only_last_message_flags c; final_op := final_op c;
     recv_state := recv_state c; trace := trace c |}.
Definition upd_parent_call_atm (v : option parent_call) (c : grpc_call) : grpc_call :=
  {| is_client := is_client c; parent_call_atm := v;
     cancellation_is_inherited := cancellation_is_inherited c; flag := flag c;
     any_ops_sent_atm := any_ops_sent_atm c; received_final_op_atm := received_final_op_atm c;
     active_batches := active_batches c; metadata_batch := metadata_batch c;
     buffered_metadata := buffered_metadata c; compression_md := compression_md c;
     status := status c;
     incoming_message_compression_algorithm := incoming_message_compression_algorithm c;
     incoming_stream_compression_algorithm := incoming_stream_compression_algorithm c;
     encodings_accepted_by_peer := encodings_accepted_by_peer c;
     context_tracing := context_tracing c; send_extra_metadata := send_extra_metadata c;
     send_extra_metadata_count := send_extra_metadata_count c;
     send_deadline := send_deadline c; sending_stream := sending_stream c;
     receiving_stream := receiving_stream c; receiving_buffer := receiving_buffer c;
     test_only_last_message_flags := test_only_last_message_flags c; final_op := final_op c;
     recv_state := recv_state c; trace := trace c |}.
Definition upd_cancellation_is_inherited (v : bool) (c : grpc_call) : grpc_call :=
  {| is_client := is_client c; parent_call_atm := parent_call_atm c;
     cancellation_is_inherited := v; flag := flag c; any_ops_sent_atm := any_ops_sent_atm c;
     received_final_op_atm := received_final_op_atm c; active_batches := active_batches c;
     metadata_batch := metadata_batch c; buffered_metadata := buffered_metadata c;
     compression_md := compression_md c; status := status c;
     incoming_message_compression_algorithm := incoming_message_compression_algorithm c;
     incoming_stream_compression_algorithm := incoming_stream_compression_algorithm c;
     encodings_accepted_by_peer := encodings_accepted_by_peer c;
     context_tracing := context_tracing c; send_extra_metadata := send_extra_metadata c;
     send_extra_metadata_count := send_extra_metadata_count c;
     send_deadline := send_deadline c; sending_stream := sending_stream c;
     receiving_stream := receiving_stream c; receiving_buffer := receiving_buffer c;
     test_only_last_message_flags := test_only_last_message_flags c; final_op := final_op c;
     recv_state := recv_state c; trace := trace c |}.
Definition upd_flag (v : call_flag -> bool) (c : grpc_call) : grpc_call :=
  {| is_client := is_client c; parent_call_atm := parent_call_atm c;
     cancellation_is_inherited := cancellation_is_inherited c; flag := v;
     any_ops_sent_atm := any_ops_sent_atm c; received_final_op_atm := received_final_op_atm c;
     active_batches := active_batches c; metadata_batch := metadata_batch c;
     buffered_metadata := buffered_metadata c; compression_md := compression_md c;
     status := status c;
     incoming_message_compression_algorithm := incoming_message_compression_algorithm c;
     incoming_stream_compression_algorithm := incoming_stream_compression_algorithm c;
     encodings_accepted_by_peer := encodings_accepted_by_peer c;
     context_tracing := context_tracing c; send_extra_metadata := send_extra_metadata c;
     send_extra_metadata_count := send_extra_metadata_count c;
     send_deadline := send_deadline c; sending_stream := sending_stream c;
     receiving_stream := receiving_stream c; receiving_buffer := receiving_buffer c;
     test_only_last_message_flags := test_only_last_message_flags c; final_op := final_op c;
     recv_state := recv_state c; trace := trace c |}.
Definition upd_any_ops_sent_atm (v : Z) (c : grpc_call) : grpc_call :=
  {| is_client := is_client c; parent_call_atm := parent_call_atm c;
     cancellation_is_inherited := cancellation_is_inherited c; flag := flag c;
     any_ops_sent_atm := v; received_final_op_atm := received_final_op_atm c;
     active_batches := active_batches c; metadata_batch := metadata_batch c;
     buffered_metadata := buffered_metadata c; compression_md := compression_md c;
     status := status c;
     incoming_message_compression_algorithm := incoming_message_compression_algorithm c;
     incoming_stream_compression_algorithm := incoming_stream_compression_algorithm c;
     encodings_accepted_by_peer := encodings_accepted_by_peer c;
     context_tracing := context_tracing c; send_extra_metadata := send_extra_metadata c;
     send_extra_metadata_count := send_extra_metadata_count c;
     send_deadline := send_deadline c; sending_stream := sending_stream c;
     receiving_stream := receiving_stream c; receiving_buffer := receiving_buffer c;
     test_only_last_message_flags := test_only_last_message_flags c; final_op := final_op c;
     recv_state := recv_state c; trace := trace c |}.
Definition upd_received_final_op_atm (v : Z) (c : grpc_call) : grpc_call :=
  {| is_client := is_client c; parent_call_atm := parent_call_atm c;
     cancellation_is_inherited := cancellation_is_inherited c; flag := flag c;
     any_ops_sent_atm := any_ops_sent_atm c; received_final_op_atm := v;
     active_batches := active_batches c; metadata_batch := metadata_batch c;
     buffered_metadata := buffered_metadata c; compression_md := compression_md c;
     status := status c;
     incoming_message_compression_algorithm := incoming_message_compression_algorithm c;
     incoming_stream_compression_algorithm := incoming_stream_compression_algorithm c;
     encodings_accepted_by_peer := encodings_accepted_by_peer c;
     context_tracing := context_tracing c; send_extra_metadata := send_extra_metadata c;
     send_extra_metadata_count := send_extra_metadata_count c;
     send_deadline := send_deadline c; sending_stream := sending_stream c;
     receiving_stream := receiving_stream c; receiving_buffer := receiving_buffer c;
     test_only_last_message_flags := test_only_last_message_flags c; final_op := final_op c;
     recv_state := recv_state c; trace := trace c |}.
Definition upd_active_batches (v : gmap nat batch_control) (c : grpc_call) : grpc_call :=
  {| is_client := is_client c; parent_call_atm := parent_call_atm c;
     cancellation_is_inherited := cancellation_is_inherited c; flag := flag c;
     any_ops_sent_atm := any_ops_sent_atm c; received_final_op_atm := received_final_op_atm c;
     active_batches := v; metadata_batch := metadata_batch c;
     buffered_metadata := buffered_metadata c; compression_md := compression_md c;
     status := status c;
     incoming_message_compression_algorithm := incoming_message_compression_algorithm c;
     incoming_stream_compression_algorithm := incoming_stream_compression_algorithm c;
     encodings_accepted_by_peer := encodings_accepted_by_peer c;
     context_tracing := context_tracing c; send_extra_metadata := send_extra_metadata c;
     send_extra_metadata_count := send_extra_metadata_count c;
     send_deadline := send_deadline c; sending_stream := sending_stream c;
     receiving_stream := receiving_stream c; receiving_buffer := receiving_buffer c;
     test_only_last_message_flags := test_only_last_message_flags c; final_op := final_op c;
     recv_state := recv_state c; trace := trace c |}.
Definition upd_metadata_batch (v : bool -> bool -> grpc_metadata_batch) (c : grpc_call) : grpc_call :=
  {| is_client := is_client c; parent_call_atm := parent_call_atm c;
     cancellation_is_inherited := cancellation_is_inherited c; flag := flag c;
     any_ops_sent_atm := any_ops_sent_atm c; received_final_op_atm := received_final_op_atm c;
     active_batches := active_batches c; metadata_batch := v;
     buffered_metadata := buffered_metadata c; compression_md := compression_md c;
     status := status c;
     incoming_message_compression_algorithm := incoming_message_compression_algorithm c;
     incoming_stream_compression_algorithm := incoming_stream_compression_algorithm c;
     encodings_accepted_by_peer := encodings_accepted_by_peer c;
     context_tracing := context_tracing c; send_extra_metadata := send_extra_metadata c;
     send_extra_metadata_count := send_extra_metadata_count c;
     send_deadline := send_deadline c; sending_stream := sending_stream c;
     receiving_stream := receiving_stream c; receiving_buffer := receiving_buffer c;
     test_only_last_message_flags := test_only_last_message_flags c; final_op := final_op c;
     recv_state := recv_state c; trace := trace c |}.
Definition upd_buffered_metadata (v : bool -> option grpc_metadata_array) (c : grpc_call) : grpc_call :=
  {| is_client := is_client c; parent_call_atm := parent_call_atm c;
     cancellation_is_inherited := cancellation_is_inherited c; flag := flag c;
     any_ops_sent_atm := any_ops_sent_atm c; received_final_op_atm := received_final_op_atm c;
     active_batches := active_batches c; metadata_batch := metadata_batch c;
     buffered_metadata := v; compression_md := compression_md c; status := status c;
     incoming_message_compression_algorithm := incoming_message_compression_algorithm c;
     incoming_stream_compression_algorithm := incoming_stream_compression_algorithm c;
     encodings_accepted_by_peer := encodings_accepted_by_peer c;
     context_tracing := context_tracing c; send_extra_metadata := send_extra_metadata c;
     send_extra_metadata_count := send_extra_metadata_count c;
     send_deadline := send_deadline c; sending_stream := sending_stream c;
     receiving_stream := receiving_stream c; receiving_buffer := receiving_buffer c;
     test_only_last_message_flags := test_only_last_message_flags c; final_op := final_op c;
     recv_state := recv_state c; trace := trace c |}.
Definition upd_compression_md (v : grpc_metadata) (c : grpc_call) : grpc_call :=
  {| is_client := is_client c; parent_call_atm := parent_call_atm c;
     cancellation_is_inherited := cancellation_is_inherited c; flag := flag c;
     any_ops_sent_atm := any_ops_sent_atm c; received_final_op_atm := received_final_op_atm c;
     active_batches := active_batches c; metadata_batch := metadata_batch c;
     buffered_metadata := buffered_metadata c; compression_md := v; status := status c;
     incoming_message_compression_algorithm := incoming_message_compression_algorithm c;
     incoming_stream_compression_algorithm := incoming_stream_compression_algorithm c;
     encodings_accepted_by_peer := encodings_accepted_by_peer c;
     context_tracing := context_tracing c; send_extra_metadata := send_extra_metadata c;
     send_extra_metadata_count := send_extra_metadata_count c;
     send_deadline := send_deadline c; sending_stream := sending_stream c;
     receiving_stream := receiving_stream c; receiving_buffer := receiving_buffer c;
     test_only_last_message_flags := test_only_last_message_flags c; final_op := final_op c;
     recv_state := recv_state c; trace := trace c |}.
Definition upd_status (v : status_source -> gpr_atm_status) (c : grpc_call) : grpc_call :=
  {| is_client := is_client c; parent_call_atm := parent_call_atm c;
     cancellation_is_inherited := cancellation_is_inherited c; flag := flag c;
     any_ops_sent_atm := any_ops_sent_atm c; received_final_op_atm := received_final_op_atm c;
     active_batches := active_batches c; metadata_batch := metadata_batch c;
     buffered_metadata := buffered_metadata c; compression_md := compression_md c; status := v;
     incoming_message_compression_algorithm := incoming_message_compression_algorithm c;
     incoming_stream_compression_algorithm := incoming_stream_compression_algorithm c;
     encodings_accepted_by_peer := encodings_accepted_by_peer c;
     context_tracing := context_tracing c; send_extra_metadata := send_extra_metadata c;
     send_extra_metadata_count := send_extra_metadata_count c;
     send_deadline := send_deadline c; sending_stream := sending_stream c;
     receiving_stream := receiving_stream c; receiving_buffer := receiving_buffer c;
     test_only_last_message_flags := test_only_last_message_flags c; final_op := final_op c;
     recv_state := recv_state c; trace := trace c |}.
Definition upd_incoming_message_compression_algorithm (v : Z) (c : grpc_call) : grpc_call :=
  {| is_client := is_client c; parent_call_atm := parent_call_atm c;
     cancellation_is_inherited := cancellation_is_inherited c; flag := flag c;
     any_ops_sent_atm := any_ops_sent_atm c; received_final_op_atm := received_final_op_atm c;
     active_batches := active_batches c; metadata_batch := metadata_batch c;
     buffered_metadata := buffered_metadata c; compression_md := compression_md c;
     status := status c; incoming_message_compression_algorithm := v;
     incoming_stream_compression_algorithm := incoming_stream_compression_algorithm c;
     encodings_accepted_by_peer := encodings_accepted_by_peer c;
     context_tracing := context_tracing c; send_extra_metadata := send_extra_metadata c;
     send_extra_metadata_count := send_extra_metadata_count c;
     send_deadline := send_deadline c; sending_stream := sending_stream c;
     receiving_stream := receiving_stream c; receiving_buffer := receiving_buffer c;
     test_only_last_message_flags := test_only_last_message_flags c; final_op := final_op c;
     recv_state := recv_state c; trace := trace c |}.
Definition upd_incoming_stream_compression_algorithm (v : Z) (c : grpc_call) : grpc_call :=
  {| is_client := is_client c; parent_call_atm := parent_call_atm c;
     cancellation_is_inherited := cancellation_is_inherited c; flag := flag c;
     any_ops_sent_atm := any_ops_sent_atm c; received_final_op_atm := received_final_op_atm c;
     active_batches := active_batches c; metadata_batch := metadata_batch c;
     buffered_metadata := buffered_metadata c; compression_md := compression_md c;
     status := status c;
     incoming_message_compression_algorithm := incoming_message_compression_algorithm c;
     incoming_stream_compression_algorithm := v;
     encodings_accepted_by_peer := encodings_accepted_by_peer c;
     context_tracing := context_tracing c; send_extra_metadata := send_extra_metadata c;
     send_extra_metadata_count := send_extra_metadata_count c;
     send_deadline := send_deadline c; sending_stream := sending_stream c;
     receiving_stream := receiving_stream c; receiving_buffer := receiving_buffer c;
     test_only_last_message_flags := test_only_last_message_flags c; final_op := final_op c;
     recv_state := recv_state c; trace := trace c |}.
Definition upd_encodings_accepted_by_peer (v : Z) (c : grpc_call) : grpc_call :=
  {| is_client := is_client c; parent_call_atm := parent_call_atm c;
     cancellation_is_inherited := cancellation_is_inherited c; flag := flag c;
     any_ops_sent_atm := any_ops_sent_atm c; received_final_op_atm := received_final_op_atm c;
     active_batches := active_batches c; metadata_batch := metadata_batch c;
     buffered_metadata := buffered_metadata c; compression_md := compression_md c;
     status := status c;
     incoming_message_compression_algorithm := incoming_message_compression_algorithm c;
     incoming_stream_compression_algorithm := incoming_stream_compression_algorithm c;
     encodings_accepted_by_peer := v; context_tracing := context_tracing c;
     send_extra_metadata := send_extra_metadata c;
     send_extra_metadata_count := send_extra_metadata_count c;
     send_deadline := send_deadline c; sending_stream := sending_stream c;
     receiving_stream := receiving_stream c; receiving_buffer := receiving_buffer c;
     test_only_last_message_flags := test_only_last_message_flags c; final_op := final_op c;
     recv_state := recv_state c; trace := trace c |}.
Definition upd_context_tracing (v : Z) (c : grpc_call) : grpc_call :=
  {| is_client := is_client c; parent_call_atm := parent_call_atm c;
     cancellation_is_inherited := cancellation_is_inherited c; flag := flag c;
     any_ops_sent_atm := any_ops_sent_atm c; received_final_op_atm := received_final_op_atm c;
     active_batches := active_batches c; metadata_batch := metadata_batch c;
     buffered_metadata := buffered_metadata c; compression_md := compression_md c;
     status := status c;
     incoming_message_compression_algorithm := incoming_message_compression_algorithm c;
     incoming_stream_compression_algorithm := incoming_stream_compression_algorithm c;
     encodings_accepted_by_peer := encodings_accepted_by_peer c; context_tracing := v;
     send_extra_metadata := send_extra_metadata c;
     send_extra_metadata_count := send_extra_metadata_count c;
     send_deadline := send_deadline c; sending_stream := sending_stream c;
     receiving_stream := receiving_stream c; receiving_buffer := receiving_buffer c;
     test_only_last_message_flags := test_only_last_message_flags c; final_op := final_op c;
     recv_state := recv_state c; trace := trace c |}.
Definition upd_send_extra_metadata (v : list grpc_mdelem) (c : grpc_call) : grpc_call :=
  {| is_client := is_client c; parent_call_atm := parent_call_atm c;
     cancellation_is_inherited := cancellation_is_inherited c; flag := flag c;
     any_ops_sent_atm := any_ops_sent_atm c; received_final_op_atm := received_final_op_atm c;
     active_batches := active_batches c; metadata_batch := metadata_batch c;
     buffered_metadata := buffered_metadata c; compression_md := compression_md c;
     status := status c;
     incoming_message_compression_algorithm := incoming_message_compression_algorithm c;
     incoming_stream_compression_algorithm := incoming_stream_compression_algorithm c;
     encodings_accepted_by_peer := encodings_accepted_by_peer c;
     context_tracing := context_tracing c; send_extra_metadata := v;
     send_extra_metadata_count := send_extra_metadata_count c;
     send_deadline := send_deadline c; sending_stream := sending_stream c;
     receiving_stream := receiving_stream c; receiving_buffer := receiving_buffer c;
     test_only_last_message_flags := test_only_last_message_flags c; final_op := final_op c;
     recv_state := recv_state c; trace := trace c |}.
Definition upd_send_extra_metadata_count (v : Z) (c : grpc_call) : grpc_call :=
  {| is_client := is_client c; parent_call_atm := parent_call_atm c;
     cancellation_is_inherited := cancellation_is_inherited c; flag := flag c;
     any_ops_sent_atm := any_ops_sent_atm c; received_final_op_atm := received_final_op_atm c;
     active_batches := active_batches c; metadata_batch := metadata_batch c;
     buffered_metadata := buffered_metadata c; compression_md := compression_md c;
     status := status c;
     incoming_message_compression_algorithm := incoming_message_compression_algorithm c;
     incoming_stream_compression_algorithm := incoming_stream_compression_algorithm c;
     encodings_accepted_by_peer := encodings_accepted_by_peer c;
     context_tracing := context_tracing c; send_extra_metadata := send_extra_metadata c;
     send_extra_metadata_count := v; send_deadline := send_deadline c;
     sending_stream := sending_stream c; receiving_stream := receiving_stream c;
     receiving_buffer := receiving_buffer c;
     test_only_last_message_flags := test_only_last_message_flags c; final_op := final_op c;
     recv_state := recv_state c; trace := trace c |}.
Definition upd_send_deadline (v : gpr_timespec) (c : grpc_call) : grpc_call :=
  {| is_client := is_client c; parent_call_atm := parent_call_atm c;
     cancellation_is_inherited := cancellation_is_inherited c; flag := flag c;
     any_ops_sent_atm := any_ops_sent_atm c; received_final_op_atm := received_final_op_atm c;
     active_batches := active_batches c; metadata_batch := metadata_batch c;
     buffered_metadata := buffered_metadata c; compression_md := compression_md c;
     status := status c;
     incoming_message_compression_algorithm := incoming_message_compression_algorithm c;
     incoming_stream_compression_algorithm := incoming_stream_compression_algorithm c;
     encodings_accepted_by_peer := encodings_accepted_by_peer c;
     context_tracing := context_tracing c; send_extra_metadata := send_extra_metadata c;
     send_extra_metadata_count := send_extra_metadata_count c; send_deadline := v;
     sending_stream := sending_stream c; receiving_stream := receiving_stream c;
     receiving_buffer := receiving_buffer c;
     test_only_last_message_flags := test_only_last_message_flags c; final_op := final_op c;
     recv_state := recv_state c; trace := trace c |}.
Definition upd_sending_stream (v : option grpc_slice_buffer_stream) (c : grpc_call) : grpc_call :=
  {| is_client := is_client c; parent_call_atm := parent_call_atm c;
     cancellation_is_inherited := cancellation_is_inherited c; flag := flag c;
     any_ops_sent_atm := any_ops_sent_atm c; received_final_op_atm := received_final_op_atm c;
     active_batches := active_batches c; metadata_batch := metadata_batch c;
     buffered_metadata := buffered_metadata c; compression_md := compression_md c;
     status := status c;
     incoming_message_compression_algorithm := incoming_message_compression_algorithm c;
     incoming_stream_compression_algorithm := incoming_stream_compression_algorithm c;
     encodings_accepted_by_peer := encodings_accepted_by_peer c;
     context_tracing := context_tracing c; send_extra_metadata := send_extra_metadata c;
     send_extra_metadata_count := send_extra_metadata_count c;
     send_deadline := send_deadline c; sending_stream := v;
     receiving_stream := receiving_stream c; receiving_buffer := receiving_buffer c;
     test_only_last_message_flags := test_only_last_message_flags c; final_op := final_op c;
     recv_state := recv_state c; trace := trace c |}.
Definition upd_receiving_stream (v : option grpc_byte_stream) (c : grpc_call) : grpc_call :=
  {| is_client := is_client c; parent_call_atm := parent_call_atm c;
     cancellation_is_inherited := cancellation_is_inherited c; flag := flag c;
     any_ops_sent_atm := any_ops_sent_atm c; received_final_op_atm := received_final_op_atm c;
     active_batches := active_batches c; metadata_batch := metadata_batch c;
     buffered_metadata := buffered_metadata c; compression_md := compression_md c;
     status := status c;
     incoming_message_compression_algorithm := incoming_message_compression_algorithm c;
     incoming_stream_compression_algorithm := incoming_stream_compression_algorithm c;
     encodings_accepted_by_peer := encodings_accepted_by_peer c;
     context_tracing := context_tracing c; send_extra_metadata := send_extra_metadata c;
     send_extra_metadata_count := send_extra_metadata_count c;
     send_deadline := send_deadline c; sending_stream := sending_stream c;
     receiving_stream := v; receiving_buffer := receiving_buffer c;
     test_only_last_message_flags := test_only_last_message_flags c; final_op := final_op c;
     recv_state := recv_state c; trace := trace c |}.
Definition upd_receiving_buffer (v : option (option grpc_byte_buffer)) (c : grpc_call) : grpc_call :=
  {| is_client := is_client c; parent_call_atm := parent_call_atm c;
     cancellation_is_inherited := cancellation_is_inherited c; flag := flag c;
     any_ops_sent_atm := any_ops_sent_atm c; received_final_op_atm := received_final_op_atm c;
     active_batches := active_batches c; metadata_batch := metadata_batch c;
     buffered_metadata := buffered_metadata c; compression_md := compression_md c;
     status := status c;
     incoming_message_compression_algorithm := incoming_message_compression_algorithm c;
     incoming_stream_compression_algorithm := incoming_stream_compression_algorithm c;
     encodings_accepted_by_peer := encodings_accepted_by_peer c;
     context_tracing := context_tracing c; send_extra_metadata := send_extra_metadata c;
     send_extra_metadata_count := send_extra_metadata_count c;
     send_deadline := send_deadline c; sending_stream := sending_stream c;
     receiving_stream := receiving_stream c; receiving_buffer := v;
     test_only_last_message_flags := test_only_last_message_flags c; final_op := final_op c;
     recv_state := recv_state c; trace := trace c |}.
Definition upd_test_only_last_message_flags (v : Z) (c : grpc_call) : grpc_call :=
  {| is_client := is_client c; parent_call_atm := parent_call_atm c;
     cancellation_is_inherited := cancellation_is_inherited c; flag := flag c;
     any_ops_sent_atm := any_ops_sent_atm c; received_final_op_atm := received_final_op_atm c;
     active_batches := active_batches c; metadata_batch := metadata_batch c;
     buffered_metadata := buffered_metadata c; compression_md := compression_md c;
     status := status c;
     incoming_message_compression_algorithm := incoming_message_compression_algorithm c;
     incoming_stream_compression_algorithm := incoming_stream_compression_algorithm c;
     encodings_accepted_by_peer := encodings_accepted_by_peer c;
     context_tracing := context_tracing c; send_extra_metadata := send_extra_metadata c;
     send_extra_metadata_count := send_extra_metadata_count c;
     send_deadline := send_deadline c; sending_stream := sending_stream c;
     receiving_stream := receiving_stream c; receiving_buffer := receiving_buffer c;
     test_only_last_message_flags := v; final_op := final_op c; recv_state := recv_state c;
     trace := trace c |}.
Definition upd_final_op (v : final_op_t) (c : grpc_call) : grpc_call :=
  {| is_client := is_client c; parent_call_atm := parent_call_atm c;
     cancellation_is_inherited := cancellation_is_inherited c; flag := flag c;
     any_ops_sent_atm := any_ops_sent_atm c; received_final_op_atm := received_final_op_atm c;
     active_batches := active_batches c; metadata_batch := metadata_batch c;
     buffered_metadata := buffered_metadata c; compression_md := compression_md c;
     status := status c;
     incoming_message_compression_algorithm := incoming_message_compression_algorithm c;
     incoming_stream_compression_algorithm := incoming_stream_compression_algorithm c;
     encodings_accepted_by_peer := encodings_accepted_by_peer c;
     context_tracing := context_tracing c; send_extra_metadata := send_extra_metadata c;
     send_extra_metadata_count := send_extra_metadata_count c;
     send_deadline := send_deadline c; sending_stream := sending_stream c;
     receiving_stream := receiving_stream c; receiving_buffer := receiving_buffer c;
     test_only_last_message_flags := test_only_last_message_flags c; final_op := v;
     recv_state := recv_state c; trace := trace c |}.
Definition upd_recv_state (v : recv_state_t) (c : grpc_call) : grpc_call :=
  {| is_client := is_client c; parent_call_atm := parent_call_atm c;
     cancellation_is_inherited := cancellation_is_inherited c; flag := flag c;
     any_ops_sent_atm := any_ops_sent_atm c; received_final_op_atm := received_final_op_atm c;
     active_batches := active_batches c; metadata_batch := metadata_batch c;
     buffered_metadata := buffered_metadata c; compression_md := compression_md c;
     status := status c;
     incoming_message_compression_algorithm := incoming_message_compression_algorithm c;
     incoming_stream_compression_algorithm := incoming_stream_compression_algorithm c;
     encodings_accepted_by_peer := encodings_accepted_by_peer c;
     context_tracing := context_tracing c; send_extra_metadata := send_extra_metadata c;
     send_extra_metadata_count := send_extra_metadata_count c;
     send_deadline := send_deadline c; sending_stream := sending_stream c;
     receiving_stream := receiving_stream c; receiving_buffer := receiving_buffer c;
     test_only_last_message_flags := test_only_last_message_flags c; final_op := final_op c;
     recv_state := v; trace := trace c |}.
Definition upd_trace (v : list event) (c : grpc_call) : grpc_call :=
  {| is_client := is_client c; parent_call_atm := parent_call_atm c;
     cancellation_is_inherited := cancellation_is_inherited c; flag := flag c;
     any_ops_sent_atm := any_ops_sent_atm c; received_final_op_atm := received_final_op_atm c;
     active_batches := active_batches c; metadata_batch := metadata_batch c;
     buffered_metadata := buffered_metadata c; compression_md := compression_md c;
     status := status c;
     incoming_message_compression_algorithm := incoming_message_compression_algorithm c;
     incoming_stream_compression_algorithm := incoming_stream_compression_algorithm c;
     encodings_accepted_by_peer := encodings_accepted_by_peer c;
     context_tracing := context_tracing c; send_extra_metadata := send_extra_metadata c;
     send_extra_metadata_count := send_extra_metadata_count c;
     send_deadline := send_deadline c; sending_stream := sending_stream c;
     receiving_stream := receiving_stream c; receiving_buffer := receiving_buffer c;
     test_only_last_message_flags := test_only_last_message_flags c; final_op := final_op c;
     recv_state := recv_state c; trace := v |}.

Definition emit (e : event) (c : grpc_call) : grpc_call :=
  upd_trace (trace c ++ [e]) c.

(** Assignment to one entry of an array indexed by a source enum or by booleans. *)
Definition status_store (i : status_source) (v : gpr_atm_status)
    (a : status_source -> gpr_atm_status) : status_source -> gpr_atm_status :=
  fun j => if status_source_eqb i j then v else a j.

Definition flag_store (i : call_flag) (v : bool) (a : call_flag -> bool) : call_flag -> bool :=
  fun j => if call_flag_eqb i j then v else a j.

Definition set_call_flag (i : call_flag) (v : bool) (c : grpc_call) : grpc_call :=
  upd_flag (flag_store i v (flag c)) c.

Definition store1 {A} (i : bool) (v : A) (a : bool -> A) : bool -> A :=
  fun j => if Bool.eqb i j then v else a j.

Definition store2 {A} (i j : bool) (v : A) (a : bool -> bool -> A) : bool -> bool -> A :=
  fun i' j' => if Bool.eqb i i' && Bool.eqb j j' then v else a i' j'.

Definition set_md_batch (is_receiving is_trailing : bool) (b : grpc_metadata_batch)
    (c : grpc_call) : grpc_call :=
  upd_metadata_batch (store2 is_receiving is_trailing b (metadata_batch c)) c.

(** The value a [for] loop returns from its first iteration that returns. *)
Fixpoint first_some {A B} (f : A -> option B) (l : list A) : option B :=
  match l with
  | [] => None
  | x :: l' =>
      match f x with
      | Some r => Some r
      | None => first_some f l'
      end
  end.

Definition string_of_Z (z : Z) : string :=
  NilZero.string_of_int (Z.to_int z).

Section Call.
Context {ext : Externals}.

(** ** Status arbiter *)

Record received_status := {
  is_set : bool;
  error : grpc_error
}.

Definition pack_received_status (r : received_status) : gpr_atm_status :=
  if is_set r then ATM_SET (error r) else ATM_ZERO.

Definition unpack_received_status (atm : gpr_atm_status) : received_status :=
  match atm with
  | ATM_ZERO => {| is_set := false; error := GRPC_ERROR_NONE |}
  | ATM_SET e => {| is_set := true; error := e |}
  end.

(** [gpr_atm_rel_cas(p, o, n)] on a status word whose expected value [o] is
    the packed unset status: succeeds exactly when the word is zero. *)
Definition gpr_atm_rel_cas_status (cur o n : gpr_atm_status) : bool * gpr_atm_status :=
  match cur, o with
  | ATM_ZERO, ATM_ZERO => (true, n)
  | _, _ => (false, cur)
  end.

Definition set_status_from_error (call : grpc_call) (source : status_source)
    (error : grpc_error) : grpc_call :=
  let '(ok, w) :=
    gpr_atm_rel_cas_status (status call source)
      (pack_received_status {| is_set := false; error := GRPC_ERROR_NONE |})
      (pack_received_status {| is_set := true; error := error |}) in
  if ok then upd_status (status_store source w (status call)) call
  else (* GRPC_ERROR_UNREF(error) *) call.

(** Returns the code passed to [set_value] and the slice stored to
    [details], or [None] for [false]. *)
Definition get_final_status_from (call : grpc_call) (error : grpc_error)
    (allow_ok_status : bool) : option (grpc_status_code * grpc_slice) :=
  let '(code, slice) := grpc_error_get_status error (send_deadline call) in
  if (code =? GRPC_STATUS_OK) && negb allow_ok_status then None
  else Some (code, slice).

(** The body of the loop over [allow_ok_status]. *)
Definition get_final_status_search (call : grpc_call)
    (status : status_source -> received_status) (allow_ok_status : bool)
  : option (grpc_status_code * grpc_slice) :=
  match
    first_some
      (fun i =>
         if is_set (status i) && grpc_error_has_clear_grpc_status (error (status i))
         then get_final_status_from call (error (status i)) allow_ok_status
         else None)
      STATUS_SOURCES
  with
  | Some r => Some r
  | None =>
      first_some
        (fun i =>
           if is_set (status i)
           then get_final_status_from call (error (status i)) allow_ok_status
           else None)
        STATUS_SOURCES
  end.

(** The code given to [set_value], and the slice stored to [details] when
    one is stored (none is on the default path). *)
Definition get_final_status (call : grpc_call) : grpc_status_code * option grpc_slice :=
  let status := fun i => unpack_received_status (status call i) in
  match first_some (get_final_status_search call status) [false; true] with
  | Some (code, slice) => (code, Some slice)
  | None =>
      if is_client call then (GRPC_STATUS_UNKNOWN, None)
      else (GRPC_STATUS_OK, None)
  end.

Definition set_status_value_directly (status : grpc_status_code) : grpc_status_code := status.

Definition set_cancelled_value (status : grpc_status_code) : Z :=
  if status =? GRPC_STATUS_OK then 0 else 1.

(** The selection of the specification, written as one search: the
    candidates of a pass are the set sources whose error carries an explicit
    status, in priority order, followed by all set sources in priority
    order; the first pass refuses OK, the second accepts it; the first
    acceptable candidate wins. *)
Definition set_error (call : grpc_call) (i : status_source) : option grpc_error :=
  match status call i with
  | ATM_SET e => Some e
  | ATM_ZERO => None
  end.

(** The status derived from an error. *)
Definition code_of (call : grpc_call) (e : grpc_error) : grpc_status_code :=
  fst (grpc_error_get_status e (send_deadline call)).

Definition spec_candidates (call : grpc_call) : list grpc_error :=
  let set_errors := omap (set_error call) STATUS_SOURCES in
  filter (fun e => grpc_error_has_clear_grpc_status e = true) set_errors ++ set_errors.

Definition spec_final_status (call : grpc_call) : grpc_status_code :=
  let non_ok :=
    filter (fun e => code_of call e <> GRPC_STATUS_OK) (spec_candidates call) in
  match non_ok ++ spec_candidates call with
  | e :: _ => code_of call e
  | [] => if is_client call then GRPC_STATUS_UNKNOWN else GRPC_STATUS_OK
  end.

(** ** Cancellation *)

Definition execute_batch (call : grpc_call) (batch : grpc_transport_stream_op_batch)
  : grpc_call :=
  emit (EvCombinerStart batch) call.

(** The batch [cancel_with_error] makes with [grpc_make_transport_stream_op]. *)
Definition cancel_stream_op (error : grpc_error) : grpc_transport_stream_op_batch :=
  op_upd_cancel_error error (op_upd_cancel_stream true zero_stream_op).

Definition cancel_with_error (c : grpc_call) (source : status_source) (error : grpc_error)
  : grpc_call :=
  let c := emit (EvInternalRef "termination") c in
  (* Inform the call combiner of the cancellation, so that it can cancel
     any in-flight asynchronous actions that may be holding the call
     combiner. *)
  let c := emit (EvCombinerCancel error) c in
  let c := set_status_from_error c source error in
  execute_batch c (cancel_stream_op error).

Definition done_termination (c : grpc_call) : grpc_call :=
  emit (EvInternalUnref "termination")
    (emit (EvCombinerStop "on_complete for cancel_stream op") c).

Definition error_from_status (status : grpc_status_code) (description : string)
  : grpc_error :=
  grpc_error_set_int
    (grpc_error_set_str (GRPC_ERROR_CREATE description)
       GRPC_ERROR_STR_GRPC_MESSAGE description)
    GRPC_ERROR_INT_GRPC_STATUS status.

Definition cancel_with_status (c : grpc_call) (source : status_source)
    (status : grpc_status_code) (description : string) : grpc_call :=
  cancel_with_error c source (error_from_status status description).

Definition grpc_call_cancel (call : grpc_call) (reserved : bool)
  : outcome (grpc_call_error * grpc_call) :=
  let* _ := GPR_ASSERT (negb reserved) "!reserved" in
  Ret (GRPC_CALL_OK, cancel_with_error call STATUS_FROM_API_OVERRIDE GRPC_ERROR_CANCELLED).

Definition grpc_call_cancel_with_status (c : grpc_call) (status : grpc_status_code)
    (description : string) (reserved : bool) : outcome (grpc_call_error * grpc_call) :=
  let* _ := GPR_ASSERT (negb reserved) "reserved == NULL" in
  Ret (GRPC_CALL_OK, cancel_with_status c STATUS_FROM_API_OVERRIDE status description).

Definition add_init_error (composite new : grpc_error) : grpc_error :=
  if is_error_none new then composite
  else
    let composite :=
      if is_error_none composite then GRPC_ERROR_CREATE "Call creation failed"
      else composite in
    grpc_error_add_child composite new.


(** ** Compression settings and metadata filters *)

Definition set_incoming_message_compression_algorithm (call : grpc_call) (algo : Z)
  : outcome grpc_call :=
  let* _ := GPR_ASSERT (algo <? GRPC_MESSAGE_COMPRESS_ALGORITHMS_COUNT)
              "algo < GRPC_MESSAGE_COMPRESS_ALGORITHMS_COUNT" in
  Ret (upd_incoming_message_compression_algorithm algo call).

Definition set_incoming_stream_compression_algorithm (call : grpc_call) (algo : Z)
  : outcome grpc_call :=
  let* _ := GPR_ASSERT (algo <? GRPC_STREAM_COMPRESS_ALGORITHMS_COUNT)
              "algo < GRPC_STREAM_COMPRESS_ALGORITHMS_COUNT" in
  Ret (upd_incoming_stream_compression_algorithm algo call).

Definition compression_algorithm_for_level_locked (call : grpc_call) (level : Z) : Z :=
  grpc_compression_algorithm_for_level level (encodings_accepted_by_peer call).

(** The bitset stored through [encodings_accepted_by_peer]; the cache the
    source leaves on the element is dropped with the element, which every
    caller removes from the batch. *)
Definition set_encodings_accepted_by_peer (mdel : grpc_mdelem) (stream_encoding : bool) : Z :=
  let accepted_user_data :=
    grpc_mdelem_get_user_data mdel destroy_encodings_accepted_by_peer in
  if negb (accepted_user_data =? 0) then (accepted_user_data - 1) mod UINT32_MODULUS
  else
    fold_left
      (fun bits entry =>
         let r :=
           if negb stream_encoding then grpc_message_compression_algorithm_parse entry
           else grpc_stream_compression_algorithm_parse entry in
         match r with
         | Some algorithm => GPR_BITSET bits algorithm
         | None => bits
         end)
      (grpc_slice_split_without_space (GRPC_MDVALUE mdel))
      (GPR_BITSET 0 GRPC_COMPRESS_NONE).

(** The decoded status and the element with the decoded value cached on it. *)
Definition decode_status (md : grpc_mdelem) : Z * grpc_mdelem :=
  if grpc_mdelem_eq md GRPC_MDELEM_GRPC_STATUS_0 then (0, md)
  else if grpc_mdelem_eq md GRPC_MDELEM_GRPC_STATUS_1 then (1, md)
  else if grpc_mdelem_eq md GRPC_MDELEM_GRPC_STATUS_2 then (2, md)
  else
    let user_data := grpc_mdelem_get_user_data md destroy_status in
    if negb (user_data =? 0)
    then ((user_data mod UINT32_MODULUS - STATUS_OFFSET) mod UINT32_MODULUS, md)
    else
      let status :=
        match grpc_parse_slice_to_uint32 (GRPC_MDVALUE md) with
        | Some s => s
        | None => GRPC_STATUS_UNKNOWN (* could not parse status code *)
        end in
      (status,
       grpc_mdelem_set_user_data md destroy_status
         ((status + STATUS_OFFSET) mod UINT32_MODULUS)).

Definition decode_message_compression (md : grpc_mdelem) : Z :=
  let algorithm := grpc_message_compression_algorithm_from_slice (GRPC_MDVALUE md) in
  if algorithm =? GRPC_MESSAGE_COMPRESS_ALGORITHMS_COUNT then GRPC_MESSAGE_COMPRESS_NONE
  else algorithm.

Definition decode_stream_compression (md : grpc_mdelem) : Z :=
  let algorithm := grpc_stream_compression_algorithm_from_slice (GRPC_MDVALUE md) in
  if algorithm =? GRPC_STREAM_COMPRESS_ALGORITHMS_COUNT then GRPC_STREAM_COMPRESS_NONE
  else algorithm.

Definition mdusr (l : grpc_mdelem) : grpc_metadata :=
  {| md_key := GRPC_MDKEY l; md_value := GRPC_MDVALUE l |}.

Definition publish_app_metadata (call : grpc_call) (b : grpc_metadata_batch)
    (is_trailing : bool) : outcome grpc_call :=
  match md_list b with
  | [] => Ret call
  | _ :: _ =>
      match buffered_metadata call is_trailing with
      | None => Abort "publish_app_metadata: null destination"
      | Some dest =>
          Ret (upd_buffered_metadata
                 (store1 is_trailing (Some (dest ++ map mdusr (md_list b)))
                    (buffered_metadata call))
                 call)
      end
  end.

Definition recv_initial_filter (call : grpc_call) : outcome grpc_call :=
  let call := emit (EvMark Enter_recv_initial_filter) call in
  let b := metadata_batch call true false in
  let* (call, b) :=
    match idx_named b GRPC_MDSTR_CONTENT_ENCODING with
    | Some md =>
        let* call :=
          set_incoming_stream_compression_algorithm call (decode_stream_compression md) in
        Ret (call, grpc_metadata_batch_remove b GRPC_MDSTR_CONTENT_ENCODING)
    | None => Ret (call, b)
    end in
  let* (call, b) :=
    match idx_named b GRPC_MDSTR_GRPC_ENCODING with
    | Some md =>
        let* call :=
          set_incoming_message_compression_algorithm call (decode_message_compression md) in
        Ret (call, grpc_metadata_batch_remove b GRPC_MDSTR_GRPC_ENCODING)
    | None => Ret (call, b)
    end in
  let '(message_encodings_accepted_by_peer, b) :=
    match idx_named b GRPC_MDSTR_GRPC_ACCEPT_ENCODING with
    | Some md =>
        (set_encodings_accepted_by_peer md false,
         grpc_metadata_batch_remove b GRPC_MDSTR_GRPC_ACCEPT_ENCODING)
    | None => (1, b)
    end in
  let '(stream_encodings_accepted_by_peer, b) :=
    match idx_named b GRPC_MDSTR_ACCEPT_ENCODING with
    | Some md =>
        (set_encodings_accepted_by_peer md true,
         grpc_metadata_batch_remove b GRPC_MDSTR_ACCEPT_ENCODING)
    | None => (1, b)
    end in
  let call :=
    upd_encodings_accepted_by_peer
      (grpc_compression_bitset_from_message_stream_compression_bitset
         message_encodings_accepted_by_peer stream_encodings_accepted_by_peer)
      call in
  let call := set_md_batch true false b call in
  publish_app_metadata call b false.

(** The error [recv_trailing_filter] makes of a decoded status and of the
    [grpc-message] element of the batch. *)
Definition wire_error (status_code : Z) (grpc_message : option grpc_mdelem) : grpc_error :=
  let error :=
    if status_code =? GRPC_STATUS_OK then GRPC_ERROR_NONE
    else grpc_error_set_int (GRPC_ERROR_CREATE "Error received from peer")
           GRPC_ERROR_INT_GRPC_STATUS status_code in
  match grpc_message with
  | Some md => grpc_error_set_str error GRPC_ERROR_STR_GRPC_MESSAGE (GRPC_MDVALUE md)
  | None =>
      if negb (is_error_none error)
      then grpc_error_set_str error GRPC_ERROR_STR_GRPC_MESSAGE grpc_empty_slice
      else error
  end.

Definition recv_trailing_filter (call : grpc_call) : outcome grpc_call :=
  let b := metadata_batch call true true in
  let '(call, b) :=
    match idx_named b GRPC_MDSTR_GRPC_STATUS with
    | Some grpc_status =>
        let status_code := fst (decode_status grpc_status) in
        let grpc_message := idx_named b GRPC_MDSTR_GRPC_MESSAGE in
        let error := wire_error status_code grpc_message in
        let b :=
          match grpc_message with
          | Some _ => grpc_metadata_batch_remove b GRPC_MDSTR_GRPC_MESSAGE
          | None => b
          end in
        let call := set_status_from_error call STATUS_FROM_WIRE error in
        (call, grpc_metadata_batch_remove b GRPC_MDSTR_GRPC_STATUS)
    | None => (call, b)
    end in
  let call := set_md_batch true true b call in
  publish_app_metadata call b true.

Definition validate_filtered_metadata (call : grpc_call) : outcome grpc_call :=
  let call := emit (EvMark Enter_validate_filtered_metadata) call in
  if negb (incoming_stream_compression_algorithm call =? GRPC_STREAM_COMPRESS_NONE)
     && negb (incoming_message_compression_algorithm call =? GRPC_MESSAGE_COMPRESS_NONE)
  then
    let error_msg :=
      ("Incoming stream has both stream compression ("
         ++ string_of_Z (incoming_stream_compression_algorithm call)
         ++ ") and message compression ("
         ++ string_of_Z (incoming_message_compression_algorithm call) ++ ").")%string in
    Ret (cancel_with_status call STATUS_FROM_SURFACE GRPC_STATUS_INTERNAL error_msg)
  else
    match
      grpc_compression_algorithm_from_message_stream_compression_algorithm
        (incoming_message_compression_algorithm call)
        (incoming_stream_compression_algorithm call)
    with
    | None =>
        let error_msg :=
          ("Error in incoming message compression ("
             ++ string_of_Z (incoming_stream_compression_algorithm call)
             ++ ") or stream compression ("
             ++ string_of_Z (incoming_message_compression_algorithm call) ++ ").")%string in
        Ret (cancel_with_status call STATUS_FROM_SURFACE GRPC_STATUS_INTERNAL error_msg)
    | Some compression_algorithm =>
        let call :=
          if GRPC_COMPRESS_ALGORITHMS_COUNT <=? compression_algorithm then
            cancel_with_status call STATUS_FROM_SURFACE GRPC_STATUS_UNIMPLEMENTED
              ("Invalid compression algorithm value '"
                 ++ string_of_Z compression_algorithm ++ "'.")%string
          else if negb (grpc_compression_options_is_algorithm_enabled compression_algorithm)
          then
            cancel_with_status call STATUS_FROM_SURFACE GRPC_STATUS_UNIMPLEMENTED
              ("Compression algorithm '"
                 ++ grpc_compression_algorithm_name compression_algorithm
                 ++ "' is disabled.")%string
          else call in
        let* _ := GPR_ASSERT (negb (encodings_accepted_by_peer call =? 0))
                    "call->encodings_accepted_by_peer != 0" in
        (* a compression trace line when the algorithm is not in the bitset *)
        Ret call
    end.

(** ** Batch completion *)

Definition batch_slot_for_op (type : grpc_op_type) : nat :=
  match type with
  | GRPC_OP_SEND_INITIAL_METADATA => 0
  | GRPC_OP_SEND_MESSAGE => 1
  | GRPC_OP_SEND_CLOSE_FROM_CLIENT
  | GRPC_OP_SEND_STATUS_FROM_SERVER => 2
  | GRPC_OP_RECV_INITIAL_METADATA => 3
  | GRPC_OP_RECV_MESSAGE => 4
  | GRPC_OP_RECV_CLOSE_ON_SERVER
  | GRPC_OP_RECV_STATUS_ON_CLIENT => 5
  end%nat.

(** Dereferences a [batch_control*]; its [call] back-pointer is followed
    by every reader, so a control that is free or missing ends the run. *)
Definition get_bctl (c : grpc_call) (bctlp : nat) : outcome batch_control :=
  match active_batches c !! bctlp with
  | None => Abort "batch_control: null pointer"
  | Some bctl =>
      if bctl_call bctl then Ret bctl else Abort "bctl->call: null pointer"
  end.

Definition put_bctl (bctlp : nat) (bctl : batch_control) (c : grpc_call) : grpc_call :=
  upd_active_batches (<[bctlp := bctl]> (active_batches c)) c.

Definition finish_batch_completion (c : grpc_call) (bctlp : nat) : outcome grpc_call :=
  let* bctl := get_bctl c bctlp in
  let c := put_bctl bctlp (bctl_upd_bctl_call false bctl) c in
  Ret (emit (EvInternalUnref "completion") c).

Definition consolidate_batch_errors (bctl : batch_control)
  : outcome (grpc_error * batch_control) :=
  let n := num_errors bctl in
  if n =? 0 then Ret (GRPC_ERROR_NONE, bctl)
  else if n =? 1 then
    match errors bctl !! 0%nat with
    | Some e => Ret (e, bctl_upd_errors (<[0%nat := GRPC_ERROR_NONE]> (errors bctl)) bctl)
    | None => Abort "bctl->errors: out of bounds"
    end
  else
    let* _ := GPR_ASSERT (n <=? Z.of_nat (length (errors bctl)))
                "bctl->errors: out of bounds" in
    let error :=
      GRPC_ERROR_CREATE_REFERENCING "Call batch failed" (take (Z.to_nat n) (errors bctl)) in
    Ret (error,
         bctl_upd_errors
           (replicate (Z.to_nat n) GRPC_ERROR_NONE ++ drop (Z.to_nat n) (errors bctl))
           bctl).

Definition get_or_create_parent_call (call : grpc_call) : parent_call * grpc_call :=
  match parent_call_atm call with
  | Some p => (p, call)
  | None =>
      let p := {| first_child_ring := [] |} in
      (p, upd_parent_call_atm (Some p) call)
  end.

Definition get_parent_call (call : grpc_call) : option parent_call := parent_call_atm call.

(** The fan-out of a cancellation to the children that inherit it: the
    walk of the sibling ring in [post_batch_completion]. *)
Definition propagate_cancellation (call : grpc_call) : grpc_call :=
  match get_parent_call call with
  | None => call
  | Some pc =>
      fold_left
        (fun call child =>
           if child_cancellation_is_inherited child then
             emit (EvCancelChild (child_id child) STATUS_FROM_API_OVERRIDE
                     GRPC_ERROR_CANCELLED) call
           else call)
        (first_child_ring pc) call
  end.

Definition post_batch_completion (call : grpc_call) (bctlp : nat) : outcome grpc_call :=
  let* bctl := get_bctl call bctlp in
  let* (error, bctl) := consolidate_batch_errors bctl in
  let call := put_bctl bctlp bctl call in
  let call :=
    if send_initial_metadata (stream_op bctl)
    then set_md_batch false false empty_metadata_batch call else call in
  let call :=
    if send_message (stream_op bctl) then set_call_flag sending_message false call
    else call in
  let call :=
    if send_trailing_metadata (stream_op bctl)
    then set_md_batch false true empty_metadata_batch call else call in
  let* (call, error) :=
    if recv_trailing_metadata (stream_op bctl) then
      let* call := recv_trailing_filter call in
      (* propagate cancellation to any interested children *)
      let call := upd_received_final_op_atm 1 call in
      let call := propagate_cancellation call in
      let final := get_final_status call in
      let call :=
        if is_client call then
          upd_final_op
            {| client_status := Some (set_status_value_directly (fst final));
               client_status_details :=
                 match snd final with
                 | Some details => Some details
                 | None => client_status_details (final_op call)
                 end;
               server_cancelled := server_cancelled (final_op call) |}
            call
        else
          upd_final_op
            {| client_status := client_status (final_op call);
               client_status_details := client_status_details (final_op call);
               server_cancelled := Some (set_cancelled_value (fst final)) |}
            call in
      Ret (call, GRPC_ERROR_NONE)
    else Ret (call, error) in
  if is_closure bctl then
    let call := put_bctl bctlp (bctl_upd_bctl_call false bctl) call in
    let call := emit (EvClosureRun (notify_tag bctl) error) call in
    Ret (emit (EvInternalUnref "completion") call)
  else
    Ret (emit (EvCqEndOp (notify_tag bctl) error) call).

Definition finish_batch_step (call : grpc_call) (bctlp : nat) : outcome grpc_call :=
  let* bctl := get_bctl call bctlp in
  let n := steps_to_complete bctl - 1 in
  let call := put_bctl bctlp (bctl_upd_steps_to_complete n bctl) call in
  if n =? 0 then post_batch_completion call bctlp else Ret call.

(** ** Message receiver *)

(** [grpc_byte_stream_destroy(call->receiving_stream)] followed by
    [call->receiving_stream = NULL]. *)
Definition destroy_receiving_stream (call : grpc_call) : grpc_call :=
  upd_receiving_stream None call.

(** [*call->receiving_buffer]. *)
Definition deref_receiving_buffer (call : grpc_call) : outcome (option grpc_byte_buffer) :=
  match receiving_buffer call with
  | None => Abort "call->receiving_buffer: null pointer"
  | Some b => Ret b
  end.

Definition store_receiving_buffer (b : option grpc_byte_buffer) (call : grpc_call)
  : outcome grpc_call :=
  match receiving_buffer call with
  | None => Abort "call->receiving_buffer: null pointer"
  | Some _ => Ret (upd_receiving_buffer (Some b) call)
  end.

(** The steps shared by the two places that give up on a message: destroy
    the stream and the buffer, clear [receiving_message], finish the step. *)
Definition abandon_message (call : grpc_call) (bctlp : nat) : outcome grpc_call :=
  let call := destroy_receiving_stream call in
  let* _ := deref_receiving_buffer call in
  let* call := store_receiving_buffer None call in
  let call := set_call_flag receiving_message false call in
  finish_batch_step call bctlp.

(** The loop of [continue_receiving_slices], by recursion on what the
    stream still has to say; [length] and [flags] are those of
    [call->receiving_stream], whose script is [script]. *)
Fixpoint continue_receiving_slices_from (script : list stream_step) (length flags : Z)
    (call : grpc_call) (bctlp : nat) : outcome grpc_call :=
  let* buffer := deref_receiving_buffer call in
  match buffer with
  | None => Abort "*call->receiving_buffer: null pointer"
  | Some buffer =>
      let remaining := (length - slice_buffer_length (bb_slices buffer)) mod 2 ^ 64 in
      if remaining =? 0 then
        let call := set_call_flag receiving_message false call in
        let call := destroy_receiving_stream call in
        finish_batch_step call bctlp
      else
        match script with
        | NextReady (PullSlice slice) :: script' =>
            let call :=
              upd_receiving_stream
                (Some {| bs_length := length; bs_flags := flags; bs_script := script' |})
                call in
            let* call :=
              store_receiving_buffer (Some (grpc_slice_buffer_add buffer slice)) call in
            continue_receiving_slices_from script' length flags call bctlp
        | NextReady (PullError _) :: _ => abandon_message call bctlp
        | NextPending _ :: _ | [] => Ret call
        end
  end.

Definition continue_receiving_slices (call : grpc_call) (bctlp : nat) : outcome grpc_call :=
  let* _ := get_bctl call bctlp in
  match receiving_stream call with
  | None => Abort "call->receiving_stream: null pointer"
  | Some bs =>
      continue_receiving_slices_from (bs_script bs) (bs_length bs) (bs_flags bs) call bctlp
  end.

Definition receiving_slice_ready (call : grpc_call) (bctlp : nat) (error : grpc_error)
  : outcome grpc_call :=
  let* _ := get_bctl call bctlp in
  if is_error_none error then
    match receiving_stream call with
    | None => Abort "grpc_byte_stream_pull: null stream"
    | Some bs =>
        match bs_script bs with
        | [] => Abort "grpc_byte_stream_pull: nothing to pull"
        | (NextReady r | NextPending r) :: script' =>
            let call :=
              upd_receiving_stream
                (Some {| bs_length := bs_length bs; bs_flags := bs_flags bs;
                         bs_script := script' |})
                call in
            match r with
            | PullSlice slice =>
                let* buffer := deref_receiving_buffer call in
                match buffer with
                | None => Abort "*call->receiving_buffer: null pointer"
                | Some buffer =>
                    let* call :=
                      store_receiving_buffer
                        (Some (grpc_slice_buffer_add buffer slice)) call in
                    continue_receiving_slices call bctlp
                end
            | PullError _ => abandon_message call bctlp
            end
        end
    end
  else abandon_message call bctlp.

Definition process_data_after_md (call : grpc_call) (bctlp : nat) : outcome grpc_call :=
  let call := emit (EvMark (Enter_process_data_after_md bctlp)) call in
  let* _ := get_bctl call bctlp in
  match receiving_stream call with
  | None =>
      let* call := store_receiving_buffer None call in
      let call := set_call_flag receiving_message false call in
      finish_batch_step call bctlp
  | Some bs =>
      let call := upd_test_only_last_message_flags (bs_flags bs) call in
      let* buffer :=
        if negb (Z.land (bs_flags bs) GRPC_WRITE_INTERNAL_COMPRESS =? 0)
           && (GRPC_MESSAGE_COMPRESS_NONE <? incoming_message_compression_algorithm call)
        then
          match
            grpc_compression_algorithm_from_message_stream_compression_algorithm
              (incoming_message_compression_algorithm call) 0
          with
          | Some algo => Ret (grpc_raw_compressed_byte_buffer_create algo)
          | None =>
              Abort "grpc_compression_algorithm_from_message_stream_compression_algorithm"
          end
        else Ret grpc_raw_byte_buffer_create in
      let* call := store_receiving_buffer (Some buffer) call in
      continue_receiving_slices call bctlp
  end.

(** ** Batch errors and the inbound callbacks *)

(** The report of a store past the end of [bctl->errors]. *)
Definition errors_out_of_bounds : string := "bctl->errors[idx]: out of bounds".

Definition add_batch_error (call : grpc_call) (bctlp : nat) (error : grpc_error)
    (has_cancelled : bool) : outcome grpc_call :=
  if is_error_none error then Ret call
  else
    let* bctl := get_bctl call bctlp in
    let idx := num_errors bctl in
    let bctl := bctl_upd_num_errors (idx + 1) bctl in
    let call := put_bctl bctlp bctl call in
    let call :=
      if (idx =? 0) && negb has_cancelled
      then cancel_with_error call STATUS_FROM_CORE error else call in
    let* _ := GPR_ASSERT ((0 <=? idx) && (idx <? Z.of_nat (length (errors bctl))))
                errors_out_of_bounds in
    Ret (put_bctl bctlp (bctl_upd_errors (<[Z.to_nat idx := error]> (errors bctl)) bctl)
           call).

Definition receiving_stream_ready (call : grpc_call) (bctlp : nat) (error : grpc_error)
  : outcome grpc_call :=
  let* _ := get_bctl call bctlp in
  let* call :=
    if negb (is_error_none error) then
      let call :=
        match receiving_stream call with
        | Some _ => destroy_receiving_stream call
        | None => call
        end in
      let* call := add_batch_error call bctlp error true in
      Ret (cancel_with_error call STATUS_FROM_SURFACE error)
    else Ret call in
  (* If recv_state is RECV_NONE, we will save the batch_control object with
     rel_cas, and will not use it after the cas. *)
  if negb (is_error_none error) then process_data_after_md call bctlp
  else
    match receiving_stream call with
    | None => process_data_after_md call bctlp
    | Some _ =>
        match recv_state call with
        | RECV_NONE => Ret (upd_recv_state (RECV_BCTL bctlp) call)
        | _ => process_data_after_md call bctlp
        end
    end.

Definition receiving_stream_ready_in_call_combiner (call : grpc_call) (bctlp : nat)
    (error : grpc_error) : outcome grpc_call :=
  let* _ := get_bctl call bctlp in
  let call := emit (EvCombinerStop "recv_message_ready") call in
  receiving_stream_ready call bctlp error.

Definition receiving_initial_metadata_ready (call : grpc_call) (bctlp : nat)
    (error : grpc_error) : outcome grpc_call :=
  let* _ := get_bctl call bctlp in
  let call := emit (EvCombinerStop "recv_initial_metadata_ready") call in
  let* call := add_batch_error call bctlp error false in
  let* call :=
    if is_error_none error then
      let* call := recv_initial_filter call in
      let* call := validate_filtered_metadata call in
      let md := metadata_batch call true false in
      if negb (gpr_time_is_inf_future (deadline md)) && negb (is_client call)
      then Ret (upd_send_deadline (deadline md) call)
      else Ret call
    else Ret call in
  let* (call, saved_rsr_closure) :=
    match recv_state call with
    | RECV_INITIAL_METADATA_FIRST =>
        (* Should only receive initial metadata once *)
        Abort "rsr_bctlp != 1"
    | RECV_NONE =>
        (* initial metadata is received first *)
        Ret (upd_recv_state RECV_INITIAL_METADATA_FIRST call, None)
    | RECV_BCTL rsr_bctlp =>
        (* Already received messages; no need to modify recv_state *)
        Ret (call, Some rsr_bctlp)
    end in
  let* call :=
    match saved_rsr_closure with
    | Some rsr_bctlp => receiving_stream_ready call rsr_bctlp error
    | None => Ret call
    end in
  finish_batch_step call bctlp.

Definition finish_batch (call : grpc_call) (bctlp : nat) (error : grpc_error)
  : outcome grpc_call :=
  let* _ := get_bctl call bctlp in
  let call := emit (EvCombinerStop "on_complete") call in
  let* call := add_batch_error call bctlp error false in
  finish_batch_step call bctlp.

(** ** Batch translator *)

Inductive grpc_op_data : Type :=
| Op_send_initial_metadata (metadata : list grpc_metadata)
    (maybe_compression_level : option Z)
| Op_send_message (send_message : option grpc_byte_buffer)
| Op_send_close_from_client
| Op_send_status_from_server (trailing_metadata : list grpc_metadata)
    (status : grpc_status_code) (status_details : option grpc_slice)
| Op_recv_initial_metadata (recv_initial_metadata : option grpc_metadata_array)
| Op_recv_message (recv_message : option (option grpc_byte_buffer))
| Op_recv_status_on_client (trailing_metadata : option grpc_metadata_array)
| Op_recv_close_on_server.

(** One surface op: the tagged union [data], [flags], and whether
    [reserved] is non-null. The metadata count of an op is the length of
    its metadata list. *)
Record grpc_op := {
  data : grpc_op_data;
  flags : Z;
  reserved : bool
}.

Definition op (o : grpc_op) : grpc_op_type :=
  match data o with
  | Op_send_initial_metadata _ _ => GRPC_OP_SEND_INITIAL_METADATA
  | Op_send_message _ => GRPC_OP_SEND_MESSAGE
  | Op_send_close_from_client => GRPC_OP_SEND_CLOSE_FROM_CLIENT
  | Op_send_status_from_server _ _ _ => GRPC_OP_SEND_STATUS_FROM_SERVER
  | Op_recv_initial_metadata _ => GRPC_OP_RECV_INITIAL_METADATA
  | Op_recv_message _ => GRPC_OP_RECV_MESSAGE
  | Op_recv_status_on_client _ => GRPC_OP_RECV_STATUS_ON_CLIENT
  | Op_recv_close_on_server => GRPC_OP_RECV_CLOSE_ON_SERVER
  end.

Definition are_write_flags_valid (flags : Z) : bool :=
  let allowed_write_positions := Z.lor GRPC_WRITE_USED_MASK GRPC_WRITE_INTERNAL_USED_MASK in
  let invalid_positions := uint32_not allowed_write_positions in
  Z.land flags invalid_positions =? 0.

Definition are_initial_metadata_flags_valid (flags : Z) (is_client : bool) : bool :=
  let invalid_positions := uint32_not GRPC_INITIAL_METADATA_USED_MASK in
  let invalid_positions :=
    if negb is_client
    then Z.lor invalid_positions GRPC_INITIAL_METADATA_IDEMPOTENT_REQUEST
    else invalid_positions in
  Z.land flags invalid_positions =? 0.

Definition grpc_mdelem_from_grpc_metadata (md : grpc_metadata) : grpc_mdelem :=
  MDELEM (md_key md) (md_value md) None.

(** The test of the first loop of [prepare_application_metadata]. *)
Definition metadata_is_legal (md : grpc_metadata) : bool :=
  grpc_validate_header_key_is_legal (md_key md)
  && (grpc_is_binary_header (md_key md)
      || grpc_validate_header_nonbin_value_is_legal (md_value md)).

Definition link_all (l : list grpc_mdelem) (b : grpc_metadata_batch) : grpc_metadata_batch :=
  fold_left grpc_metadata_batch_link_tail l b.

Definition prepare_application_metadata (call : grpc_call) (metadata : list grpc_metadata)
    (is_trailing : bool) (prepend_extra_metadata : bool)
    (additional_metadata : list grpc_metadata) : bool * grpc_call :=
  let all := metadata ++ additional_metadata in
  if negb (forallb metadata_is_legal all) then (false, call)
  else
    let batch := metadata_batch call false is_trailing in
    let batch :=
      if prepend_extra_metadata && negb (send_extra_metadata_count call =? 0)
      then
        link_all (take (Z.to_nat (send_extra_metadata_count call)) (send_extra_metadata call))
          batch
      else batch in
    let batch := link_all (map grpc_mdelem_from_grpc_metadata all) batch in
    let call := set_md_batch false is_trailing batch call in
    (true, upd_send_extra_metadata_count 0 call).

(** Finds or makes the control of the slot of the first op; [None] stands
    for the null result (the slot is in use). *)
Definition allocate_batch_control (call : grpc_call) (ops : list grpc_op)
  : outcome (option nat * grpc_call) :=
  match ops with
  | [] => Abort "ops[0]: out of bounds"
  | o :: _ =>
      let slot := batch_slot_for_op (op o) in
      let call :=
        match active_batches call !! slot with
        | None => put_bctl slot zero_batch_control call
        | Some _ => call
        end in
      match active_batches call !! slot with
      | None => Abort "allocate_batch_control: null slot"
      | Some bctl =>
          if bctl_call bctl then Ret (None, call)
          else Ret (Some slot, put_bctl slot (bctl_upd_bctl_call true zero_batch_control) call)
      end
  end.

(** The block "process compression level" of the SEND_INITIAL_METADATA
    case: the call with [compression_md] filled, and the additional
    metadata (that element, on a server with a level set; nothing
    otherwise). *)
Definition process_compression_level (call : grpc_call)
    (maybe_compression_level : option Z) : grpc_call * list grpc_metadata :=
  let call :=
    upd_compression_md {| md_key := EmptyString; md_value := EmptyString |} call in
  let level :=
    match maybe_compression_level with
    | Some l => Some l
    | None => channel_default_compression_level
    end in
  match level with
  | Some effective_compression_level =>
      if negb (is_client call) then
        let calgo :=
          compression_algorithm_for_level_locked call effective_compression_level in
        (* the following will be picked up by the compress filter and used
           as the call's compression algorithm. *)
        let md :=
          {| md_key := GRPC_MDSTR_GRPC_INTERNAL_ENCODING_REQUEST;
             md_value := grpc_compression_algorithm_slice calgo |} in
        (upd_compression_md md call, [md])
      else (call, [])
  | None => (call, [])
  end.

(** The block of the SEND_STATUS_FROM_SERVER case that fills
    [send_extra_metadata] with the status element, and the message element
    when there are details, and records the status as API_OVERRIDE. *)
Definition send_status_extra_metadata (call : grpc_call) (status : grpc_status_code)
    (status_details : option grpc_slice) : grpc_call :=
  let call := upd_send_extra_metadata_count 1 call in
  let call :=
    upd_send_extra_metadata
      (<[0%nat := grpc_channel_get_reffed_status_elem status]> (send_extra_metadata call))
      call in
  let override_error :=
    if negb (status =? GRPC_STATUS_OK)
    then GRPC_ERROR_CREATE "Error from server send status"
    else GRPC_ERROR_NONE in
  let (call, override_error) :=
    match status_details with
    | Some details =>
        (upd_send_extra_metadata_count (send_extra_metadata_count call + 1)
           (upd_send_extra_metadata
              (<[1%nat := MDELEM GRPC_MDSTR_GRPC_MESSAGE details None]>
                 (send_extra_metadata call)) call),
         grpc_error_set_str override_error GRPC_ERROR_STR_GRPC_MESSAGE details)
    | None => (call, override_error)
    end in
  set_status_from_error call STATUS_FROM_API_OVERRIDE override_error.

(** The state of the loop over the ops: the call, [*stream_op] and
    [num_completion_callbacks_needed]. *)
Record translation := {
  tr_call : grpc_call;
  tr_stream_op : grpc_transport_stream_op_batch;
  tr_callbacks : Z
}.

(** One iteration of the loop: [GRPC_CALL_OK] to go on, any other code for
    [goto done_with_error], each with the state reached. *)
Definition translate_op (o : grpc_op) (t : translation)
  : outcome (grpc_call_error * translation) :=
  let call := tr_call t in
  let stream_op := tr_stream_op t in
  let n := tr_callbacks t in
  let fail e := Ret (e, t) in
  if reserved o then fail GRPC_CALL_ERROR
  else
    match data o with
    | Op_send_initial_metadata metadata maybe_compression_level =>
        if negb (are_initial_metadata_flags_valid (flags o) (is_client call))
        then fail GRPC_CALL_ERROR_INVALID_FLAGS
        else if flag call sent_initial_metadata
        then fail GRPC_CALL_ERROR_TOO_MANY_OPERATIONS
        else
          let (call, additional) :=
            process_compression_level call maybe_compression_level in
          if INT_MAX <? Z.of_nat (length metadata) + Z.of_nat (length additional)
          then Ret (GRPC_CALL_ERROR_INVALID_METADATA,
                    {| tr_call := call; tr_stream_op := stream_op; tr_callbacks := n |})
          else
            let stream_op := op_upd_send_initial_metadata true stream_op in
            let call := set_call_flag sent_initial_metadata true call in
            let (ok, call) :=
              prepare_application_metadata call metadata false (is_client call) additional in
            if negb ok
            then Ret (GRPC_CALL_ERROR_INVALID_METADATA,
                      {| tr_call := call; tr_stream_op := stream_op; tr_callbacks := n |})
            else
              let call :=
                if is_client call
                then set_md_batch false false
                       (set_deadline (send_deadline call) (metadata_batch call false false))
                       call
                else call in
              Ret (GRPC_CALL_OK,
                   {| tr_call := call; tr_stream_op := stream_op; tr_callbacks := n |})
    | Op_send_message send_message =>
        if negb (are_write_flags_valid (flags o)) then fail GRPC_CALL_ERROR_INVALID_FLAGS
        else
          match send_message with
          | None => fail GRPC_CALL_ERROR_INVALID_MESSAGE
          | Some buffer =>
              if flag call sending_message then fail GRPC_CALL_ERROR_TOO_MANY_OPERATIONS
              else
                let stream_op := op_upd_send_message true stream_op in
                let call := set_call_flag sending_message true call in
                let stream_flags :=
                  if GRPC_COMPRESS_NONE <? bb_compression buffer
                  then Z.lor (flags o) GRPC_WRITE_INTERNAL_COMPRESS
                  else flags o in
                let call :=
                  upd_sending_stream
                    (Some {| ss_flags := stream_flags;
                             ss_backing_buffer := bb_slices buffer |}) call in
                Ret (GRPC_CALL_OK,
                     {| tr_call := call; tr_stream_op := stream_op; tr_callbacks := n |})
          end
    | Op_send_close_from_client =>
        if negb (flags o =? 0) then fail GRPC_CALL_ERROR_INVALID_FLAGS
        else if negb (is_client call) then fail GRPC_CALL_ERROR_NOT_ON_SERVER
        else if flag call sent_final_op then fail GRPC_CALL_ERROR_TOO_MANY_OPERATIONS
        else
          let stream_op := op_upd_send_trailing_metadata true stream_op in
          let call := set_call_flag sent_final_op true call in
          Ret (GRPC_CALL_OK,
               {| tr_call := call; tr_stream_op := stream_op; tr_callbacks := n |})
    | Op_send_status_from_server trailing_metadata status status_details =>
        if negb (flags o =? 0) then fail GRPC_CALL_ERROR_INVALID_FLAGS
        else if is_client call then fail GRPC_CALL_ERROR_NOT_ON_CLIENT
        else if flag call sent_final_op then fail GRPC_CALL_ERROR_TOO_MANY_OPERATIONS
        else if INT_MAX <? Z.of_nat (length trailing_metadata)
        then fail GRPC_CALL_ERROR_INVALID_METADATA
        else
          let stream_op := op_upd_send_trailing_metadata true stream_op in
          let call := set_call_flag sent_final_op true call in
          let* _ := GPR_ASSERT (send_extra_metadata_count call =? 0)
                      "call->send_extra_metadata_count == 0" in
          let call := send_status_extra_metadata call status status_details in
          let (ok, call') := prepare_application_metadata call trailing_metadata true true [] in
          if negb ok
          then Ret (GRPC_CALL_ERROR_INVALID_METADATA,
                    {| tr_call := upd_send_extra_metadata_count 0 call;
                       tr_stream_op := stream_op; tr_callbacks := n |})
          else
            Ret (GRPC_CALL_OK,
                 {| tr_call := call'; tr_stream_op := stream_op; tr_callbacks := n |})
    | Op_recv_initial_metadata recv_initial_metadata =>
        if negb (flags o =? 0) then fail GRPC_CALL_ERROR_INVALID_FLAGS
        else if flag call received_initial_metadata
        then fail GRPC_CALL_ERROR_TOO_MANY_OPERATIONS
        else
          let call := set_call_flag received_initial_metadata true call in
          let call :=
            upd_buffered_metadata
              (store1 false recv_initial_metadata (buffered_metadata call)) call in
          let stream_op := op_upd_recv_initial_metadata true stream_op in
          Ret (GRPC_CALL_OK,
               {| tr_call := call; tr_stream_op := stream_op; tr_callbacks := n + 1 |})
    | Op_recv_message recv_message =>
        if negb (flags o =? 0) then fail GRPC_CALL_ERROR_INVALID_FLAGS
        else if flag call receiving_message then fail GRPC_CALL_ERROR_TOO_MANY_OPERATIONS
        else
          let call := set_call_flag receiving_message true call in
          let stream_op := op_upd_recv_message true stream_op in
          let call := upd_receiving_buffer recv_message call in
          Ret (GRPC_CALL_OK,
               {| tr_call := call; tr_stream_op := stream_op; tr_callbacks := n + 1 |})
    | Op_recv_status_on_client trailing_metadata =>
        if negb (flags o =? 0) then fail GRPC_CALL_ERROR_INVALID_FLAGS
        else if negb (is_client call) then fail GRPC_CALL_ERROR_NOT_ON_SERVER
        else if flag call requested_final_op then fail GRPC_CALL_ERROR_TOO_MANY_OPERATIONS
        else
          let call := set_call_flag requested_final_op true call in
          let call :=
            upd_buffered_metadata
              (store1 true trailing_metadata (buffered_metadata call)) call in
          let stream_op :=
            op_upd_collect_stats true (op_upd_recv_trailing_metadata true stream_op) in
          Ret (GRPC_CALL_OK,
               {| tr_call := call; tr_stream_op := stream_op; tr_callbacks := n |})
    | Op_recv_close_on_server =>
        if negb (flags o =? 0) then fail GRPC_CALL_ERROR_INVALID_FLAGS
        else if is_client call then fail GRPC_CALL_ERROR_NOT_ON_CLIENT
        else if flag call requested_final_op then fail GRPC_CALL_ERROR_TOO_MANY_OPERATIONS
        else
          let call := set_call_flag requested_final_op true call in
          let stream_op :=
            op_upd_collect_stats true (op_upd_recv_trailing_metadata true stream_op) in
          Ret (GRPC_CALL_OK,
               {| tr_call := call; tr_stream_op := stream_op; tr_callbacks := n |})
    end.

(** The loop [for (i = 0; i < nops; i++)], left at the first error. *)
Fixpoint translate_ops (ops : list grpc_op) (t : translation)
  : outcome (grpc_call_error * translation) :=
  match ops with
  | [] => Ret (GRPC_CALL_OK, t)
  | o :: ops' =>
      let* (error, t) := translate_op o t in
      match error with
      | GRPC_CALL_OK => translate_ops ops' t
      | _ => Ret (error, t)
      end
  end.

(** The label [done_with_error]: reverse any mutations that occurred. *)
Definition done_with_error (stream_op : grpc_transport_stream_op_batch) (call : grpc_call)
  : grpc_call :=
  let call :=
    if send_initial_metadata stream_op then
      set_md_batch false false
        (grpc_metadata_batch_clear (metadata_batch call false false))
        (set_call_flag sent_initial_metadata false call)
    else call in
  let call :=
    if send_message stream_op then
      upd_sending_stream None (set_call_flag sending_message false call)
    else call in
  let call :=
    if send_trailing_metadata stream_op then
      set_md_batch false true
        (grpc_metadata_batch_clear (metadata_batch call false true))
        (set_call_flag sent_final_op false call)
    else call in
  let call :=
    if recv_initial_metadata stream_op
    then set_call_flag received_initial_metadata false call else call in
  let call :=
    if recv_message stream_op then set_call_flag receiving_message false call else call in
  if recv_trailing_metadata stream_op then set_call_flag requested_final_op false call
  else call.

Definition call_start_batch (call : grpc_call) (ops : list grpc_op) (notify_tag : Z)
    (is_notify_tag_closure : bool) : outcome (grpc_call_error * grpc_call) :=
  match ops with
  | [] =>
      if negb is_notify_tag_closure then
        let* _ := GPR_ASSERT (grpc_cq_begin_op notify_tag) "grpc_cq_begin_op" in
        let call := emit (EvCqBeginOp notify_tag) call in
        Ret (GRPC_CALL_OK, emit (EvCqEndOp notify_tag GRPC_ERROR_NONE) call)
      else Ret (GRPC_CALL_OK, emit (EvClosureSched notify_tag GRPC_ERROR_NONE) call)
  | _ :: _ =>
      let* (bctlp, call) := allocate_batch_control call ops in
      match bctlp with
      | None => Ret (GRPC_CALL_ERROR_TOO_MANY_OPERATIONS, call)
      | Some bctlp =>
          let* bctl := get_bctl call bctlp in
          let bctl :=
            bctl_upd_is_closure is_notify_tag_closure (bctl_upd_notify_tag notify_tag bctl) in
          (* rewrite batch ops into a transport op *)
          let* (error, t) :=
            translate_ops ops
              {| tr_call := call; tr_stream_op := stream_op bctl; tr_callbacks := 1 |} in
          let bctl := bctl_upd_stream_op (tr_stream_op t) bctl in
          let call := tr_call t in
          match error with
          | GRPC_CALL_OK =>
              let call := emit (EvInternalRef "completion") call in
              let* call :=
                if negb is_notify_tag_closure then
                  let* _ := GPR_ASSERT (grpc_cq_begin_op notify_tag) "grpc_cq_begin_op" in
                  Ret (emit (EvCqBeginOp notify_tag) call)
                else Ret call in
              let bctl := bctl_upd_steps_to_complete (tr_callbacks t) bctl in
              let call := put_bctl bctlp bctl call in
              let call := upd_any_ops_sent_atm 1 call in
              Ret (GRPC_CALL_OK, execute_batch call (stream_op bctl))
          | _ =>
              let call := put_bctl bctlp bctl call in
              Ret (error, done_with_error (tr_stream_op t) call)
          end
      end
  end.

Definition grpc_call_start_batch (call : grpc_call) (ops : list grpc_op) (tag : Z)
    (reserved : bool) : outcome (grpc_call_error * grpc_call) :=
  if reserved then Ret (GRPC_CALL_ERROR, call)
  else call_start_batch call ops tag false.

Definition grpc_call_start_batch_and_execute (call : grpc_call) (ops : list grpc_op)
    (closure : Z) : outcome (grpc_call_error * grpc_call) :=
  call_start_batch call ops closure true.

(** ** Call creation *)

Record grpc_call_create_args := {
  args_cq : option Z;
  args_pollset_set_alternative : option Z;
  server_transport_data : bool;
  add_initial_metadata : list grpc_mdelem;
  args_send_deadline : gpr_timespec;
  parent_call_arg : option grpc_call;
  propagation_mask : Z;
  (** the identity under which the new call enters the parent's ring *)
  call_id : nat;
  (** what [grpc_call_stack_init] returns for this call *)
  call_stack_init_result : grpc_error
}.

(** The call record as the arena hands it out, all zero. *)
Definition zero_call : grpc_call :=
  {| is_client := false; parent_call_atm := None; cancellation_is_inherited := false;
     flag := fun _ => false; any_ops_sent_atm := 0; received_final_op_atm := 0;
     active_batches := ∅;
     metadata_batch := fun _ _ => {| md_list := []; deadline := gpr_time 0 |};
     buffered_metadata := fun _ => None;
     compression_md := {| md_key := EmptyString; md_value := EmptyString |};
     status := fun _ => ATM_ZERO;
     incoming_message_compression_algorithm := 0;
     incoming_stream_compression_algorithm := 0;
     encodings_accepted_by_peer := 0; context_tracing := 0;
     send_extra_metadata :=
       replicate (Z.to_nat MAX_SEND_EXTRA_METADATA_COUNT) (MDELEM EmptyString EmptyString None);
     send_extra_metadata_count := 0; send_deadline := gpr_time 0;
     sending_stream := None; receiving_stream := None; receiving_buffer := None;
     test_only_last_message_flags := 0;
     final_op := {| client_status := None; client_status_details := None;
                    server_cancelled := None |};
     recv_state := RECV_NONE; trace := [] |}.


(** The state of the attach block of [grpc_call_create]. *)
Record attach := {
  at_call : grpc_call;
  at_parent : grpc_call;
  at_error : grpc_error;
  at_send_deadline : gpr_timespec;
  at_immediately_cancel : bool
}.

Definition attach_to_parent (args : grpc_call_create_args) (call parent : grpc_call)
    (deadline : gpr_timespec) : outcome attach :=
  let error := GRPC_ERROR_NONE in
  let parent := emit (EvInternalRef "child") parent in
  let* _ := GPR_ASSERT (is_client call) "call->is_client" in
  let* _ := GPR_ASSERT (negb (is_client parent)) "!args->parent_call->is_client" in
  let (pc, parent) := get_or_create_parent_call parent in
  let mask := propagation_mask args in
  let deadline :=
    if negb (Z.land mask GRPC_PROPAGATE_DEADLINE =? 0)
    then gpr_time_min deadline (send_deadline parent)
    else deadline in
  (* for now GRPC_PROPAGATE_TRACING_CONTEXT *MUST* be passed with
     GRPC_PROPAGATE_STATS_CONTEXT *)
  let (call, error) :=
    if negb (Z.land mask GRPC_PROPAGATE_CENSUS_TRACING_CONTEXT =? 0) then
      let error :=
        if Z.land mask GRPC_PROPAGATE_CENSUS_STATS_CONTEXT =? 0 then
          add_init_error error
            (GRPC_ERROR_CREATE
               "Census tracing propagation requested without Census context propagation")
        else error in
      (upd_context_tracing (context_tracing parent) call, error)
    else if negb (Z.land mask GRPC_PROPAGATE_CENSUS_STATS_CONTEXT =? 0) then
      (call,
       add_init_error error
         (GRPC_ERROR_CREATE
            "Census context propagation requested without Census tracing propagation"))
    else (call, error) in
  let (call, immediately_cancel) :=
    if negb (Z.land mask GRPC_PROPAGATE_CANCELLATION =? 0) then
      (upd_cancellation_is_inherited true call,
       negb (received_final_op_atm parent =? 0))
    else (call, false) in
  let child :=
    {| child_id := call_id args;
       child_cancellation_is_inherited := cancellation_is_inherited call |} in
  let pc := {| first_child_ring := first_child_ring pc ++ [child] |} in
  Ret {| at_call := call; at_parent := upd_parent_call_atm (Some pc) parent;
         at_error := error; at_send_deadline := deadline;
         at_immediately_cancel := immediately_cancel |}.

(** The error returned, the call made, and the parent after the attach. *)
Definition grpc_call_create (args : grpc_call_create_args)
  : outcome (grpc_error * grpc_call * option grpc_call) :=
  let call := zero_call in
  (* Always support no compression *)
  let call :=
    upd_encodings_accepted_by_peer
      (GPR_BITSET (encodings_accepted_by_peer call) GRPC_MESSAGE_COMPRESS_NONE) call in
  let call := upd_is_client (negb (server_transport_data args)) call in
  let count := Z.of_nat (length (add_initial_metadata args)) in
  let* call :=
    if is_client call then
      let* _ := GPR_ASSERT (count <? MAX_SEND_EXTRA_METADATA_COUNT)
                  "args->add_initial_metadata_count < MAX_SEND_EXTRA_METADATA_COUNT" in
      Ret (upd_send_extra_metadata_count count
             (upd_send_extra_metadata
                (add_initial_metadata args
                   ++ drop (length (add_initial_metadata args)) (send_extra_metadata call))
                call))
    else
      let* _ := GPR_ASSERT (count =? 0) "args->add_initial_metadata_count == 0" in
      Ret (upd_send_extra_metadata_count 0 call) in
  let call :=
    upd_metadata_batch
      (fun i j => set_deadline gpr_inf_future (metadata_batch call i j)) call in
  let deadline := args_send_deadline args in
  let* a :=
    match parent_call_arg args with
    | Some parent =>
        let* a := attach_to_parent args call parent deadline in
        Ret (at_call a, Some (at_parent a), at_error a, at_send_deadline a,
             at_immediately_cancel a)
    | None => Ret (call, None, GRPC_ERROR_NONE, deadline, false)
    end in
  let '(call, parent, error, deadline, immediately_cancel) := a in
  let call := upd_send_deadline deadline call in
  (* initial refcount dropped by grpc_call_unref *)
  let error := add_init_error error (call_stack_init_result args) in
  let call :=
    if negb (is_error_none error)
    then cancel_with_error call STATUS_FROM_SURFACE error else call in
  let call :=
    if immediately_cancel
    then cancel_with_error call STATUS_FROM_API_OVERRIDE GRPC_ERROR_CANCELLED
    else call in
  let* _ :=
    match args_cq args with
    | Some _ =>
        GPR_ASSERT (match args_pollset_set_alternative args with
                    | None => true
                    | Some _ => false
                    end)
          "Only one of 'cq' and 'pollset_set_alternative' should be non-NULL."
    | None => Ret tt
    end in
  Ret (error, call, parent).


(** ** Observations used by the properties *)

(** The bit of the transport batch an op flag of the call goes with: the
    pairs that [done_with_error] walks through. *)
Definition stream_op_bit (f : call_flag) (o : grpc_transport_stream_op_batch) : bool :=
  match f with
  | sent_initial_metadata => send_initial_metadata o
  | sending_message => send_message o
  | sent_final_op => send_trailing_metadata o
  | received_initial_metadata => recv_initial_metadata o
  | receiving_message => recv_message o
  | requested_final_op => recv_trailing_metadata o
  end.

(** The flag an op kind sets on the call. *)
Definition flag_of_op (type : grpc_op_type) : call_flag :=
  match type with
  | GRPC_OP_SEND_INITIAL_METADATA => sent_initial_metadata
  | GRPC_OP_SEND_MESSAGE => sending_message
  | GRPC_OP_SEND_CLOSE_FROM_CLIENT
  | GRPC_OP_SEND_STATUS_FROM_SERVER => sent_final_op
  | GRPC_OP_RECV_INITIAL_METADATA => received_initial_metadata
  | GRPC_OP_RECV_MESSAGE => receiving_message
  | GRPC_OP_RECV_STATUS_ON_CLIENT
  | GRPC_OP_RECV_CLOSE_ON_SERVER => requested_final_op
  end.

(** What the loop of [call_start_batch] has done to the op flags, [F0]
    being the flags at the start: a flag whose bit is set in the transport
    batch was false at the start and is true now; any other flag has its
    value from the start. *)
Definition tracked (F0 : call_flag -> bool) (t : translation) : Prop :=
  forall f,
    if stream_op_bit f (tr_stream_op t)
    then flag (tr_call t) f = true /\ F0 f = false
    else flag (tr_call t) f = F0 f.

(** The transport batches handed to the call combiner so far. *)
Definition dispatched (c : grpc_call) : list grpc_transport_stream_op_batch :=
  omap (fun e => match e with
                 | EvCombinerStart b => Some b
                 | _ => None
                 end) (trace c).

(** The function-entry marks of the inbound path so far. *)
Definition marks (c : grpc_call) : list marker :=
  omap (fun e => match e with
                 | EvMark m => Some m
                 | _ => None
                 end) (trace c).

(** The completions reported so far, to the queue or to a continuation. *)
Definition completions (c : grpc_call) : list (Z * grpc_error) :=
  omap (fun e => match e with
                 | EvCqEndOp tag e | EvClosureRun tag e => Some (tag, e)
                 | _ => None
                 end) (trace c).

(** The error count of the batch control of a slot, with the size of its
    [errors] array. *)
Definition errs (c : grpc_call) (slot : nat) : option (Z * nat) :=
  (fun b => (num_errors b, length (errors b))) <$> (active_batches c !! slot).

(** [c] comes from [c0] by steps that entered the marked functions [ms], in
    this order, and touched neither [recv_state] nor an error count. *)
Definition quiet_with (ms : list marker) (c0 c : grpc_call) : Prop :=
  marks c = marks c0 ++ ms
  /\ recv_state c = recv_state c0
  /\ forall s, errs c s = errs c0 s.

(** A run that returns satisfies [Q]; a run that stops did not stop on a
    store past the end of [bctl->errors]. *)
Definition post {A} (Q : A -> Prop) (r : outcome A) : Prop :=
  match r with
  | Ret a => Q a
  | Abort reason => reason <> errors_out_of_bounds
  end.

(** A run that returns satisfies [Q]. *)
Definition post_ret {A} (Q : A -> Prop) (r : outcome A) : Prop :=
  match r with
  | Ret a => Q a
  | Abort _ => True
  end.

(** The marks [receiving_initial_metadata_ready] leaves for its own work:
    the two filters when it carries no error, nothing otherwise. *)
Definition own_marks (error : grpc_error) : list marker :=
  if is_error_none error
  then [Enter_recv_initial_filter; Enter_validate_filtered_metadata]
  else [].

Definition is_process_mark (m : marker) : bool :=
  match m with
  | Enter_process_data_after_md _ => true
  | _ => false
  end.


(** A slot whose [batch_control] has a non-null [call]. *)
Definition slot_in_use (c : grpc_call) (slot : nat) : Prop :=
  exists bctl, active_batches c !! slot = Some bctl /\ bctl_call bctl = true.

(** The checks of [call_start_batch] on an op that do not look at the op
    flags of the call: [reserved], the flags of the op, the side of the
    call, the message pointer and the trailing metadata. *)
Definition passes_own_checks (is_client : bool) (o : grpc_op) : bool :=
  negb (reserved o)
  && match data o with
     | Op_send_initial_metadata _ _ =>
         are_initial_metadata_flags_valid (flags o) is_client
     | Op_send_message send_message =>
         are_write_flags_valid (flags o)
         && match send_message with
            | Some _ => true
            | None => false
            end
     | Op_send_close_from_client => (flags o =? 0) && is_client
     | Op_send_status_from_server trailing_metadata _ _ =>
         (flags o =? 0) && negb is_client
         && (Z.of_nat (length trailing_metadata) <=? INT_MAX)
         && forallb metadata_is_legal trailing_metadata
     | Op_recv_initial_metadata _ | Op_recv_message _ => flags o =? 0
     | Op_recv_status_on_client _ => (flags o =? 0) && is_client
     | Op_recv_close_on_server => (flags o =? 0) && negb is_client
     end.



(** A sequence of batch submissions on one call, whatever they return. *)
Record submission := {
  sub_ops : list grpc_op;
  sub_tag : Z;
  sub_is_closure : bool
}.

Fixpoint submit_all (c : grpc_call) (l : list submission) : outcome grpc_call :=
  match l with
  | [] => Ret c
  | s :: l' =>
      let* (_, c) := call_start_batch c (sub_ops s) (sub_tag s) (sub_is_closure s) in
      submit_all c l'
  end.

(** The callbacks the filter stack fires for a batch. Before it fires
    [recv_message_ready] the transport has stored the stream, or null, in
    [call->receiving_stream]. *)
Inductive callback : Type :=
| OnComplete (error : grpc_error)
| RecvInitialMetadataReady (error : grpc_error)
| RecvMessageReady (stream : option grpc_byte_stream) (error : grpc_error).



Definition deliver (c : grpc_call) (bctlp : nat) (cb : callback) : outcome grpc_call :=
  match cb with
  | OnComplete error => finish_batch c bctlp error
  | RecvInitialMetadataReady error => receiving_initial_metadata_ready c bctlp error
  | RecvMessageReady stream error =>
      receiving_stream_ready_in_call_combiner (upd_receiving_stream stream c) bctlp error
  end.

Fixpoint deliver_all (c : grpc_call) (bctlp : nat) (cbs : list callback)
  : outcome grpc_call :=
  match cbs with
  | [] => Ret c
  | cb :: cbs' =>
      let* c := deliver c bctlp cb in
      deliver_all c bctlp cbs'
  end.









End Call.

(** ** Further observations *)

Section Runs.
Context {ext : Externals}.

(** Statuses recorded one after the other, and cancellations issued one
    after the other, each with its source and error. *)
Definition record_all (l : list (status_source * grpc_error)) (call : grpc_call)
  : grpc_call :=
  fold_left (fun c p => set_status_from_error c (fst p) (snd p)) l call.

Definition cancel_all (l : list (status_source * grpc_error)) (call : grpc_call)
  : grpc_call :=
  fold_left (fun c p => cancel_with_error c (fst p) (snd p)) l call.

(** The error of the first entry of [l] for [source]. *)
Definition first_recorded (source : status_source)
    (l : list (status_source * grpc_error)) : option grpc_error :=
  snd <$> find (fun p => status_source_eqb (fst p) source) l.

(** The children a call has cancelled so far, oldest first. *)
Definition cancelled_children (c : grpc_call) : list nat :=
  omap (fun e => match e with
                 | EvCancelChild child _ _ => Some child
                 | _ => None
                 end) (trace c).

(** The sibling ring of a call that has children. *)
Definition children (c : grpc_call) : list child_entry :=
  match parent_call_atm c with
  | Some pc => first_child_ring pc
  | None => []
  end.

(** A child whose creation asks to inherit the cancellation of a parent
    that has received its final op already. *)
Definition late_child (args : grpc_call_create_args) : bool :=
  match parent_call_arg args with
  | Some parent =>
      negb (Z.land (propagation_mask args) GRPC_PROPAGATE_CANCELLATION =? 0)
      && negb (received_final_op_atm parent =? 0)
  | None => false
  end.

(** Every status recorded on [c0] is still there on [c]. *)
Definition statuses_kept (c0 c : grpc_call) : Prop :=
  forall source e, status c0 source = ATM_SET e -> status c source = ATM_SET e.

(** What can happen to a call during its life: the application submits a
    batch or cancels, the filter stack fires a callback of a batch or hands
    over a slice, the completion queue hands a completion back. *)
Inductive activity : Type :=
| Submit (ops : list grpc_op) (tag : Z) (is_closure : bool)
| Cancel
| CancelWithStatus (st : grpc_status_code) (description : string)
| Deliver (bctlp : nat) (cb : callback)
| SliceReady (bctlp : nat) (error : grpc_error)
| Consume (bctlp : nat).

Definition act (c : grpc_call) (a : activity) : outcome grpc_call :=
  match a with
  | Submit ops tag is_closure =>
      let* (_, c) := call_start_batch c ops tag is_closure in Ret c
  | Cancel => let* (_, c) := grpc_call_cancel c false in Ret c
  | CancelWithStatus st description =>
      let* (_, c) := grpc_call_cancel_with_status c st description false in Ret c
  | Deliver bctlp cb => deliver c bctlp cb
  | SliceReady bctlp error => receiving_slice_ready c bctlp error
  | Consume bctlp => finish_batch_completion c bctlp
  end.

Fixpoint run (c : grpc_call) (l : list activity) : outcome grpc_call :=
  match l with
  | [] => Ret c
  | a :: l' =>
      let* c := act c a in
      run c l'
  end.

End Runs.

(** The four headers [recv_initial_filter] reads and unlinks. *)
Definition transport_headers : list grpc_slice :=
  [GRPC_MDSTR_CONTENT_ENCODING; GRPC_MDSTR_GRPC_ENCODING;
   GRPC_MDSTR_GRPC_ACCEPT_ENCODING; GRPC_MDSTR_ACCEPT_ENCODING].

Definition is_named (key : grpc_slice) (md : grpc_mdelem) : bool :=
  String.eqb (GRPC_MDKEY md) key.

(** A batch links at most one element under a named key. *)
Definition at_most_once (key : grpc_slice) (l : list grpc_mdelem) : Prop :=
  (length (List.filter (is_named key) l) <= 1)%nat.

Definition for_application (md : grpc_mdelem) : bool :=
  negb (existsb (fun key => is_named key md) transport_headers).

(** ** A message arriving in slices *)

(** How one slice of a message arrives: at once ([grpc_byte_stream_next]
    returns true) or later, through [receiving_slice_ready]. *)
Definition arrival_step (a : bool * grpc_slice) : stream_step :=
  if fst a then NextReady (PullSlice (snd a)) else NextPending (PullSlice (snd a)).

(** The slices that arrive later: one [receiving_slice_ready] each. *)
Definition deferred (arrivals : list (bool * grpc_slice)) : nat :=
  length (List.filter (fun a => negb (fst a)) arrivals).

Definition with_slices (buffer : grpc_byte_buffer) (slices : list grpc_slice)
  : grpc_byte_buffer :=
  fold_left grpc_slice_buffer_add slices buffer.

(** The call when the last slice is in: the buffer holds the message, the
    stream is destroyed, [receiving_message] is cleared. *)
Definition message_complete (buffer : grpc_byte_buffer) (call : grpc_call) : grpc_call :=
  destroy_receiving_stream
    (set_call_flag receiving_message false
       (upd_receiving_buffer (Some (Some buffer)) call)).

(** The call when the message is given up: no stream, a null buffer. *)
Definition message_dropped (call : grpc_call) : grpc_call :=
  set_call_flag receiving_message false
    (upd_receiving_buffer (Some None) (destroy_receiving_stream call)).

(** ** A model of the collaborators

    Used to run the definitions on concrete inputs: an error library that
    reads the first explicit status of an error term and its message, the
    flag masks and propagation bits of the public headers, and a
    compression library with the three message algorithms and the two
    stream algorithms. *)

Fixpoint model_explicit_status (e : grpc_error) : option grpc_status_code :=
  match e with
  | GRPC_ERROR_NONE => Some GRPC_STATUS_OK
  | GRPC_ERROR_CANCELLED => Some GRPC_STATUS_CANCELLED
  | GRPC_ERROR_CREATE _ => None
  | grpc_error_set_int _ GRPC_ERROR_INT_GRPC_STATUS v => Some v
  | grpc_error_set_str e _ _ => model_explicit_status e
  | grpc_error_add_child e child =>
      match model_explicit_status e with
      | Some s => Some s
      | None => model_explicit_status child
      end
  | GRPC_ERROR_CREATE_REFERENCING _ l =>
      (fix first (l : list grpc_error) : option grpc_status_code :=
         match l with
         | [] => None
         | x :: l' =>
             match model_explicit_status x with
             | Some s => Some s
             | None => first l'
             end
         end) l
  end.

Fixpoint model_message (e : grpc_error) : grpc_slice :=
  match e with
  | GRPC_ERROR_NONE => "no error"%string
  | GRPC_ERROR_CANCELLED => "cancelled"%string
  | GRPC_ERROR_CREATE d => d
  | grpc_error_set_int e _ _ => model_message e
  | grpc_error_set_str _ GRPC_ERROR_STR_GRPC_MESSAGE m => m
  | grpc_error_add_child e _ => model_message e
  | GRPC_ERROR_CREATE_REFERENCING d _ => d
  end.

Definition model_parse_uint32 (s : grpc_slice) : option Z :=
  match NilZero.uint_of_string s with
  | Some u => Some (Z.of_N (N.of_uint u) mod UINT32_MODULUS)
  | None => None
  end.

Definition model_algorithm_of_name (s : grpc_slice) : option Z :=
  if String.eqb s "identity" then Some 0
  else if String.eqb s "deflate" then Some 1
  else if String.eqb s "gzip" then Some 2
  else None.

#[export] Instance model_externals : Externals := {|
  grpc_error_has_clear_grpc_status e :=
    match model_explicit_status e with
    | Some _ => true
    | None => false
    end;
  grpc_error_get_status e _ :=
    (match model_explicit_status e with
     | Some s => s
     | None => GRPC_STATUS_UNKNOWN
     end, model_message e);
  grpc_validate_header_key_is_legal k := negb (String.eqb k EmptyString);
  grpc_is_binary_header k := String.eqb (substring (String.length k - 4) 4 k) "-bin";
  grpc_validate_header_nonbin_value_is_legal _ := true;
  GRPC_WRITE_USED_MASK := 3;
  GRPC_WRITE_INTERNAL_USED_MASK := 2147483648;
  GRPC_WRITE_INTERNAL_COMPRESS := 2147483648;
  GRPC_INITIAL_METADATA_USED_MASK := 496;
  GRPC_INITIAL_METADATA_IDEMPOTENT_REQUEST := 16;
  GRPC_PROPAGATE_DEADLINE := 1;
  GRPC_PROPAGATE_CENSUS_STATS_CONTEXT := 2;
  GRPC_PROPAGATE_CENSUS_TRACING_CONTEXT := 4;
  GRPC_PROPAGATE_CANCELLATION := 8;
  grpc_parse_slice_to_uint32 := model_parse_uint32;
  grpc_slice_split_without_space s := [s];
  GRPC_MESSAGE_COMPRESS_ALGORITHMS_COUNT := 3;
  GRPC_STREAM_COMPRESS_ALGORITHMS_COUNT := 2;
  GRPC_COMPRESS_ALGORITHMS_COUNT := 4;
  grpc_message_compression_algorithm_from_slice s :=
    match model_algorithm_of_name s with
    | Some a => a
    | None => 3
    end;
  grpc_stream_compression_algorithm_from_slice s :=
    if String.eqb s "identity" then 0 else if String.eqb s "gzip" then 1 else 2;
  grpc_message_compression_algorithm_parse := model_algorithm_of_name;
  grpc_stream_compression_algorithm_parse s :=
    if String.eqb s "identity" then Some 0
    else if String.eqb s "gzip" then Some 1 else None;
  grpc_compression_algorithm_from_message_stream_compression_algorithm m s :=
    if (s =? 0) then (if (0 <=? m) && (m <? 3) then Some m else None)
    else if (s =? 1) && (m =? 0) then Some 3 else None;
  grpc_compression_bitset_from_message_stream_compression_bitset m s :=
    Z.lor m (Z.shiftl (Z.shiftr s 1) 3);
  grpc_compression_algorithm_for_level _ _ := 0;
  grpc_compression_algorithm_slice a :=
    if a =? 1 then "deflate"%string else if a =? 2 then "gzip"%string
    else "identity"%string;
  grpc_compression_algorithm_name a :=
    if a =? 1 then "deflate"%string else if a =? 2 then "gzip"%string
    else "identity"%string;
  channel_default_compression_level := None;
  grpc_compression_options_is_algorithm_enabled _ := true;
  grpc_channel_get_reffed_status_elem s :=
    if s =? 0 then GRPC_MDELEM_GRPC_STATUS_0
    else if s =? 1 then GRPC_MDELEM_GRPC_STATUS_1
    else if s =? 2 then GRPC_MDELEM_GRPC_STATUS_2
    else MDELEM GRPC_MDSTR_GRPC_STATUS (string_of_Z s) None;
  grpc_cq_begin_op _ := true
|}.

(** ** Calls, ops and callbacks of the examples *)

(** The call a creation makes, for a creation that returns. *)
Definition created (r : outcome (grpc_error * grpc_call * option grpc_call)) : grpc_call :=
  match r with
  | Ret (_, c, _) => c
  | Abort _ => zero_call
  end.

Definition client_args : grpc_call_create_args :=
  {| args_cq := Some 1; args_pollset_set_alternative := None;
     server_transport_data := false; add_initial_metadata := [];
     args_send_deadline := gpr_inf_future; parent_call_arg := None;
     propagation_mask := 0; call_id := 0%nat;
     call_stack_init_result := GRPC_ERROR_NONE |}.

(** A client call that has not started a batch, and a server call. *)
Definition client_call : grpc_call := created (grpc_call_create client_args).

Definition server_call : grpc_call :=
  created (grpc_call_create
             {| args_cq := Some 1; args_pollset_set_alternative := None;
                server_transport_data := true; add_initial_metadata := [];
                args_send_deadline := gpr_inf_future; parent_call_arg := None;
                propagation_mask := 0; call_id := 0%nat;
                call_stack_init_result := GRPC_ERROR_NONE |}).

Definition plain_op (d : grpc_op_data) : grpc_op :=
  {| data := d; flags := 0; reserved := false |}.

Definition send_initial_op : grpc_op := plain_op (Op_send_initial_metadata [] None).
Definition null_message_op : grpc_op := plain_op (Op_send_message None).
Definition recv_initial_op : grpc_op := plain_op (Op_recv_initial_metadata (Some [])).
Definition recv_message_op : grpc_op := plain_op (Op_recv_message (Some None)).
Definition recv_status_op : grpc_op := plain_op (Op_recv_status_on_client (Some [])).

(** The call a submission leaves, for a submission that returns. *)
Definition call_after (r : outcome (grpc_call_error * grpc_call)) : grpc_call :=
  match r with
  | Ret (_, c) => c
  | Abort _ => zero_call
  end.

(** The call a run of callbacks leaves, for a run that returns. *)
Definition call_of (r : outcome grpc_call) : grpc_call :=
  match r with
  | Ret c => c
  | Abort _ => zero_call
  end.

(** The batch control in a slot that is in use. *)
Definition bctl_of (c : grpc_call) (slot : nat) : batch_control :=
  match get_bctl c slot with
  | Ret bctl => bctl
  | Abort _ => zero_batch_control
  end.

(** The client call with a batch of RECV_INITIAL_METADATA and RECV_MESSAGE
    in flight; its batch control is in slot 3. *)
Definition receiving_call : grpc_call :=
  call_after (call_start_batch client_call [recv_initial_op; recv_message_op] 7 false).

(** The client call with a batch of RECV_STATUS_ON_CLIENT in flight; its
    batch control is in slot 5. *)
Definition closing_call : grpc_call :=
  call_after (call_start_batch client_call [recv_status_op] 9 false).

Definition a_stream : grpc_byte_stream :=
  {| bs_length := 0; bs_flags := 0; bs_script := [] |}.

Definition connection_lost : grpc_error :=
  error_from_status 14 "connection lost".

(** Received trailing metadata with a status, a message and one more
    element, on a call whose application registered an empty array. *)
Definition trailing_call : grpc_call :=
  upd_buffered_metadata (store1 true (Some []) (buffered_metadata client_call))
    (set_md_batch true true
       {| md_list := [MDELEM GRPC_MDSTR_GRPC_STATUS "5"%string None;
                      MDELEM GRPC_MDSTR_GRPC_MESSAGE "not found"%string None;
                      MDELEM "x-served-by"%string "b7"%string None];
          deadline := gpr_inf_future |}
       client_call).


(** The creation of a child of a server call that asks for the census
    stats context without the tracing context. *)
Definition stats_only_args : grpc_call_create_args :=
  {| args_cq := Some 1; args_pollset_set_alternative := None;
     server_transport_data := false; add_initial_metadata := [];
     args_send_deadline := gpr_inf_future; parent_call_arg := Some server_call;
     propagation_mask := 2; call_id := 1%nat;
     call_stack_init_result := GRPC_ERROR_NONE |}.

(** The receiving call after a failed message and failed initial metadata. *)
Definition twice_failed_call : grpc_call :=
  call_of (deliver_all receiving_call 3
             [RecvMessageReady (Some a_stream) (GRPC_ERROR_CREATE "no message");
              RecvInitialMetadataReady (GRPC_ERROR_CREATE "no metadata")]).

(** A creation whose call stack fails to initialise. *)
Definition stackless_args : grpc_call_create_args :=
  {| args_cq := Some 1; args_pollset_set_alternative := None;
     server_transport_data := false; add_initial_metadata := [];
     args_send_deadline := gpr_inf_future; parent_call_arg := None;
     propagation_mask := 0; call_id := 0%nat;
     call_stack_init_result := GRPC_ERROR_CREATE "no stack" |}.

(** The creation of a child of the server call that inherits its
    cancellation and its deadline. *)
Definition heir_args : grpc_call_create_args :=
  {| args_cq := Some 1; args_pollset_set_alternative := None;
     server_transport_data := false; add_initial_metadata := [];
     args_send_deadline := gpr_time 30; parent_call_arg := Some server_call;
     propagation_mask := 9; call_id := 1%nat;
     call_stack_init_result := GRPC_ERROR_NONE |}.

(** The parent a creation leaves, for a creation with a parent. *)
Definition parent_after (r : outcome (grpc_error * grpc_call * option grpc_call))
  : grpc_call :=
  match r with
  | Ret (_, _, Some p) => p
  | _ => zero_call
  end.

(** The server call with one heir, and with RECV_CLOSE_ON_SERVER in
    flight; the batch control is in slot 5. *)
Definition family_call : grpc_call := parent_after (grpc_call_create heir_args).

Definition recv_close_op : grpc_op := plain_op Op_recv_close_on_server.

Definition closing_parent : grpc_call :=
  call_after (call_start_batch family_call [recv_close_op] 11 false).

(** The server's final op with a status, and the call the application
    cancelled with a status. *)
Definition send_status_op : grpc_op :=
  plain_op (Op_send_status_from_server [] 5 (Some "not found"%string)).

Definition refused_call : grpc_call :=
  cancel_with_status client_call STATUS_FROM_API_OVERRIDE 5 "not found".

(** Received initial metadata with two transport headers and one element
    of the application, on a call whose application registered an empty
    array. *)
Definition answered_call : grpc_call :=
  upd_buffered_metadata (store1 false (Some []) (buffered_metadata client_call))
    (set_md_batch true false
       {| md_list := [MDELEM GRPC_MDSTR_GRPC_ENCODING "gzip"%string None;
                      MDELEM "x-served-by"%string "b7"%string None;
                      MDELEM GRPC_MDSTR_GRPC_ACCEPT_ENCODING "deflate"%string None];
          deadline := gpr_inf_future |}
       client_call).

(** A message of ten bytes in three slices, the first there at once, and
    the receiving call at the point where [process_data_after_md] has made
    the buffer for it. *)
Definition greeting : list (bool * grpc_slice) :=
  [(true, "hello"%string); (false, " "%string); (false, "gRPC"%string)].

Definition greeting_stream : grpc_byte_stream :=
  {| bs_length := 10; bs_flags := 0; bs_script := map arrival_step greeting ++ [] |}.

Definition streaming_call : grpc_call :=
  upd_receiving_buffer (Some (Some grpc_raw_byte_buffer_create))
    (upd_receiving_stream (Some greeting_stream) receiving_call).

(** The same message on a stream that fails after the first slice. *)
Definition broken_stream : grpc_byte_stream :=
  {| bs_length := 10; bs_flags := 0;
     bs_script := map arrival_step [(true, "hello"%string)]
                  ++ NextPending (PullError connection_lost) :: [] |}.

Definition breaking_call : grpc_call :=
  upd_receiving_buffer (Some (Some grpc_raw_byte_buffer_create))
    (upd_receiving_stream (Some broken_stream) receiving_call).

(** The server call that the application has cancelled, with
    RECV_CLOSE_ON_SERVER in flight; the batch control is in slot 5. *)
Definition cancelled_server_call : grpc_call :=
  call_after (call_start_batch (call_after (grpc_call_cancel server_call false))
                [recv_close_op] 11 false).



(** * Properties *)

Section Arbiter.
Context {ext : Externals}.

Lemma first_some_app {A B} (f : A -> option B) (l1 l2 : list A) :
  first_some f (l1 ++ l2) =
  match first_some f l1 with
  | Some r => Some r
  | None => first_some f l2
  end.
Proof.
  induction l1 as [|x l1 IH]; simpl; [reflexivity|].
  destruct (f x); [reflexivity|exact IH].
Qed.

Lemma first_some_set {B} (call : grpc_call) (F : grpc_error -> option B)
    (l : list status_source) :
  first_some
    (fun i => if is_set (unpack_received_status (status call i))
              then F (error (unpack_received_status (status call i))) else None) l
  = first_some F (omap (set_error call) l).
Proof.
  induction l as [|i l IH]; simpl; [reflexivity|].
  unfold set_error at 1. destruct (status call i); simpl.
  - exact IH.
  - destruct (F e); [reflexivity|exact IH].
Qed.

Lemma first_some_set_clear {B} (call : grpc_call) (F : grpc_error -> option B)
    (l : list status_source) :
  first_some
    (fun i => if is_set (unpack_received_status (status call i))
                 && grpc_error_has_clear_grpc_status
                      (error (unpack_received_status (status call i)))
              then F (error (unpack_received_status (status call i))) else None) l
  = first_some F
      (filter (fun e => grpc_error_has_clear_grpc_status e = true)
         (omap (set_error call) l)).
Proof.
  induction l as [|i l IH]; simpl; [reflexivity|].
  unfold set_error at 1. destruct (status call i); simpl.
  - exact IH.
  - destruct (grpc_error_has_clear_grpc_status e) eqn:Hc.
    + rewrite filter_cons_True by exact Hc. simpl.
      destruct (F e); [reflexivity|exact IH].
    + rewrite filter_cons_False by (rewrite Hc; discriminate). exact IH.
Qed.

Lemma search_candidates (call : grpc_call) (allow_ok_status : bool) :
  get_final_status_search call (fun i => unpack_received_status (status call i))
    allow_ok_status
  = first_some (fun e => get_final_status_from call e allow_ok_status)
      (spec_candidates call).
Proof.
  unfold get_final_status_search, spec_candidates.
  rewrite first_some_app.
  rewrite (first_some_set_clear call
             (fun e => get_final_status_from call e allow_ok_status)).
  rewrite (first_some_set call (fun e => get_final_status_from call e allow_ok_status)).
  reflexivity.
Qed.

Lemma first_acceptable_refusing_ok (call : grpc_call) (l : list grpc_error) :
  first_some (fun e => get_final_status_from call e false) l =
  match filter (fun e => code_of call e <> GRPC_STATUS_OK) l with
  | e :: _ => Some (grpc_error_get_status e (send_deadline call))
  | [] => None
  end.
Proof.
  induction l as [|e l IH]; simpl; [reflexivity|].
  unfold get_final_status_from at 1, code_of at 1.
  destruct (grpc_error_get_status e (send_deadline call)) as [code slice] eqn:Hs.
  destruct (code =? GRPC_STATUS_OK) eqn:Hc; simpl.
  - apply Z.eqb_eq in Hc.
    rewrite filter_cons_False; [exact IH|].
    unfold code_of. rewrite Hs. simpl. intros Hn. exact (Hn Hc).
  - apply Z.eqb_neq in Hc.
    rewrite filter_cons_True; [rewrite Hs; reflexivity|].
    unfold code_of. rewrite Hs. exact Hc.
Qed.

Lemma first_acceptable_allowing_ok (call : grpc_call) (l : list grpc_error) :
  first_some (fun e => get_final_status_from call e true) l =
  match l with
  | e :: _ => Some (grpc_error_get_status e (send_deadline call))
  | [] => None
  end.
Proof.
  destruct l as [|e l]; simpl; [reflexivity|].
  unfold get_final_status_from.
  destruct (grpc_error_get_status e (send_deadline call)) as [code slice].
  rewrite andb_false_r. reflexivity.
Qed.

Lemma get_final_status_refines (call : grpc_call) :
  fst (get_final_status call) = spec_final_status call.
Proof.
  unfold get_final_status, spec_final_status. simpl first_some.
  rewrite !search_candidates.
  rewrite first_acceptable_refusing_ok, first_acceptable_allowing_ok.
  destruct (filter (fun e => code_of call e <> GRPC_STATUS_OK) (spec_candidates call))
    as [|e l] eqn:Hf; simpl.
  - destruct (spec_candidates call) as [|e l]; simpl.
    + destruct (is_client call); reflexivity.
    + unfold code_of. destruct (grpc_error_get_status e (send_deadline call)); reflexivity.
  - unfold code_of. destruct (grpc_error_get_status e (send_deadline call)); reflexivity.
Qed.

Lemma get_final_status_ext (c1 c2 : grpc_call) :
  (forall i, status c1 i = status c2 i) ->
  is_client c1 = is_client c2 ->
  send_deadline c1 = send_deadline c2 ->
  get_final_status c1 = get_final_status c2.
Proof.
  intros Hs Hc Hd.
  unfold get_final_status, get_final_status_search, get_final_status_from, STATUS_SOURCES.
  simpl first_some. rewrite !Hs, Hc, Hd. reflexivity.
Qed.

Lemma status_after_record (call : grpc_call) (source : status_source) (e : grpc_error)
    (i : status_source) :
  status (set_status_from_error call source e) i =
  match status call source with
  | ATM_ZERO => if status_source_eqb source i then ATM_SET e else status call i
  | ATM_SET _ => status call i
  end.
Proof.
  unfold set_status_from_error. destruct (status call source) eqn:Hs; simpl.
  - unfold status_store. reflexivity.
  - reflexivity.
Qed.

Lemma record_keeps (call : grpc_call) (source : status_source) (e : grpc_error) :
  send_deadline (set_status_from_error call source e) = send_deadline call
  /\ is_client (set_status_from_error call source e) = is_client call
  /\ trace (set_status_from_error call source e) = trace call
  /\ flag (set_status_from_error call source e) = flag call
  /\ active_batches (set_status_from_error call source e) = active_batches call.
Proof.
  unfold set_status_from_error.
  destruct (status call source); simpl; repeat split; reflexivity.
Qed.

(** C1. [get_final_status] is the two-pass selection of the specification
    over the recorded status slots: with OK refused and then with OK
    allowed, the sources are scanned in the order API_OVERRIDE, WIRE,
    CORE, SURFACE, SERVER_STATUS, first among the set entries whose error
    carries an explicit status and then among all set entries, and the
    first acceptable derived code is returned; with no slot set the answer
    is UNKNOWN on a client and OK on a server; the answer is a function of
    the slots (with the side of the call and its deadline), so asking again
    gives the same; and after recording SURFACE=INTERNAL, then
    API_OVERRIDE=CANCELLED with an explicit status, then WIRE=OK on a fresh
    client call, the final status is CANCELLED. *)
Theorem get_final_status_is_the_selection :
  (forall call, fst (get_final_status call) = spec_final_status call)
  /\ (forall call,
        (forall i, status call i = ATM_ZERO) ->
        get_final_status call =
        (if is_client call then GRPC_STATUS_UNKNOWN else GRPC_STATUS_OK, None))
  /\ (forall c1 c2,
        (forall i, status c1 i = status c2 i) ->
        is_client c1 = is_client c2 ->
        send_deadline c1 = send_deadline c2 ->
        get_final_status c1 = get_final_status c2)
  /\ (forall call e_surface e_override e_wire,
        is_client call = true ->
        (forall i, status call i = ATM_ZERO) ->
        grpc_error_has_clear_grpc_status e_override = true ->
        code_of call e_surface = GRPC_STATUS_INTERNAL ->
        code_of call e_override = GRPC_STATUS_CANCELLED ->
        code_of call e_wire = GRPC_STATUS_OK ->
        fst (get_final_status
               (set_status_from_error
                  (set_status_from_error
                     (set_status_from_error call STATUS_FROM_SURFACE e_surface)
                     STATUS_FROM_API_OVERRIDE e_override)
                  STATUS_FROM_WIRE e_wire))
        = GRPC_STATUS_CANCELLED).
Proof.
  split; [exact get_final_status_refines|].
  split.
  { intros call Hz.
    unfold get_final_status, get_final_status_search, STATUS_SOURCES.
    simpl first_some. rewrite !Hz. simpl.
    destruct (is_client call); reflexivity. }
  split; [exact get_final_status_ext|].
  intros call eS eA eW Hcl Hz HclA HS HA HW.
  unfold get_final_status, get_final_status_search, STATUS_SOURCES.
  simpl first_some.
  rewrite !status_after_record. rewrite !Hz. simpl.
  rewrite HclA. unfold get_final_status_from.
  unfold code_of in HA.
  rewrite !(proj1 (record_keeps _ _ _)).
  destruct (grpc_error_get_status eA (send_deadline call)) as [code slice].
  simpl in HA. subst code. reflexivity.
Qed.

End Arbiter.

Section Filters.
Context {ext : Externals}.

Lemma remove_named_absent (key : grpc_slice) (l : list grpc_mdelem) :
  find (fun md => String.eqb (GRPC_MDKEY md) key) l = None ->
  remove_named key l = l.
Proof.
  induction l as [|md l IH]; simpl; [reflexivity|].
  destruct (String.eqb (GRPC_MDKEY md) key); [discriminate|].
  intros H. rewrite IH by exact H. reflexivity.
Qed.

(** C6. When the received trailing metadata has a [grpc-status] element,
    [recv_trailing_filter] decodes it to an integer, the static elements
    for 0, 1 and 2 being decoded without parsing; when the decoded status
    is not OK it records on the slot of source WIRE an error that carries
    this status and the value of [grpc-message] (the empty slice when there
    is no such element); it removes [grpc-status], and [grpc-message] when
    present, from the batch, and appends what remains to the application's
    trailing metadata. *)
Theorem recv_trailing_filter_on_grpc_status
    (call : grpc_call) (grpc_status : grpc_mdelem) (dest : grpc_metadata_array) :
  idx_named (metadata_batch call true true) GRPC_MDSTR_GRPC_STATUS = Some grpc_status ->
  buffered_metadata call true = Some dest ->
  let b := metadata_batch call true true in
  let status_code := fst (decode_status grpc_status) in
  let grpc_message := idx_named b GRPC_MDSTR_GRPC_MESSAGE in
  let remainder :=
    remove_named GRPC_MDSTR_GRPC_STATUS
      (remove_named GRPC_MDSTR_GRPC_MESSAGE (md_list b)) in
  (grpc_status = GRPC_MDELEM_GRPC_STATUS_0 -> status_code = 0)
  /\ (grpc_status = GRPC_MDELEM_GRPC_STATUS_1 -> status_code = 1)
  /\ (grpc_status = GRPC_MDELEM_GRPC_STATUS_2 -> status_code = 2)
  /\ (forall k v, grpc_status = MDELEM k v None ->
        status_code = match grpc_parse_slice_to_uint32 v with
                      | Some s => s
                      | None => GRPC_STATUS_UNKNOWN
                      end)
  /\ exists call',
       recv_trailing_filter call = Ret call'
       /\ (status_code <> GRPC_STATUS_OK ->
           let error :=
             grpc_error_set_str
               (grpc_error_set_int (GRPC_ERROR_CREATE "Error received from peer")
                  GRPC_ERROR_INT_GRPC_STATUS status_code)
               GRPC_ERROR_STR_GRPC_MESSAGE
               match grpc_message with
               | Some md => GRPC_MDVALUE md
               | None => grpc_empty_slice
               end in
           (forall i, status call' i =
                      status (set_status_from_error call STATUS_FROM_WIRE error) i)
           /\ (status call STATUS_FROM_WIRE = ATM_ZERO ->
               status call' STATUS_FROM_WIRE = ATM_SET error))
       /\ md_list (metadata_batch call' true true) = remainder
       /\ buffered_metadata call' true = Some (dest ++ map mdusr remainder).
Proof.
  intros Hst Hdest b status_code grpc_message remainder.
  split; [intros ->; reflexivity|].
  split; [intros ->; reflexivity|].
  split; [intros ->; reflexivity|].
  split.
  { intros k v ->. subst status_code. unfold decode_status. simpl. reflexivity. }
  assert (Hrem : md_list
            (grpc_metadata_batch_remove
               match grpc_message with
               | Some _ => grpc_metadata_batch_remove b GRPC_MDSTR_GRPC_MESSAGE
               | None => b
               end GRPC_MDSTR_GRPC_STATUS) = remainder).
  { subst remainder. destruct grpc_message eqn:Hm; simpl; [reflexivity|].
    unfold grpc_message, idx_named in Hm.
    rewrite (remove_named_absent GRPC_MDSTR_GRPC_MESSAGE) by exact Hm. reflexivity. }
  unfold recv_trailing_filter. rewrite Hst. fold b. fold status_code. fold grpc_message.
  set (error := wire_error status_code grpc_message).
  set (b' := grpc_metadata_batch_remove _ GRPC_MDSTR_GRPC_STATUS) in *.
  set (c1 := set_md_batch true true b' (set_status_from_error call STATUS_FROM_WIRE error)).
  assert (Hbm : buffered_metadata c1 true = Some dest).
  { subst c1. unfold set_status_from_error.
    destruct (status call STATUS_FROM_WIRE); simpl; exact Hdest. }
  assert (Hmd : metadata_batch c1 true true = b') by reflexivity.
  assert (Hrec : status_code <> GRPC_STATUS_OK ->
            let error' :=
              grpc_error_set_str
                (grpc_error_set_int (GRPC_ERROR_CREATE "Error received from peer")
                   GRPC_ERROR_INT_GRPC_STATUS status_code)
                GRPC_ERROR_STR_GRPC_MESSAGE
                match grpc_message with
                | Some md => GRPC_MDVALUE md
                | None => grpc_empty_slice
                end in
            (forall i, status c1 i =
                       status (set_status_from_error call STATUS_FROM_WIRE error') i)
            /\ (status call STATUS_FROM_WIRE = ATM_ZERO ->
                status c1 STATUS_FROM_WIRE = ATM_SET error')).
  { intros Hne error'.
    assert (He : error = error').
    { subst error error'. unfold wire_error.
      destruct (status_code =? GRPC_STATUS_OK) eqn:Hz;
        [apply Z.eqb_eq in Hz; contradiction|].
      destruct grpc_message; reflexivity. }
    rewrite <- He. split.
    - intros i. reflexivity.
    - intros Hzero.
      change (status c1 STATUS_FROM_WIRE)
        with (status (set_status_from_error call STATUS_FROM_WIRE error) STATUS_FROM_WIRE).
      rewrite status_after_record, Hzero. reflexivity. }
  unfold publish_app_metadata. rewrite Hrem.
  destruct remainder as [|md0 rest] eqn:Hr.
  - exists c1. split; [reflexivity|].
    split; [exact Hrec|].
    split; [rewrite Hmd; exact Hrem|].
    rewrite Hbm. simpl. rewrite app_nil_r. reflexivity.
  - rewrite Hbm. eexists. split; [reflexivity|].
    split; [exact Hrec|].
    split; [exact Hrem|].
    unfold store1. simpl. reflexivity.
Qed.

End Filters.

Section Validation.
Context {ext : Externals}.

Lemma cancel_with_error_effect (c : grpc_call) (source : status_source) (e : grpc_error) :
  trace (cancel_with_error c source e) =
    trace c ++ [EvInternalRef "termination"; EvCombinerCancel e;
                EvCombinerStart (cancel_stream_op e)]
  /\ (forall i, status (cancel_with_error c source e) i =
                status (set_status_from_error c source e) i)
  /\ send_deadline (cancel_with_error c source e) = send_deadline c
  /\ is_client (cancel_with_error c source e) = is_client c.
Proof.
  unfold cancel_with_error, execute_batch, emit, set_status_from_error, cancel_stream_op.
  simpl. destruct (status c source); simpl; rewrite <- !app_assoc; simpl; auto.
Qed.

(** The batch [cancel_with_error] hands over has [cancel_stream] set and
    carries the error. *)
Lemma cancel_stream_op_fields (e : grpc_error) :
  cancel_stream (cancel_stream_op e) = true /\ cancel_error (cancel_stream_op e) = e.
Proof. split; reflexivity. Qed.






End Validation.

Section Translator.
Context {ext : Externals}.

Lemma prepare_application_metadata_keeps (call call' : grpc_call) metadata is_trailing
    prepend additional (ok : bool) :
  prepare_application_metadata call metadata is_trailing prepend additional = (ok, call') ->
  flag call' = flag call /\ trace call' = trace call
  /\ active_batches call' = active_batches call /\ is_client call' = is_client call
  /\ (ok = true -> send_extra_metadata_count call' = 0)
  /\ (ok = false -> call' = call).
Proof.
  unfold prepare_application_metadata.
  destruct (forallb _ _); simpl; intros H; inversion H; subst; clear H;
    repeat split; try reflexivity; discriminate.
Qed.

Lemma process_compression_level_keeps (call call' : grpc_call) level additional :
  process_compression_level call level = (call', additional) ->
  flag call' = flag call /\ trace call' = trace call
  /\ active_batches call' = active_batches call /\ is_client call' = is_client call
  /\ send_extra_metadata_count call' = send_extra_metadata_count call.
Proof.
  unfold process_compression_level. cbv zeta.
  destruct (match level with Some l => Some l | None => _ end);
    [destruct (negb _)|]; intros H; inversion H; subst; repeat split; reflexivity.
Qed.

Lemma send_status_extra_metadata_keeps (call : grpc_call) st details :
  flag (send_status_extra_metadata call st details) = flag call
  /\ trace (send_status_extra_metadata call st details) = trace call
  /\ active_batches (send_status_extra_metadata call st details) = active_batches call
  /\ is_client (send_status_extra_metadata call st details) = is_client call.
Proof.
  unfold send_status_extra_metadata. cbv zeta.
  destruct details; unfold set_status_from_error; simpl;
    destruct (status call STATUS_FROM_API_OVERRIDE); simpl; repeat split; reflexivity.
Qed.

Ltac translate_cases H :=
  repeat match type of H with
    | context [if ?b then _ else _] => destruct b eqn:?
    | context [match ?x with _ => _ end] => destruct x eqn:?
    | context [let (_, _) := ?x in _] => destruct x eqn:?
    end;
  simpl in H; try discriminate.

Ltac use_keeps :=
  repeat match goal with
    | H : prepare_application_metadata _ _ _ _ _ = (_, _) |- _ =>
        apply prepare_application_metadata_keeps in H;
        destruct H as (? & ? & ? & ? & ? & ?)
    | H : process_compression_level _ _ = (_, _) |- _ =>
        apply process_compression_level_keeps in H;
        destruct H as (? & ? & ? & ? & ?)
    end.

Lemma translate_op_tracked (F0 : call_flag -> bool) (o : grpc_op) (t t' : translation)
    (e : grpc_call_error) :
  tracked F0 t ->
  translate_op o t = Ret (e, t') ->
  tracked F0 t'
  /\ trace (tr_call t') = trace (tr_call t)
  /\ active_batches (tr_call t') = active_batches (tr_call t)
  /\ is_client (tr_call t') = is_client (tr_call t)
  /\ (e = GRPC_CALL_OK ->
      stream_op_bit (flag_of_op (op o)) (tr_stream_op t') = true)
  /\ (forall f, stream_op_bit f (tr_stream_op t) = true ->
                stream_op_bit f (tr_stream_op t') = true).
Proof.
  intros Htr H. unfold translate_op, obind, GPR_ASSERT in H. unfold op.
  destruct (reserved o); [inversion H; subst; repeat split; auto; discriminate|].
  destruct (data o) eqn:Hdata.
  all: translate_cases H.
  all: inversion H; subst; clear H.
  all: try (repeat split; auto; discriminate).
  all: use_keeps.
  all: pose proof (send_status_extra_metadata_keeps
                     (set_call_flag sent_final_op true (tr_call t))) as Hss.
  all: cbn [tr_call tr_stream_op tr_callbacks].
  all: split;
    [ intros f; specialize (Htr f); destruct f
    | repeat split; try discriminate; try (intros f Hf; destruct f; cbn in *; auto) ].
  all: repeat first
         [ progress cbn [tr_call tr_stream_op tr_callbacks stream_op_bit flag_of_op] in *
         | rewrite !(proj1 (Hss _ _))
         | rewrite !(proj1 (proj2 (Hss _ _)))
         | rewrite !(proj1 (proj2 (proj2 (Hss _ _))))
         | rewrite !(proj2 (proj2 (proj2 (Hss _ _))))
         | match goal with
           | H : flag ?g = _ |- context [flag ?g] => rewrite H
           | H : trace ?g = _ |- context [trace ?g] => rewrite H
           | H : active_batches ?g = _ |- context [active_batches ?g] => rewrite H
           | H : is_client ?g = _ |- context [is_client ?g] => rewrite H
           end
         | progress (unfold set_call_flag, flag_store; cbn)
         | match goal with
           | |- context [if ?b then _ else _] => destruct b eqn:?
           | H : context [if ?b then _ else _] |- _ => destruct b eqn:?
           end ].
  all: try reflexivity.
  all: try (intuition congruence).
  all: try (cbn in *; congruence).
Qed.

Lemma translate_ops_tracked (F0 : call_flag -> bool) (ops : list grpc_op) :
  forall (t t' : translation) (e : grpc_call_error),
  tracked F0 t ->
  translate_ops ops t = Ret (e, t') ->
  tracked F0 t'
  /\ trace (tr_call t') = trace (tr_call t)
  /\ active_batches (tr_call t') = active_batches (tr_call t)
  /\ is_client (tr_call t') = is_client (tr_call t)
  /\ (e = GRPC_CALL_OK ->
      forall o, In o ops -> stream_op_bit (flag_of_op (op o)) (tr_stream_op t') = true)
  /\ (forall f, stream_op_bit f (tr_stream_op t) = true ->
                stream_op_bit f (tr_stream_op t') = true).
Proof.
  induction ops as [|o ops IH]; intros t t' e Htr H; simpl in H.
  - inversion H; subst. repeat split; auto; intros _ o [].
  - unfold obind in H. destruct (translate_op o t) as [[e1 t1]|] eqn:H1; [|discriminate].
    destruct (translate_op_tracked F0 o t t1 e1 Htr H1) as (Ht1 & Htr1 & Hab1 & Hc1 & Hb1 & Hm1).
    destruct e1.
    1: { destruct (IH t1 t' e Ht1 H) as (Ht' & Htr' & Hab' & Hc' & Hb' & Hm').
         refine (conj Ht' (conj _ (conj _ (conj _ (conj _ _))))); try congruence.
         - intros He o' [<-|Hin]; [apply Hm', Hb1; reflexivity|apply Hb'; assumption].
         - intros f Hf. apply Hm', Hm1, Hf. }
    all: inversion H; subst; repeat split; auto; discriminate.
Qed.

Lemma done_with_error_restores (F0 : call_flag -> bool) (t : translation) (c : grpc_call) :
  tracked F0 t ->
  flag c = flag (tr_call t) ->
  (forall f, flag (done_with_error (tr_stream_op t) c) f = F0 f)
  /\ trace (done_with_error (tr_stream_op t) c) = trace c.
Proof.
  intros Htr Hf.
  pose proof (Htr sent_initial_metadata) as H1.
  pose proof (Htr sending_message) as H2.
  pose proof (Htr sent_final_op) as H3.
  pose proof (Htr received_initial_metadata) as H4.
  pose proof (Htr receiving_message) as H5.
  pose proof (Htr requested_final_op) as H6.
  rewrite <- Hf in H1, H2, H3, H4, H5, H6. clear Htr Hf.
  cbn [stream_op_bit] in *. unfold done_with_error.
  destruct (send_initial_metadata (tr_stream_op t));
    destruct (send_message (tr_stream_op t));
    destruct (send_trailing_metadata (tr_stream_op t));
    destruct (recv_initial_metadata (tr_stream_op t));
    destruct (recv_message (tr_stream_op t));
    destruct (recv_trailing_metadata (tr_stream_op t));
    (split; [intros f; destruct f; cbn; intuition congruence | reflexivity]).
Qed.

Lemma allocate_batch_control_effect (call c1 : grpc_call) (o : grpc_op)
    (ops : list grpc_op) (r : option nat) :
  allocate_batch_control call (o :: ops) = Ret (r, c1) ->
  flag c1 = flag call /\ trace c1 = trace call /\ is_client c1 = is_client call
  /\ slot_in_use c1 (batch_slot_for_op (op o))
  /\ (forall s, slot_in_use call s -> slot_in_use c1 s)
  /\ match r with
     | Some slot =>
         slot = batch_slot_for_op (op o)
         /\ get_bctl c1 slot = Ret (bctl_upd_bctl_call true zero_batch_control)
     | None => c1 = call \/ c1 = put_bctl (batch_slot_for_op (op o)) zero_batch_control call
     end.
Proof.
  unfold allocate_batch_control. set (slot := batch_slot_for_op (op o)).
  destruct (active_batches call !! slot) as [b0|] eqn:Hl.
  - rewrite Hl. destruct (bctl_call b0) eqn:Hb; intros H; inversion H; subst; clear H.
    + repeat split; auto. exists b0; auto.
    + split; [reflexivity|]. split; [reflexivity|]. split; [reflexivity|].
      split.
      { eexists. split; [apply lookup_insert_eq|reflexivity]. }
      split.
      { intros s (b & Hs & Hc). destruct (decide (s = slot)) as [->|Hne].
        - rewrite Hl in Hs. inversion Hs; subst. congruence.
        - exists b. split; [|exact Hc]. simpl. rewrite lookup_insert_ne by auto. exact Hs. }
      split; [reflexivity|].
      unfold get_bctl. simpl. rewrite lookup_insert_eq. reflexivity.
  - simpl. rewrite lookup_insert_eq. simpl. intros H; inversion H; subst; clear H.
    split; [reflexivity|]. split; [reflexivity|]. split; [reflexivity|].
    split.
    { eexists. split; [apply lookup_insert_eq|reflexivity]. }
    split.
    { intros s (b & Hs & Hc). destruct (decide (s = slot)) as [->|Hne].
      - rewrite Hl in Hs. discriminate.
      - exists b. split; [|exact Hc]. simpl.
        rewrite !lookup_insert_ne by auto. exact Hs. }
    split; [reflexivity|].
    unfold get_bctl. simpl. rewrite lookup_insert_eq. reflexivity.
Qed.

Lemma dispatched_app (c : grpc_call) (l : list event) :
  dispatched (upd_trace (trace c ++ l) c) =
  dispatched c ++ omap (fun e => match e with
                                 | EvCombinerStart b => Some b
                                 | _ => None
                                 end) l.
Proof. unfold dispatched. simpl. apply omap_app. Qed.


Lemma dispatched_emit (c : grpc_call) (e : event) :
  dispatched (emit e c) =
  dispatched c ++ match e with
                  | EvCombinerStart b => [b]
                  | _ => []
                  end.
Proof.
  unfold dispatched, emit. simpl. rewrite omap_app. simpl.
  destruct e; reflexivity.
Qed.

Lemma tracked_start (call c1 : grpc_call) (n : Z) :
  flag c1 = flag call ->
  tracked (flag call)
    {| tr_call := c1; tr_stream_op := zero_stream_op; tr_callbacks := n |}.
Proof. intros Hf f. destruct f; simpl; rewrite Hf; reflexivity. Qed.

Lemma done_with_error_keeps (so : grpc_transport_stream_op_batch) (c : grpc_call) :
  active_batches (done_with_error so c) = active_batches c
  /\ trace (done_with_error so c) = trace c
  /\ is_client (done_with_error so c) = is_client c.
Proof.
  unfold done_with_error.
  destruct (send_initial_metadata so); destruct (send_message so);
    destruct (send_trailing_metadata so); destruct (recv_initial_metadata so);
    destruct (recv_message so); destruct (recv_trailing_metadata so);
    repeat split; reflexivity.
Qed.

(** What a submission of a non-empty vector that passed
    [allocate_batch_control] comes down to. *)
Lemma call_start_batch_translated (call call' : grpc_call) (o : grpc_op)
    (ops : list grpc_op) (tag : Z) (is_closure : bool) (err : grpc_call_error) :
  call_start_batch call (o :: ops) tag is_closure = Ret (err, call') ->
  (err = GRPC_CALL_ERROR_TOO_MANY_OPERATIONS
   /\ flag call' = flag call /\ trace call' = trace call
   /\ is_client call' = is_client call
   /\ slot_in_use call' (batch_slot_for_op (op o))
   /\ (forall s, slot_in_use call s -> slot_in_use call' s))
  \/ exists c1 t,
       flag c1 = flag call /\ trace c1 = trace call /\ is_client c1 = is_client call
       /\ (forall s, slot_in_use call s -> slot_in_use c1 s)
       /\ translate_ops (o :: ops)
            {| tr_call := c1; tr_stream_op := zero_stream_op; tr_callbacks := 1 |}
          = Ret (err, t)
       /\ slot_in_use call' (batch_slot_for_op (op o))
       /\ (forall s, slot_in_use c1 s -> slot_in_use call' s)
       /\ match err with
          | GRPC_CALL_OK =>
              flag call' = flag (tr_call t)
              /\ dispatched call' = dispatched (tr_call t) ++ [tr_stream_op t]
          | _ =>
              call' = done_with_error (tr_stream_op t)
                        (put_bctl (batch_slot_for_op (op o))
                           (bctl_upd_stream_op (tr_stream_op t)
                              (bctl_upd_is_closure is_closure
                                 (bctl_upd_notify_tag tag
                                    (bctl_upd_bctl_call true zero_batch_control))))
                           (tr_call t))
          end.
Proof.
  intros H. unfold call_start_batch, obind, GPR_ASSERT in H.
  destruct (allocate_batch_control call (o :: ops)) as [[r c1]|] eqn:Ha; [|discriminate].
  apply allocate_batch_control_effect in Ha.
  destruct Ha as (Hf & Ht & Hc & Hu & Hmono & Hr).
  destruct r as [slot|].
  - destruct Hr as (-> & Hg). rewrite Hg in H.
    cbn [stream_op bctl_upd_is_closure bctl_upd_notify_tag bctl_upd_bctl_call
           zero_batch_control] in H.
    destruct (translate_ops (o :: ops) _) as [[e t]|] eqn:Htr; [|discriminate].
    right. exists c1, t. split; [exact Hf|]. split; [exact Ht|]. split; [exact Hc|].
    split; [exact Hmono|].
    destruct (translate_ops_tracked (flag call) (o :: ops) _ t e
                (tracked_start call c1 1 Hf) Htr) as (_ & _ & Hab & _).
    cbn [tr_call] in Hab.
    assert (Hput : forall (b : batch_control) (c : grpc_call),
               bctl_call b = true ->
               active_batches c = active_batches (tr_call t) ->
               slot_in_use (put_bctl (batch_slot_for_op (op o)) b c)
                 (batch_slot_for_op (op o))
               /\ (forall s, slot_in_use c1 s ->
                             slot_in_use (put_bctl (batch_slot_for_op (op o)) b c) s)).
    { intros b c Hb Hc'. split.
      - exists b. split; [simpl; apply lookup_insert_eq|exact Hb].
      - intros s (b' & Hs & Hb'). destruct (decide (s = batch_slot_for_op (op o))) as [->|Hne].
        + exists b. split; [simpl; apply lookup_insert_eq|exact Hb].
        + exists b'. split; [|exact Hb']. simpl. rewrite lookup_insert_ne by auto.
          rewrite Hc', Hab. exact Hs. }
    destruct e.
    1: { destruct is_closure; cbn [negb] in H; cbv iota in H.
         - inversion H; subst; clear H. split; [exact Htr|].
           edestruct (Hput (bctl_upd_steps_to_complete (tr_callbacks t)
                              (bctl_upd_stream_op (tr_stream_op t)
                                 (bctl_upd_is_closure true
                                    (bctl_upd_notify_tag tag
                                       (bctl_upd_bctl_call true zero_batch_control)))))
                        (emit (EvInternalRef "completion") (tr_call t)))
             as (Hu1 & Hu2); [reflexivity|reflexivity|].
           split; [exact Hu1|]. split; [exact Hu2|].
           split; [reflexivity|].
           unfold execute_batch. rewrite dispatched_emit.
           unfold dispatched. simpl. rewrite omap_app. simpl. rewrite app_nil_r.
           reflexivity.
         - destruct (grpc_cq_begin_op tag); [|discriminate].
           inversion H; subst; clear H. split; [exact Htr|].
           edestruct (Hput (bctl_upd_steps_to_complete (tr_callbacks t)
                              (bctl_upd_stream_op (tr_stream_op t)
                                 (bctl_upd_is_closure false
                                    (bctl_upd_notify_tag tag
                                       (bctl_upd_bctl_call true zero_batch_control)))))
                        (emit (EvCqBeginOp tag)
                           (emit (EvInternalRef "completion") (tr_call t))))
             as (Hu1 & Hu2); [reflexivity|reflexivity|].
           split; [exact Hu1|]. split; [exact Hu2|].
           split; [reflexivity|].
           unfold execute_batch. rewrite dispatched_emit.
           unfold dispatched. simpl. rewrite !omap_app. simpl. rewrite !app_nil_r.
           reflexivity. }
    all: inversion H; subst; clear H; split; [exact Htr|].
    all: edestruct (Hput (bctl_upd_stream_op (tr_stream_op t)
                            (bctl_upd_is_closure is_closure
                               (bctl_upd_notify_tag tag
                                  (bctl_upd_bctl_call true zero_batch_control))))
                      (tr_call t)) as (Hu1 & Hu2); [reflexivity|reflexivity|].
    all: assert (Hs : forall c s, slot_in_use c s ->
                        slot_in_use (done_with_error (tr_stream_op t) c) s)
      by (intros c s (b & Hb1 & Hb2); exists b;
          rewrite (proj1 (done_with_error_keeps _ _)); auto).
    all: split; [apply Hs, Hu1|]; split; [intros s Hss; apply Hs, Hu2, Hss|reflexivity].
  - inversion H; subst; clear H. left. destruct Hr as [->| ->]; repeat split; auto.
Qed.

(** What a submission does to the op flags and to the filter stack, by
    its result. *)
Lemma call_start_batch_flags_and_dispatch (call call' : grpc_call) (ops : list grpc_op)
    (tag : Z) (is_closure : bool) (err : grpc_call_error) :
  call_start_batch call ops tag is_closure = Ret (err, call') ->
  (err <> GRPC_CALL_OK ->
   (forall f, flag call' f = flag call f) /\ dispatched call' = dispatched call)
  /\ (err = GRPC_CALL_OK ->
      (forall o, In o ops -> flag call' (flag_of_op (op o)) = true)
      /\ match ops with
         | [] => dispatched call' = dispatched call
         | _ :: _ =>
             exists batch,
               dispatched call' = dispatched call ++ [batch]
               /\ forall o, In o ops -> stream_op_bit (flag_of_op (op o)) batch = true
         end).
Proof.
  intros H. destruct ops as [|o ops].
  - unfold call_start_batch, obind, GPR_ASSERT in H.
    destruct is_closure; cbn [negb] in H; cbv iota in H.
    + inversion H; subst; clear H.
      split; [intros Hne; contradiction|]. intros _.
      split; [intros o []|]. rewrite dispatched_emit. apply app_nil_r.
    + destruct (grpc_cq_begin_op tag); [|discriminate].
      inversion H; subst; clear H.
      split; [intros Hne; contradiction|]. intros _.
      split; [intros o []|]. rewrite !dispatched_emit, !app_nil_r. reflexivity.
  - apply call_start_batch_translated in H.
    destruct H as [(-> & Hf & Ht & _)|(c1 & t & Hf & Ht & Hc & _ & Htr & _ & _ & Hres)].
    + split; [|discriminate]. intros _. split; [intros f; rewrite Hf; reflexivity|].
      unfold dispatched. rewrite Ht. reflexivity.
    + destruct (translate_ops_tracked (flag call) (o :: ops) _ t err
                  (tracked_start call c1 1 Hf) Htr) as (Htk & Htt & _ & _ & Hbits & _).
      cbn [tr_call] in Htt.
      assert (Hd : dispatched (tr_call t) = dispatched call).
      { unfold dispatched. rewrite Htt, Ht. reflexivity. }
      destruct err.
      1: { destruct Hres as (Hfl & Hdis).
           split; [intros Hne; contradiction|]. intros _. split.
           - intros o' Hin. rewrite Hfl.
             specialize (Hbits eq_refl o' Hin). specialize (Htk (flag_of_op (op o'))).
             rewrite Hbits in Htk. apply Htk.
           - exists (tr_stream_op t). split; [rewrite Hdis, Hd; reflexivity|].
             exact (Hbits eq_refl). }
      all: split; [|discriminate]; intros _; subst call'.
      all: destruct (done_with_error_restores (flag call) t
                       (put_bctl (batch_slot_for_op (op o))
                          (bctl_upd_stream_op (tr_stream_op t)
                             (bctl_upd_is_closure is_closure
                                (bctl_upd_notify_tag tag
                                   (bctl_upd_bctl_call true zero_batch_control))))
                          (tr_call t)) Htk eq_refl) as (Hfl & Htrace).
      all: split; [exact Hfl|].
      all: unfold dispatched; rewrite Htrace; simpl; fold (dispatched (tr_call t));
        exact Hd.
Qed.

(** The empty vector: no batch control, no batch, the completion at
    once. *)
Lemma call_start_batch_empty (call : grpc_call) (tag : Z) (is_closure : bool) :
  (is_closure = false -> grpc_cq_begin_op tag = true) ->
  exists call',
    call_start_batch call [] tag is_closure = Ret (GRPC_CALL_OK, call')
    /\ trace call'
       = trace call ++ (if is_closure
                        then [EvClosureSched tag GRPC_ERROR_NONE]
                        else [EvCqBeginOp tag; EvCqEndOp tag GRPC_ERROR_NONE])
    /\ dispatched call' = dispatched call
    /\ (forall f, flag call' f = flag call f)
    /\ active_batches call' = active_batches call.
Proof.
  intros Hcq. unfold call_start_batch. destruct is_closure; cbn [negb].
  - eexists. split; [reflexivity|]. split; [reflexivity|].
    split; [rewrite dispatched_emit; apply app_nil_r|]. split; reflexivity.
  - rewrite (Hcq eq_refl). cbn [GPR_ASSERT obind].
    eexists. split; [reflexivity|].
    split; [unfold emit; cbn [trace upd_trace]; rewrite <- app_assoc; reflexivity|].
    split; [rewrite !dispatched_emit, !app_nil_r; reflexivity|]. split; reflexivity.
Qed.

(** C2, as the code has it. A submission that returns an error leaves each
    of the six op flags of the call at its value from before the call and
    hands no batch to the filter stack; a submission that returns OK has
    set the flag of every op of the vector and, when the vector is not
    empty, has handed exactly one batch to the filter stack, with the bit
    of every op set. The empty vector returns OK, provided the completion
    queue takes the tag when the tag is no closure (the code asserts it):
    it reports the completion at once and with no error, to the queue or
    by scheduling the closure, hands nothing to the filter stack, changes
    no flag and takes no batch control. *)
Theorem call_start_batch_all_or_nothing (call : grpc_call) (tag : Z) (is_closure : bool) :
  (forall ops err call',
     call_start_batch call ops tag is_closure = Ret (err, call') ->
     (err <> GRPC_CALL_OK ->
      (forall f, flag call' f = flag call f) /\ dispatched call' = dispatched call)
     /\ (err = GRPC_CALL_OK ->
         (forall o, In o ops -> flag call' (flag_of_op (op o)) = true)
         /\ match ops with
            | [] => dispatched call' = dispatched call
            | _ :: _ =>
                exists batch,
                  dispatched call' = dispatched call ++ [batch]
                  /\ forall o, In o ops -> stream_op_bit (flag_of_op (op o)) batch = true
            end))
  /\ ((is_closure = false -> grpc_cq_begin_op tag = true) ->
      exists call',
        call_start_batch call [] tag is_closure = Ret (GRPC_CALL_OK, call')
        /\ trace call'
           = trace call ++ (if is_closure
                            then [EvClosureSched tag GRPC_ERROR_NONE]
                            else [EvCqBeginOp tag; EvCqEndOp tag GRPC_ERROR_NONE])
        /\ dispatched call' = dispatched call
        /\ (forall f, flag call' f = flag call f)
        /\ active_batches call' = active_batches call).
Proof.
  split.
  - intros ops err call'. apply call_start_batch_flags_and_dispatch.
  - apply call_start_batch_empty.
Qed.


Lemma call_start_batch_keeps_slots (c c' : grpc_call) (ops : list grpc_op) (tag : Z)
    (is_closure : bool) (err : grpc_call_error) (s : nat) :
  call_start_batch c ops tag is_closure = Ret (err, c') ->
  slot_in_use c s -> slot_in_use c' s.
Proof.
  intros H Hs. destruct ops as [|o ops].
  - unfold call_start_batch, obind, GPR_ASSERT in H.
    destruct is_closure; cbn [negb] in H; cbv iota in H.
    + inversion H; subst. exact Hs.
    + destruct (grpc_cq_begin_op tag); [|discriminate]. inversion H; subst. exact Hs.
  - apply call_start_batch_translated in H.
    destruct H as [(_ & _ & _ & _ & _ & Hk)|(c1 & t & _ & _ & _ & Hk1 & _ & _ & Hk2 & _)].
    + apply Hk, Hs.
    + apply Hk2, Hk1, Hs.
Qed.

Lemma submit_all_keeps_slots (later : list submission) :
  forall (c c' : grpc_call) (s : nat),
  submit_all c later = Ret c' -> slot_in_use c s -> slot_in_use c' s.
Proof.
  induction later as [|sub later IH]; intros c c' s H Hs; simpl in H.
  - inversion H; subst. exact Hs.
  - unfold obind in H.
    destruct (call_start_batch c (sub_ops sub) (sub_tag sub) (sub_is_closure sub))
      as [[e c1]|] eqn:H1; [|discriminate].
    eapply IH; [exact H|]. eapply call_start_batch_keeps_slots; eassumption.
Qed.

Lemma slot_in_use_refuses (c : grpc_call) (o : grpc_op) (ops : list grpc_op) (tag : Z)
    (is_closure : bool) :
  slot_in_use c (batch_slot_for_op (op o)) ->
  call_start_batch c (o :: ops) tag is_closure
  = Ret (GRPC_CALL_ERROR_TOO_MANY_OPERATIONS, c).
Proof.
  intros (b & Hl & Hb). unfold call_start_batch, allocate_batch_control, obind.
  rewrite Hl. rewrite Hl. rewrite Hb. reflexivity.
Qed.

(** C4. When [call_start_batch] returns an error for a non-empty vector,
    the batch control in the slot of the first op of the vector has a
    non-null [call] afterwards, although the op flags are back at their
    values from before the call; no later submission clears it, so after
    any further submissions every submission whose first op maps to that
    slot returns TOO_MANY_OPERATIONS and changes nothing. *)
Theorem failed_batch_keeps_its_slot (call call' : grpc_call) (o : grpc_op)
    (ops : list grpc_op) (tag : Z) (is_closure : bool) (err : grpc_call_error) :
  call_start_batch call (o :: ops) tag is_closure = Ret (err, call') ->
  err <> GRPC_CALL_OK ->
  slot_in_use call' (batch_slot_for_op (op o))
  /\ (forall f, flag call' f = flag call f)
  /\ forall (later : list submission) (call'' : grpc_call) (o2 : grpc_op)
            (ops2 : list grpc_op) (tag2 : Z) (is_closure2 : bool),
       submit_all call' later = Ret call'' ->
       batch_slot_for_op (op o2) = batch_slot_for_op (op o) ->
       call_start_batch call'' (o2 :: ops2) tag2 is_closure2
       = Ret (GRPC_CALL_ERROR_TOO_MANY_OPERATIONS, call'').
Proof.
  intros H Hne.
  assert (Hu : slot_in_use call' (batch_slot_for_op (op o))).
  { pose proof H as H'. apply call_start_batch_translated in H'.
    destruct H' as [(_ & _ & _ & _ & Hu & _)|(c1 & t & _ & _ & _ & _ & _ & Hu & _)];
      exact Hu. }
  split; [exact Hu|].
  split; [exact (proj1 (proj1 (call_start_batch_flags_and_dispatch _ _ _ _ _ _ H) Hne))|].
  intros later call'' o2 ops2 tag2 cl2 Hl Hslot.
  apply slot_in_use_refuses. rewrite Hslot.
  eapply submit_all_keeps_slots; eassumption.
Qed.



End Translator.

Section Creation.
Context {ext : Externals}.

Lemma add_init_error_not_none (composite new : grpc_error) :
  is_error_none composite = false ->
  is_error_none (add_init_error composite new) = false.
Proof.
  intros H. unfold add_init_error. destruct (is_error_none new); [exact H|].
  reflexivity.
Qed.

Lemma attach_to_parent_census (args : grpc_call_create_args) (call parent : grpc_call)
    (deadline : gpr_timespec) (census : grpc_error) :
  is_client call = true ->
  is_client parent = false ->
  (Z.land (propagation_mask args) GRPC_PROPAGATE_CENSUS_STATS_CONTEXT <> 0
   /\ Z.land (propagation_mask args) GRPC_PROPAGATE_CENSUS_TRACING_CONTEXT = 0
   /\ census = GRPC_ERROR_CREATE
        "Census context propagation requested without Census tracing propagation")
  \/ (Z.land (propagation_mask args) GRPC_PROPAGATE_CENSUS_TRACING_CONTEXT <> 0
      /\ Z.land (propagation_mask args) GRPC_PROPAGATE_CENSUS_STATS_CONTEXT = 0
      /\ census = GRPC_ERROR_CREATE
           "Census tracing propagation requested without Census context propagation") ->
  exists a,
    attach_to_parent args call parent deadline = Ret a
    /\ at_error a = grpc_error_add_child (GRPC_ERROR_CREATE "Call creation failed") census
    /\ status (at_call a) = status call
    /\ trace (at_call a) = trace call.
Proof.
  intros Hc Hpc Hmask. unfold attach_to_parent. rewrite Hc.
  change (is_client (emit (EvInternalRef "child") parent)) with (is_client parent).
  rewrite Hpc. cbn [negb GPR_ASSERT obind].
  destruct (get_or_create_parent_call _) as [pc parent1].
  destruct Hmask as [(Hst & Htr & ->)|(Htr & Hst & ->)].
  - apply Z.eqb_neq in Hst. apply Z.eqb_eq in Htr. rewrite Htr, Hst. cbn [negb].
    destruct (negb (Z.land (propagation_mask args) GRPC_PROPAGATE_CANCELLATION =? 0));
      eexists; (split; [reflexivity|]); cbn; repeat split; reflexivity.
  - apply Z.eqb_neq in Htr. apply Z.eqb_eq in Hst. rewrite Htr, Hst. cbn [negb].
    destruct (negb (Z.land (propagation_mask args) GRPC_PROPAGATE_CANCELLATION =? 0));
      eexists; (split; [reflexivity|]); cbn; repeat split; reflexivity.
Qed.

(** C10. Call creation checks the census bits of the propagation mask of a
    child call in both directions. With a parent, asking for the stats
    context without the tracing context makes an init-failure aggregate
    ("Call creation failed" with the census error as a child, followed by
    what the filter stack's initialisation added), which creation returns
    and with which it cancels the new call from source SURFACE: the
    aggregate is in the slot of SURFACE, and a batch with [cancel_stream]
    set and the aggregate as its [cancel_error] has gone to the filter
    stack. Asking for the tracing context without the stats context does
    the same with its own census error. *)
Theorem census_mask_checked_both_ways (args : grpc_call_create_args) (parent : grpc_call)
    (census : grpc_error) :
  parent_call_arg args = Some parent ->
  server_transport_data args = false ->
  is_client parent = false ->
  Z.of_nat (length (add_initial_metadata args)) < MAX_SEND_EXTRA_METADATA_COUNT ->
  (args_cq args = None \/ args_pollset_set_alternative args = None) ->
  (Z.land (propagation_mask args) GRPC_PROPAGATE_CENSUS_STATS_CONTEXT <> 0
   /\ Z.land (propagation_mask args) GRPC_PROPAGATE_CENSUS_TRACING_CONTEXT = 0
   /\ census = GRPC_ERROR_CREATE
        "Census context propagation requested without Census tracing propagation")
  \/ (Z.land (propagation_mask args) GRPC_PROPAGATE_CENSUS_TRACING_CONTEXT <> 0
      /\ Z.land (propagation_mask args) GRPC_PROPAGATE_CENSUS_STATS_CONTEXT = 0
      /\ census = GRPC_ERROR_CREATE
           "Census tracing propagation requested without Census context propagation") ->
  exists call parent',
    let error :=
      add_init_error
        (grpc_error_add_child (GRPC_ERROR_CREATE "Call creation failed") census)
        (call_stack_init_result args) in
    grpc_call_create args = Ret (error, call, Some parent')
    /\ is_error_none error = false
    /\ status call STATUS_FROM_SURFACE = ATM_SET error
    /\ exists batch,
         In batch (dispatched call)
         /\ cancel_stream batch = true
         /\ cancel_error batch = error.
Proof.
  intros Hp Hs Hpc Hn Hcq Hmask.
  unfold grpc_call_create.
  cbn [is_client upd_is_client upd_encodings_accepted_by_peer zero_call].
  rewrite Hs, Hp. cbn [negb].
  apply Z.ltb_lt in Hn. rewrite Hn. cbn [GPR_ASSERT obind].
  match goal with
  | |- context [attach_to_parent args ?c parent ?d] =>
      destruct (attach_to_parent_census args c parent d census eq_refl Hpc Hmask)
        as (a & Ha & Herr & Hstat & Htrace);
      rewrite Ha
  end.
  cbn [obind]. rewrite Herr.
  set (error := add_init_error _ (call_stack_init_result args)).
  assert (He : is_error_none error = false)
    by (apply add_init_error_not_none; reflexivity).
  rewrite He. cbn [negb].
  assert (Hcqok : match args_cq args with
                  | Some _ =>
                      GPR_ASSERT
                        match args_pollset_set_alternative args with
                        | Some _ => false
                        | None => true
                        end
                        "Only one of 'cq' and 'pollset_set_alternative' should be non-NULL."
                  | None => Ret tt
                  end = Ret tt).
  { destruct Hcq as [-> | ->]; [reflexivity|]. destruct (args_cq args); reflexivity. }
  rewrite Hcqok. cbn [obind].
  eexists _, _. split; [reflexivity|]. split; [first [exact He|reflexivity]|].
  set (c0 := upd_send_deadline (at_send_deadline a) (at_call a)).
  assert (Hz : status c0 STATUS_FROM_SURFACE = ATM_ZERO).
  { subst c0. cbn [status upd_send_deadline]. rewrite Hstat. reflexivity. }
  destruct (cancel_with_error_effect c0 STATUS_FROM_SURFACE error) as (Ht1 & Hs1 & _).
  assert (Hin1 : In (cancel_stream_op error)
                   (dispatched (cancel_with_error c0 STATUS_FROM_SURFACE error))).
  { unfold dispatched. rewrite Ht1, omap_app. apply in_or_app. right. simpl. auto. }
  assert (Hst1 : status (cancel_with_error c0 STATUS_FROM_SURFACE error)
                   STATUS_FROM_SURFACE = ATM_SET error).
  { rewrite Hs1, status_after_record, Hz. reflexivity. }
  destruct (at_immediately_cancel a).
  - destruct (cancel_with_error_effect (cancel_with_error c0 STATUS_FROM_SURFACE error)
                STATUS_FROM_API_OVERRIDE GRPC_ERROR_CANCELLED) as (Ht2 & Hs2 & _).
    split.
    + rewrite Hs2, status_after_record.
      destruct (status _ STATUS_FROM_API_OVERRIDE); simpl; exact Hst1.
    + exists (cancel_stream_op error).
      split; [|apply cancel_stream_op_fields].
      unfold dispatched. rewrite Ht2, omap_app. apply in_or_app. left. exact Hin1.
  - split; [exact Hst1|].
    exists (cancel_stream_op error). split; [exact Hin1|apply cancel_stream_op_fields].
Qed.

End Creation.

Section Callbacks.
Context {ext : Externals}.

Lemma post_bind {A B} (Q1 : A -> Prop) (Q2 : B -> Prop) (m : outcome A)
    (k : A -> outcome B) :
  post Q1 m -> (forall a, Q1 a -> post Q2 (k a)) -> post Q2 (obind m k).
Proof. destruct m; simpl; auto. Qed.


Lemma post_assert (b : bool) (what : string) :
  what <> errors_out_of_bounds ->
  post (fun _ => b = true) (GPR_ASSERT b what).
Proof. destruct b; simpl; auto. Qed.

Lemma marks_emit (e : event) (c : grpc_call) :
  marks (emit e c) = marks c ++ match e with
                                | EvMark m => [m]
                                | _ => []
                                end.
Proof. unfold marks, emit. simpl. rewrite omap_app. destruct e; reflexivity. Qed.


Lemma get_bctl_post (c : grpc_call) (b : nat) :
  post (fun bctl => active_batches c !! b = Some bctl /\ bctl_call bctl = true)
    (get_bctl c b).
Proof.
  unfold get_bctl. destruct (active_batches c !! b) as [bctl|]; simpl; [|discriminate].
  destruct (bctl_call bctl) eqn:H; simpl; [auto|discriminate].
Qed.

Lemma quiet_refl (c : grpc_call) : quiet_with [] c c.
Proof. unfold quiet_with. rewrite app_nil_r. auto. Qed.

Lemma quiet_step (ms : list marker) (c0 c c' : grpc_call) :
  quiet_with ms c0 c ->
  marks c' = marks c -> recv_state c' = recv_state c ->
  (forall s, errs c' s = errs c s) ->
  quiet_with ms c0 c'.
Proof.
  intros (Hm & Hr & He) Hm' Hr' He'. unfold quiet_with.
  rewrite Hm', Hr'. repeat split; auto. intros s. rewrite He'. apply He.
Qed.

Lemma quiet_mark (ms : list marker) (m : marker) (c0 c : grpc_call) :
  quiet_with ms c0 c -> quiet_with (ms ++ [m]) c0 (emit (EvMark m) c).
Proof.
  intros (Hm & Hr & He). unfold quiet_with. rewrite marks_emit, Hm, app_assoc.
  repeat split; auto.
Qed.

Lemma record_fields (c : grpc_call) (source : status_source) (e : grpc_error) :
  trace (set_status_from_error c source e) = trace c
  /\ recv_state (set_status_from_error c source e) = recv_state c
  /\ active_batches (set_status_from_error c source e) = active_batches c
  /\ flag (set_status_from_error c source e) = flag c
  /\ is_client (set_status_from_error c source e) = is_client c
  /\ final_op (set_status_from_error c source e) = final_op c.
Proof.
  unfold set_status_from_error. destruct (status c source); simpl; repeat split; reflexivity.
Qed.

Lemma cancel_fields (c : grpc_call) (source : status_source) (e : grpc_error) :
  trace (cancel_with_error c source e) =
    trace c ++ [EvInternalRef "termination"; EvCombinerCancel e;
                EvCombinerStart (cancel_stream_op e)]
  /\ recv_state (cancel_with_error c source e) = recv_state c
  /\ active_batches (cancel_with_error c source e) = active_batches c
  /\ flag (cancel_with_error c source e) = flag c
  /\ is_client (cancel_with_error c source e) = is_client c.
Proof.
  unfold cancel_with_error, execute_batch, emit, set_status_from_error.
  destruct (status _ source); simpl; rewrite <- !app_assoc; repeat split; reflexivity.
Qed.

Lemma trace_record (c : grpc_call) s e : trace (set_status_from_error c s e) = trace c.
Proof. apply record_fields. Qed.

Lemma recv_state_record (c : grpc_call) s e :
  recv_state (set_status_from_error c s e) = recv_state c.
Proof. apply record_fields. Qed.

Lemma active_batches_record (c : grpc_call) s e :
  active_batches (set_status_from_error c s e) = active_batches c.
Proof. apply record_fields. Qed.

Lemma trace_cancel (c : grpc_call) s e :
  trace (cancel_with_error c s e) =
    trace c ++ [EvInternalRef "termination"; EvCombinerCancel e;
                EvCombinerStart (cancel_stream_op e)].
Proof. apply cancel_fields. Qed.

Lemma recv_state_cancel (c : grpc_call) s e :
  recv_state (cancel_with_error c s e) = recv_state c.
Proof. apply cancel_fields. Qed.

Lemma active_batches_cancel (c : grpc_call) s e :
  active_batches (cancel_with_error c s e) = active_batches c.
Proof. apply cancel_fields. Qed.

(** Solves [marks t = marks c], [recv_state t = recv_state c] and
    [errs t s = errs c s] for a term [t] made from [c] by field updates,
    events that are no marks, and stores of batch controls with the
    counts they had. *)
Ltac same_view :=
  intros; unfold errs, marks, emit, put_bctl;
  repeat first
    [ rewrite trace_record
    | rewrite recv_state_record
    | rewrite active_batches_record
    | rewrite trace_cancel
    | rewrite recv_state_cancel
    | rewrite active_batches_cancel
    | progress cbn
    | rewrite omap_app
    | rewrite app_nil_r
    | rewrite lookup_insert
    | match goal with
      | |- context [decide (?s = ?b)] => destruct (decide (s = b)); subst
      end
    | match goal with
      | |- context [if ?b then _ else _] => destruct b
      end
    | match goal with
      | H : active_batches _ !! _ = Some _ |- _ => rewrite H
      end ];
  try reflexivity; try congruence.

Ltac quiet_by H :=
  eapply quiet_step; [exact H | same_view ..].

Ltac wp_step :=
  match goal with
  | |- post _ (obind (get_bctl _ _) _) =>
      eapply post_bind; [apply get_bctl_post | intros ? (? & ?)]
  | |- post _ (obind (GPR_ASSERT _ _) _) =>
      eapply post_bind; [apply post_assert; discriminate | intros ? ?]
  | |- post _ (if ?b then _ else _) => destruct b eqn:?
  | |- post _ (match ?x with _ => _ end) => destruct x eqn:?
  | |- post _ (Abort _) => simpl; discriminate
  end.

Lemma publish_quiet (ms : list marker) (c0 c : grpc_call) (b : grpc_metadata_batch)
    (is_trailing : bool) :
  quiet_with ms c0 c -> post (quiet_with ms c0) (publish_app_metadata c b is_trailing).
Proof.
  intros Hq. unfold publish_app_metadata. repeat wp_step; simpl; [exact Hq|].
  quiet_by Hq.
Qed.

Lemma recv_trailing_filter_quiet (ms : list marker) (c0 c : grpc_call) :
  quiet_with ms c0 c -> post (quiet_with ms c0) (recv_trailing_filter c).
Proof.
  intros Hq. unfold recv_trailing_filter.
  destruct (idx_named (metadata_batch c true true) GRPC_MDSTR_GRPC_STATUS);
    apply publish_quiet; quiet_by Hq.
Qed.

Lemma consolidate_post (bctl : batch_control) :
  post (fun r => num_errors (snd r) = num_errors bctl
                 /\ length (errors (snd r)) = length (errors bctl)
                 /\ bctl_call (snd r) = bctl_call bctl
                 /\ stream_op (snd r) = stream_op bctl
                 /\ notify_tag (snd r) = notify_tag bctl
                 /\ is_closure (snd r) = is_closure bctl
                 /\ fst r =
                    if num_errors bctl =? 0 then GRPC_ERROR_NONE
                    else if num_errors bctl =? 1
                         then default GRPC_ERROR_NONE (errors bctl !! 0%nat)
                         else GRPC_ERROR_CREATE_REFERENCING "Call batch failed"
                                (take (Z.to_nat (num_errors bctl)) (errors bctl)))
    (consolidate_batch_errors bctl).
Proof.
  unfold consolidate_batch_errors.
  destruct (num_errors bctl =? 0) eqn:H0; [simpl; repeat split; reflexivity|].
  destruct (num_errors bctl =? 1) eqn:H1.
  - destruct (errors bctl !! 0%nat) eqn:He; simpl; [|discriminate].
    repeat split; try reflexivity. apply length_insert.
  - eapply post_bind; [apply post_assert; discriminate|]. intros ? Hle. simpl.
    repeat split; try reflexivity.
    apply Z.leb_le in Hle. apply Z.eqb_neq in H0.
    rewrite length_app, length_replicate, length_drop. lia.
Qed.

Lemma propagate_fields (c : grpc_call) :
  marks (propagate_cancellation c) = marks c
  /\ recv_state (propagate_cancellation c) = recv_state c
  /\ active_batches (propagate_cancellation c) = active_batches c
  /\ status (propagate_cancellation c) = status c
  /\ is_client (propagate_cancellation c) = is_client c
  /\ send_deadline (propagate_cancellation c) = send_deadline c
  /\ final_op (propagate_cancellation c) = final_op c
  /\ completions (propagate_cancellation c) = completions c.
Proof.
  unfold propagate_cancellation. destruct (get_parent_call c) as [pc|]; [|repeat split].
  generalize (first_child_ring pc). intros l. revert c.
  induction l as [|child l IH]; intros c; simpl; [repeat split|].
  destruct (IH (if child_cancellation_is_inherited child
                then emit (EvCancelChild (child_id child) STATUS_FROM_API_OVERRIDE
                             GRPC_ERROR_CANCELLED) c
                else c)) as (H1 & H2 & H3 & H4 & H5 & H6 & H7 & H8).
  rewrite H1, H2, H3, H4, H5, H6, H7, H8.
  destruct (child_cancellation_is_inherited child); repeat split; try reflexivity.
  - rewrite marks_emit. apply app_nil_r.
  - unfold completions, emit. simpl. rewrite omap_app. apply app_nil_r.
Qed.

Lemma post_batch_completion_quiet (ms : list marker) (c0 c : grpc_call) (b : nat) :
  quiet_with ms c0 c -> post (quiet_with ms c0) (post_batch_completion c b).
Proof.
  intros Hq. unfold post_batch_completion. rename b into s.
  eapply post_bind; [apply get_bctl_post|]. intros a (H & H0).
  eapply post_bind; [apply consolidate_post|].
  intros [error bctl] (Hn & Hlen & Hcall & Hop & Htag & Hcl & Herr). cbn [fst snd] in *.
  cbv zeta.
  match goal with
  | |- post _ (obind (if _ then obind (recv_trailing_filter ?x) _ else _) _) =>
      assert (Hq1 : quiet_with ms c0 x) by (quiet_by Hq)
  end.
  eapply post_bind with (Q1 := fun r => quiet_with ms c0 (fst r)).
  { destruct (recv_trailing_metadata (stream_op bctl)); [|exact Hq1].
    eapply post_bind; [apply recv_trailing_filter_quiet; exact Hq1|].
    intros c2 Hq2. simpl.
    destruct (propagate_fields (upd_received_final_op_atm 1 c2)) as (P1 & P2 & P3 & _).
    eapply quiet_step; [exact Hq2|..].
    - destruct (is_client _); unfold marks in *; cbn; exact P1.
    - destruct (is_client _); cbn; exact P2.
    - intros s'. destruct (is_client _); unfold errs; cbn; rewrite P3; reflexivity. }
  intros [c3 error3] Hq3. cbn [fst] in Hq3.
  assert (He3 : errs c3 s = Some (num_errors bctl, length (errors bctl))).
  { rewrite (proj2 (proj2 Hq3)), <- (proj2 (proj2 Hq)). unfold errs.
    rewrite H. simpl. congruence. }
  destruct (is_closure bctl); simpl; quiet_by Hq3.
  symmetry. exact He3.
Qed.

Lemma finish_batch_step_quiet (ms : list marker) (c0 c : grpc_call) (b : nat) :
  quiet_with ms c0 c -> post (quiet_with ms c0) (finish_batch_step c b).
Proof.
  intros Hq. unfold finish_batch_step. wp_step. cbv zeta.
  match goal with
  | |- post _ (if _ then post_batch_completion ?x _ else _) =>
      assert (Hq1 : quiet_with ms c0 x) by (quiet_by Hq)
  end.
  wp_step; [apply post_batch_completion_quiet|]; exact Hq1.
Qed.

Lemma deref_receiving_buffer_post (c : grpc_call) :
  post (fun _ => True) (deref_receiving_buffer c).
Proof. unfold deref_receiving_buffer. destruct (receiving_buffer c); simpl; [auto|discriminate]. Qed.

Lemma store_receiving_buffer_quiet (ms : list marker) (c0 c : grpc_call)
    (b : option grpc_byte_buffer) :
  quiet_with ms c0 c -> post (quiet_with ms c0) (store_receiving_buffer b c).
Proof.
  intros Hq. unfold store_receiving_buffer.
  destruct (receiving_buffer c); simpl; [quiet_by Hq|discriminate].
Qed.

Lemma abandon_message_quiet (ms : list marker) (c0 c : grpc_call) (b : nat) :
  quiet_with ms c0 c -> post (quiet_with ms c0) (abandon_message c b).
Proof.
  intros Hq. unfold abandon_message. cbv zeta.
  eapply post_bind; [apply deref_receiving_buffer_post|]. intros _ _.
  eapply post_bind; [apply store_receiving_buffer_quiet; quiet_by Hq|]. intros c1 Hq1.
  apply finish_batch_step_quiet. quiet_by Hq1.
Qed.

Lemma continue_receiving_slices_from_quiet (ms : list marker) (c0 : grpc_call) (b : nat)
    (script : list stream_step) :
  forall (len fl : Z) (c : grpc_call),
  quiet_with ms c0 c ->
  post (quiet_with ms c0) (continue_receiving_slices_from script len fl c b).
Proof.
  induction script as [|st script IH]; intros len fl c Hq; simpl.
  - eapply post_bind; [apply deref_receiving_buffer_post|]. intros [buffer|] _;
      [|simpl; discriminate].
    destruct (_ =? 0); [|exact Hq].
    apply finish_batch_step_quiet. quiet_by Hq.
  - eapply post_bind; [apply deref_receiving_buffer_post|]. intros [buffer|] _;
      [|simpl; discriminate].
    destruct (_ =? 0); [apply finish_batch_step_quiet; quiet_by Hq|].
    destruct st as [[slice|e]|r].
    + eapply post_bind; [apply store_receiving_buffer_quiet; quiet_by Hq|].
      intros c1 Hq1. apply IH. exact Hq1.
    + apply abandon_message_quiet. exact Hq.
    + exact Hq.
Qed.

Lemma continue_receiving_slices_quiet (ms : list marker) (c0 c : grpc_call) (b : nat) :
  quiet_with ms c0 c -> post (quiet_with ms c0) (continue_receiving_slices c b).
Proof.
  intros Hq. unfold continue_receiving_slices. wp_step.
  destruct (receiving_stream c); [|simpl; discriminate].
  apply continue_receiving_slices_from_quiet. exact Hq.
Qed.

Lemma receiving_slice_ready_quiet (ms : list marker) (c0 c : grpc_call) (b : nat)
    (e : grpc_error) :
  quiet_with ms c0 c -> post (quiet_with ms c0) (receiving_slice_ready c b e).
Proof.
  intros Hq. unfold receiving_slice_ready. wp_step.
  destruct (is_error_none e); [|apply abandon_message_quiet; exact Hq].
  destruct (receiving_stream c) as [bs|]; [|simpl; discriminate].
  destruct (bs_script bs) as [|[r|r] script]; [simpl; discriminate| |].
  all: destruct r as [slice|e'];
    [|apply abandon_message_quiet; quiet_by Hq].
  all: eapply post_bind; [apply deref_receiving_buffer_post|]; intros [buffer|] _;
    [|simpl; discriminate].
  all: eapply post_bind; [apply store_receiving_buffer_quiet; quiet_by Hq|].
  all: intros c1 Hq1; apply continue_receiving_slices_quiet; exact Hq1.
Qed.

Lemma process_data_after_md_quiet (ms : list marker) (c0 c : grpc_call) (b : nat) :
  quiet_with ms c0 c ->
  post (quiet_with (ms ++ [Enter_process_data_after_md b]) c0) (process_data_after_md c b).
Proof.
  intros Hq. unfold process_data_after_md. cbv zeta.
  pose proof (quiet_mark ms (Enter_process_data_after_md b) c0 c Hq) as Hq1.
  wp_step.
  destruct (receiving_stream _) as [bs|].
  - eapply post_bind with (Q1 := fun _ => True).
    { destruct (_ && _); simpl; [|auto].
      destruct (grpc_compression_algorithm_from_message_stream_compression_algorithm _ _);
        simpl; [auto|discriminate]. }
    intros buffer _.
    eapply post_bind; [apply store_receiving_buffer_quiet; quiet_by Hq1|].
    intros c1 Hq2. apply continue_receiving_slices_quiet. exact Hq2.
  - eapply post_bind; [apply store_receiving_buffer_quiet; exact Hq1|].
    intros c1 Hq2. apply finish_batch_step_quiet. quiet_by Hq2.
Qed.

Lemma recv_initial_filter_quiet (ms : list marker) (c0 c : grpc_call) :
  quiet_with ms c0 c ->
  post (quiet_with (ms ++ [Enter_recv_initial_filter]) c0) (recv_initial_filter c).
Proof.
  intros Hq. unfold recv_initial_filter. cbv zeta.
  pose proof (quiet_mark ms Enter_recv_initial_filter c0 c Hq) as Hq1.
  eapply post_bind
    with (Q1 := fun r => quiet_with (ms ++ [Enter_recv_initial_filter]) c0 (fst r)).
  { destruct (idx_named _ GRPC_MDSTR_CONTENT_ENCODING); [|exact Hq1].
    unfold set_incoming_stream_compression_algorithm.
    eapply post_bind.
    - eapply post_bind; [apply post_assert; discriminate|]. intros ? ?. simpl.
      instantiate (1 := quiet_with (ms ++ [Enter_recv_initial_filter]) c0).
      quiet_by Hq1.
    - intros c1 Hq2. exact Hq2. }
  intros [c1 b1] Hq2. cbn [fst] in Hq2.
  eapply post_bind
    with (Q1 := fun r => quiet_with (ms ++ [Enter_recv_initial_filter]) c0 (fst r)).
  { destruct (idx_named _ GRPC_MDSTR_GRPC_ENCODING); [|exact Hq2].
    unfold set_incoming_message_compression_algorithm.
    eapply post_bind.
    - eapply post_bind; [apply post_assert; discriminate|]. intros ? ?. simpl.
      instantiate (1 := quiet_with (ms ++ [Enter_recv_initial_filter]) c0).
      quiet_by Hq2.
    - intros c2 Hq3. exact Hq3. }
  intros [c2 b2] Hq3. cbn [fst] in Hq3.
  destruct (idx_named b2 GRPC_MDSTR_GRPC_ACCEPT_ENCODING);
    match goal with
    | |- context [idx_named ?b GRPC_MDSTR_ACCEPT_ENCODING] =>
        destruct (idx_named b GRPC_MDSTR_ACCEPT_ENCODING)
    end;
    apply publish_quiet; quiet_by Hq3.
Qed.

Lemma validate_filtered_metadata_quiet (ms : list marker) (c0 c : grpc_call) :
  quiet_with ms c0 c ->
  post (quiet_with (ms ++ [Enter_validate_filtered_metadata]) c0)
    (validate_filtered_metadata c).
Proof.
  intros Hq. unfold validate_filtered_metadata, cancel_with_status. cbv zeta.
  pose proof (quiet_mark ms Enter_validate_filtered_metadata c0 c Hq) as Hq1.
  destruct (_ && _); [simpl; quiet_by Hq1|].
  destruct (grpc_compression_algorithm_from_message_stream_compression_algorithm _ _);
    [|simpl; quiet_by Hq1].
  eapply post_bind; [apply post_assert; discriminate|]. intros ? ?. simpl.
  quiet_by Hq1.
Qed.

Lemma post_ret_of_post {A} (Q : A -> Prop) (r : outcome A) : post Q r -> post_ret Q r.
Proof. destruct r; simpl; auto. Qed.

Lemma post_ret_bind {A B} (Q1 : A -> Prop) (Q2 : B -> Prop) (m : outcome A)
    (k : A -> outcome B) :
  post_ret Q1 m -> (forall a, Q1 a -> post_ret Q2 (k a)) -> post_ret Q2 (obind m k).
Proof. destruct m; simpl; auto. Qed.

Lemma add_batch_error_ret (c : grpc_call) (b : nat) (e : grpc_error) (hc : bool) :
  post_ret (fun c' => marks c' = marks c /\ recv_state c' = recv_state c)
    (add_batch_error c b e hc).
Proof.
  unfold add_batch_error. destruct (is_error_none e); [simpl; auto|].
  destruct (get_bctl c b) as [bctl|]; simpl; [|exact I].
  destruct (_ && _); simpl; [|exact I].
  destruct (_ && _); split; same_view.
Qed.

Lemma marks_cancel (c : grpc_call) s e : marks (cancel_with_error c s e) = marks c.
Proof. unfold marks. rewrite trace_cancel, omap_app. simpl. apply app_nil_r. Qed.

Lemma calm_then_quiet (ms : list marker) (c c1 c2 : grpc_call) :
  marks c1 = marks c -> quiet_with ms c1 c2 -> marks c2 = marks c ++ ms.
Proof. intros H (Hm & _). rewrite Hm, H. reflexivity. Qed.

Lemma receiving_stream_ready_marks (c : grpc_call) (b : nat) (e : grpc_error) :
  post_ret
    (fun c' =>
       if is_error_none e
          && match receiving_stream c with Some _ => true | None => false end
          && match recv_state c with RECV_NONE => true | _ => false end
       then marks c' = marks c /\ recv_state c' = RECV_BCTL b
       else marks c' = marks c ++ [Enter_process_data_after_md b]
            /\ recv_state c' = recv_state c)
    (receiving_stream_ready c b e).
Proof.
  unfold receiving_stream_ready.
  destruct (get_bctl c b) as [bctl|]; simpl; [|exact I].
  destruct (is_error_none e) eqn:He; simpl.
  - destruct (receiving_stream c) as [bs|]; simpl.
    + destruct (recv_state c) eqn:Hr; simpl.
      * split; reflexivity.
      * pose proof (process_data_after_md_quiet [] c c b (quiet_refl c)) as Hp.
        apply post_ret_of_post in Hp. destruct (process_data_after_md c b); cbn [post_ret obind] in *;
          [|exact I].
        destruct Hp as (Hm & Hs & _). split; [exact Hm|congruence].
      * pose proof (process_data_after_md_quiet [] c c b (quiet_refl c)) as Hp.
        apply post_ret_of_post in Hp. destruct (process_data_after_md c b); cbn [post_ret obind] in *;
          [|exact I].
        destruct Hp as (Hm & Hs & _). split; [exact Hm|congruence].
    + pose proof (process_data_after_md_quiet [] c c b (quiet_refl c)) as Hp.
      apply post_ret_of_post in Hp. destruct (process_data_after_md c b); cbn [post_ret obind] in *;
        [|exact I].
      destruct Hp as (Hm & Hs & _). split; [exact Hm|congruence].
  - set (c1 := match receiving_stream c with
               | Some _ => destroy_receiving_stream c
               | None => c
               end).
    assert (H1 : marks c1 = marks c /\ recv_state c1 = recv_state c)
      by (subst c1; destruct (receiving_stream c); split; reflexivity).
    pose proof (add_batch_error_ret c1 b e true) as Ha.
    destruct (add_batch_error c1 b e true) as [c2|]; cbn [post_ret obind] in *; [|exact I].
    set (c3 := cancel_with_error c2 STATUS_FROM_SURFACE e).
    assert (H3 : marks c3 = marks c /\ recv_state c3 = recv_state c).
    { subst c3. rewrite marks_cancel, recv_state_cancel.
      destruct Ha as (Ha1 & Ha2), H1 as (H11 & H12). split; congruence. }
    pose proof (process_data_after_md_quiet [] c3 c3 b (quiet_refl c3)) as Hp.
    apply post_ret_of_post in Hp. destruct (process_data_after_md c3 b); cbn [post_ret obind] in *;
      [|exact I].
    destruct Hp as (Hm & Hs & _). destruct H3 as (H31 & H32).
    split; [rewrite Hm, H31; reflexivity|congruence].
Qed.

(** The filtering block of [receiving_initial_metadata_ready]. *)
Lemma filter_block_quiet (c : grpc_call) (e : grpc_error) :
  post (quiet_with (own_marks e) c)
    (if is_error_none e
     then
       let* call := recv_initial_filter c in
       let* call := validate_filtered_metadata call in
       let md := metadata_batch call true false in
       if negb (gpr_time_is_inf_future (deadline md)) && negb (is_client call)
       then Ret (upd_send_deadline (deadline md) call)
       else Ret call
     else Ret c).
Proof.
  unfold own_marks. destruct (is_error_none e); [|simpl; apply quiet_refl].
  eapply post_bind; [apply (recv_initial_filter_quiet [] c c (quiet_refl c))|].
  intros c1 Hq1.
  eapply post_bind; [apply (validate_filtered_metadata_quiet _ c c1 Hq1)|].
  intros c2 Hq2. cbv zeta. destruct (_ && _); simpl; [quiet_by Hq2|exact Hq2].
Qed.

Lemma receiving_initial_metadata_ready_marks (c : grpc_call) (b : nat) (e : grpc_error) :
  post_ret
    (fun c' =>
       match recv_state c with
       | RECV_NONE =>
           marks c' = marks c ++ own_marks e
           /\ recv_state c' = RECV_INITIAL_METADATA_FIRST
       | RECV_BCTL r =>
           marks c' = marks c ++ own_marks e ++ [Enter_process_data_after_md r]
           /\ recv_state c' = RECV_BCTL r
       | RECV_INITIAL_METADATA_FIRST => False
       end)
    (receiving_initial_metadata_ready c b e).
Proof.
  unfold receiving_initial_metadata_ready.
  destruct (get_bctl c b) as [bctl|]; cbn [post_ret obind]; [|exact I].
  cbv zeta.
  set (c1 := emit (EvCombinerStop "recv_initial_metadata_ready") c).
  assert (H1 : marks c1 = marks c /\ recv_state c1 = recv_state c).
  { subst c1. rewrite marks_emit, app_nil_r. split; reflexivity. }
  pose proof (add_batch_error_ret c1 b e false) as Ha.
  destruct (add_batch_error c1 b e false) as [c2|]; cbn [post_ret obind] in *; [|exact I].
  pose proof (post_ret_of_post _ _ (filter_block_quiet c2 e)) as Hb.
  match type of Hb with
  | post_ret _ ?m => destruct m as [c3|]
  end; cbn [post_ret obind] in *; [|exact I].
  destruct Hb as (Hm3 & Hr3 & _).
  destruct Ha as (Ha1 & Ha2), H1 as (H11 & H12).
  assert (Hm : marks c3 = marks c ++ own_marks e) by congruence.
  assert (Hr : recv_state c3 = recv_state c) by congruence.
  clearbody c1. clear Hm3 Hr3 Ha1 Ha2 H11 H12.
  rewrite <- Hr.
  destruct (recv_state c3) as [| |r] eqn:Hrs; cbn [post_ret obind].
  - pose proof (post_ret_of_post _ _
                  (finish_batch_step_quiet [] _
                     (upd_recv_state RECV_INITIAL_METADATA_FIRST c3) b (quiet_refl _)))
      as Hf.
    destruct (finish_batch_step _ b) as [c4|]; cbn [post_ret] in *; [|exact I].
    destruct Hf as (Hm4 & Hr4 & _). rewrite app_nil_r in Hm4. split.
    + rewrite Hm4. exact Hm.
    + rewrite Hr4. reflexivity.
  - exact I.
  - pose proof (receiving_stream_ready_marks c3 r e) as Hs.
    rewrite Hrs, andb_false_r in Hs.
    destruct (receiving_stream_ready c3 r e) as [c4|]; cbn [post_ret obind] in *;
      [|exact I].
    destruct Hs as (Hm4 & Hr4).
    pose proof (post_ret_of_post _ _ (finish_batch_step_quiet [] _ c4 b (quiet_refl _)))
      as Hf.
    destruct (finish_batch_step c4 b) as [c5|]; cbn [post_ret] in *; [|exact I].
    destruct Hf as (Hm5 & Hr5 & _). rewrite app_nil_r in Hm5. split.
    + rewrite Hm5, Hm4, Hm, app_assoc. reflexivity.
    + congruence.
Qed.

(** C3, as the code has it. [initial_metadata_ready] and [message_ready]
    arrive for the same batch of a call that has seen neither. In both
    orders [process_data_after_md] is entered exactly once. When the
    initial metadata arrives first, it is entered after
    [recv_initial_filter] and [validate_filtered_metadata] (which run when
    the metadata arrives without error). When the message arrives first
    with no error and a stream, it is deferred and entered after the two
    filters as well; when it arrives first with an error or with no
    stream, it is processed at once, before the initial metadata is
    filtered. *)
Theorem inbound_race_processes_once (c c' : grpc_call) (b : nat)
    (e_md e_msg : grpc_error) (stream : option grpc_byte_stream) :
  recv_state c = RECV_NONE ->
  (deliver_all c b [RecvInitialMetadataReady e_md; RecvMessageReady stream e_msg] = Ret c' ->
   marks c' = marks c ++ own_marks e_md ++ [Enter_process_data_after_md b])
  /\ (deliver_all c b [RecvMessageReady stream e_msg; RecvInitialMetadataReady e_md] = Ret c' ->
      marks c' =
      marks c ++
        (if is_error_none e_msg && match stream with Some _ => true | None => false end
         then own_marks e_md ++ [Enter_process_data_after_md b]
         else [Enter_process_data_after_md b] ++ own_marks e_md))
  /\ (deliver_all c b [RecvInitialMetadataReady e_md; RecvMessageReady stream e_msg] = Ret c'
      \/ deliver_all c b [RecvMessageReady stream e_msg; RecvInitialMetadataReady e_md] = Ret c' ->
      exists new,
        marks c' = marks c ++ new
        /\ length (filter (fun m => is_process_mark m = true) new) = 1%nat).
Proof.
  intros Hnone.
  assert (HA : deliver_all c b [RecvInitialMetadataReady e_md; RecvMessageReady stream e_msg]
               = Ret c' ->
               marks c' = marks c ++ own_marks e_md ++ [Enter_process_data_after_md b]).
  { cbn [deliver_all deliver]. intros H.
    pose proof (receiving_initial_metadata_ready_marks c b e_md) as H1.
    rewrite Hnone in H1.
    destruct (receiving_initial_metadata_ready c b e_md) as [c1|];
      cbn [post_ret obind] in *; [|discriminate].
    destruct H1 as (Hm1 & Hr1).
    unfold receiving_stream_ready_in_call_combiner in H.
    destruct (get_bctl (upd_receiving_stream stream c1) b) as [bctl|];
      cbn [obind] in H; [|discriminate].
    cbv zeta in H.
    pose proof (receiving_stream_ready_marks
                  (emit (EvCombinerStop "recv_message_ready")
                     (upd_receiving_stream stream c1)) b e_msg) as H2.
    change (recv_state (emit _ (upd_receiving_stream stream c1))) with (recv_state c1) in H2.
    rewrite Hr1, andb_false_r in H2.
    destruct (receiving_stream_ready _ b e_msg) as [c2|]; cbn [post_ret obind] in *;
      [|discriminate].
    inversion H; subst c2. destruct H2 as (Hm2 & _).
    rewrite Hm2, marks_emit, app_nil_r.
    change (marks (upd_receiving_stream stream c1)) with (marks c1).
    rewrite Hm1, app_assoc. reflexivity. }
  assert (HB : deliver_all c b [RecvMessageReady stream e_msg; RecvInitialMetadataReady e_md]
               = Ret c' ->
               marks c' =
               marks c ++
                 (if is_error_none e_msg
                     && match stream with Some _ => true | None => false end
                  then own_marks e_md ++ [Enter_process_data_after_md b]
                  else [Enter_process_data_after_md b] ++ own_marks e_md)).
  { cbn [deliver_all deliver]. intros H.
    unfold receiving_stream_ready_in_call_combiner in H.
    destruct (get_bctl (upd_receiving_stream stream c) b) as [bctl|];
      cbn [obind] in H; [|discriminate].
    cbv zeta in H.
    pose proof (receiving_stream_ready_marks
                  (emit (EvCombinerStop "recv_message_ready")
                     (upd_receiving_stream stream c)) b e_msg) as H1.
    change (recv_state (emit _ (upd_receiving_stream stream c))) with (recv_state c) in H1.
    change (receiving_stream (emit _ (upd_receiving_stream stream c))) with stream in H1.
    rewrite Hnone, andb_true_r in H1.
    rewrite marks_emit, app_nil_r in H1.
    change (marks (upd_receiving_stream stream c)) with (marks c) in H1.
    destruct (receiving_stream_ready _ b e_msg) as [c1|]; cbn [post_ret obind] in *;
      [|discriminate].
    pose proof (receiving_initial_metadata_ready_marks c1 b e_md) as H2.
    destruct (receiving_initial_metadata_ready c1 b e_md) as [c2|];
      cbn [post_ret obind] in *; [|discriminate].
    inversion H; subst c2.
    destruct (is_error_none e_msg && match stream with Some _ => true | None => false end).
    - destruct H1 as (Hm1 & Hr1). rewrite Hr1 in H2. destruct H2 as (Hm2 & _).
      rewrite Hm2, Hm1. reflexivity.
    - destruct H1 as (Hm1 & Hr1). rewrite Hr1 in H2. destruct H2 as (Hm2 & _).
      rewrite Hm2, Hm1, <- app_assoc. reflexivity. }
  split; [exact HA|]. split; [exact HB|].
  assert (Hown : filter (fun m => is_process_mark m = true) (own_marks e_md) = []).
  { unfold own_marks. destruct (is_error_none e_md); reflexivity. }
  intros [H|H].
  - eexists. split; [exact (HA H)|]. rewrite filter_app, Hown. reflexivity.
  - eexists. split; [exact (HB H)|].
    destruct (_ && _); rewrite filter_app, Hown; reflexivity.
Qed.













(** ** The error array of a batch *)










(** ** Completion of a batch *)

Lemma consolidate_returns (bctl : batch_control) :
  0 <= num_errors bctl <= Z.of_nat (length (errors bctl)) ->
  exists bctl',
    consolidate_batch_errors bctl =
      Ret (if num_errors bctl =? 0 then GRPC_ERROR_NONE
           else if num_errors bctl =? 1
                then default GRPC_ERROR_NONE (errors bctl !! 0%nat)
                else GRPC_ERROR_CREATE_REFERENCING "Call batch failed"
                       (take (Z.to_nat (num_errors bctl)) (errors bctl)),
           bctl')
    /\ stream_op bctl' = stream_op bctl
    /\ notify_tag bctl' = notify_tag bctl
    /\ is_closure bctl' = is_closure bctl.
Proof.
  intros Hn. unfold consolidate_batch_errors. cbv zeta.
  destruct (num_errors bctl =? 0) eqn:H0; [eexists; repeat split|].
  destruct (num_errors bctl =? 1) eqn:H1.
  - apply Z.eqb_eq in H1.
    destruct (lookup_lt_is_Some_2 (errors bctl) 0%nat) as [e He]; [lia|].
    rewrite He. eexists. repeat split.
  - assert (Hle : (num_errors bctl <=? Z.of_nat (length (errors bctl))) = true)
      by (apply Z.leb_le; lia).
    rewrite Hle. eexists. repeat split.
Qed.

Lemma recv_trailing_filter_returns (c : grpc_call) :
  is_Some (buffered_metadata c true) \/ md_list (metadata_batch c true true) = [] ->
  exists c',
    recv_trailing_filter c = Ret c'
    /\ trace c' = trace c
    /\ is_client c' = is_client c
    /\ final_op c' = final_op c
    /\ parent_call_atm c' = parent_call_atm c.
Proof.
  intros [[dest Hd]|Hnil]; unfold recv_trailing_filter, publish_app_metadata.
  - destruct (idx_named (metadata_batch c true true) GRPC_MDSTR_GRPC_STATUS); cbv zeta;
      match goal with
      | |- context [match md_list ?b with _ => _ end] => destruct (md_list b)
      end;
      unfold set_status_from_error; try destruct (status c STATUS_FROM_WIRE);
      cbn; rewrite ?Hd; eexists; repeat split.
  - unfold idx_named. rewrite Hnil. cbn. rewrite Hnil. eexists. repeat split.
Qed.

Lemma completions_emit (e : event) (c : grpc_call) :
  completions (emit e c) =
  completions c ++ match e with
                   | EvCqEndOp tag e | EvClosureRun tag e => [(tag, e)]
                   | _ => []
                   end.
Proof. unfold completions, emit. simpl. rewrite omap_app. destruct e; reflexivity. Qed.

(** C8. [post_batch_completion] on a batch whose error count is within its
    array returns and reports one completion for the tag of the batch, to
    the completion queue or to the continuation. Without
    recv-trailing-metadata in the batch the reported error is the
    consolidated one: none for no error, the error itself for one, and for
    more a composite error that references all of them; the output slots
    of the caller stay as they were. With recv-trailing-metadata the
    reported error is none, and the final status of the call goes to the
    output slots: on a client the code to [status] and its message, when
    the chosen error gives one, to [status_details]; on a server the
    cancelled flag, which is 0 for the code OK and 1 otherwise. *)
Theorem post_batch_completion_reports (call : grpc_call) (b : nat) (bctl : batch_control) :
  get_bctl call b = Ret bctl ->
  0 <= num_errors bctl <= Z.of_nat (length (errors bctl)) ->
  (recv_trailing_metadata (stream_op bctl) = true ->
   is_Some (buffered_metadata call true)
   \/ md_list (metadata_batch call true true) = []) ->
  let consolidated :=
    if num_errors bctl =? 0 then GRPC_ERROR_NONE
    else if num_errors bctl =? 1 then default GRPC_ERROR_NONE (errors bctl !! 0%nat)
    else GRPC_ERROR_CREATE_REFERENCING "Call batch failed"
           (take (Z.to_nat (num_errors bctl)) (errors bctl)) in
  exists call',
    post_batch_completion call b = Ret call'
    /\ if recv_trailing_metadata (stream_op bctl)
       then completions call' = completions call ++ [(notify_tag bctl, GRPC_ERROR_NONE)]
            /\ if is_client call
               then client_status (final_op call')
                    = Some (fst (get_final_status call'))
                    /\ client_status_details (final_op call')
                       = match snd (get_final_status call') with
                         | Some details => Some details
                         | None => client_status_details (final_op call)
                         end
                    /\ server_cancelled (final_op call') = server_cancelled (final_op call)
               else server_cancelled (final_op call')
                    = Some (if fst (get_final_status call') =? GRPC_STATUS_OK
                            then 0 else 1)
                    /\ client_status (final_op call') = client_status (final_op call)
                    /\ client_status_details (final_op call')
                       = client_status_details (final_op call)
       else completions call' = completions call ++ [(notify_tag bctl, consolidated)]
            /\ final_op call' = final_op call.
Proof.
  intros Hget Hn Hdest consolidated. unfold post_batch_completion.
  rewrite Hget. cbn [obind].
  destruct (consolidate_returns bctl Hn) as (bctl' & -> & Hop & Htag & Hcl).
  fold consolidated. cbn [obind]. cbv zeta. rewrite Hop, Htag, Hcl.
  set (c1 := if send_trailing_metadata (stream_op bctl) then _ else _).
  assert (H1 : trace c1 = trace call
                /\ buffered_metadata c1 = buffered_metadata call
                /\ metadata_batch c1 true true = metadata_batch call true true
                /\ is_client c1 = is_client call
                /\ final_op c1 = final_op call).
  { subst c1. destruct (send_trailing_metadata _), (send_message _),
      (send_initial_metadata _); repeat split. }
  destruct H1 as (T1 & B1 & M1 & C1 & F1).
  destruct (recv_trailing_metadata (stream_op bctl)) eqn:Hrecv.
  - destruct (recv_trailing_filter_returns c1) as (c2 & -> & T2 & C2 & F2 & _).
    { rewrite B1, M1. apply Hdest. reflexivity. }
    cbn [obind].
    set (c3 := propagate_cancellation (upd_received_final_op_atm 1 c2)).
    destruct (propagate_fields (upd_received_final_op_atm 1 c2))
      as (_ & _ & _ & P4 & P5 & P6 & P7 & P8).
    fold c3 in P4, P5, P6, P7, P8.
    assert (C3 : is_client c3 = is_client call) by (rewrite P5; cbn; congruence).
    assert (F3 : final_op c3 = final_op call) by (rewrite P7; cbn; congruence).
    assert (K3 : completions c3 = completions call).
    { rewrite P8. unfold completions. cbn. rewrite T2, T1. reflexivity. }
    assert (G : forall x, (forall i, status x i = status c3 i) ->
                          is_client x = is_client c3 ->
                          send_deadline x = send_deadline c3 ->
                          get_final_status x = get_final_status c3)
      by (intros; apply get_final_status_ext; assumption).
    rewrite C3.
    destruct (is_client call), (is_closure bctl);
      (eexists; split; [reflexivity|]); (split; [|repeat split]);
      rewrite ?completions_emit, ?app_nil_r, ?G by reflexivity;
      rewrite <- ?K3, <- ?F3; reflexivity.
  - cbn [obind].
    destruct (is_closure bctl); (eexists; split; [reflexivity|]); split;
      rewrite ?completions_emit, ?app_nil_r; unfold completions; cbn [trace put_bctl
        upd_active_batches final_op]; rewrite ?T1; first [reflexivity|exact F1].
Qed.

End Callbacks.

(** ** The properties on runs of the model *)

(** C1 on the client call: SURFACE=INTERNAL, then API_OVERRIDE=CANCELLED,
    then WIRE=OK are recorded; the final status is CANCELLED. *)
Lemma get_final_status_is_the_selection_witness :
  fst (get_final_status
         (set_status_from_error
            (set_status_from_error
               (set_status_from_error client_call STATUS_FROM_SURFACE
                  (error_from_status GRPC_STATUS_INTERNAL "boom"))
               STATUS_FROM_API_OVERRIDE GRPC_ERROR_CANCELLED)
            STATUS_FROM_WIRE GRPC_ERROR_NONE))
  = GRPC_STATUS_CANCELLED.
Proof.
  apply (proj2 (proj2 (proj2 get_final_status_is_the_selection)));
    try intros i; vm_compute; reflexivity.
Defined.

(** C2 on the client call: a batch of SEND_INITIAL_METADATA and
    RECV_INITIAL_METADATA is accepted, sets both flags and hands over one
    batch; a batch of SEND_INITIAL_METADATA and a SEND_MESSAGE without a
    message is refused and leaves the flags and the filter stack alone;
    the empty vector is accepted, reports its completion to the queue and
    hands over nothing. *)
Lemma call_start_batch_all_or_nothing_witness :
  (exists call',
     call_start_batch client_call [send_initial_op; recv_initial_op] 7 false
     = Ret (GRPC_CALL_OK, call')
     /\ flag call' sent_initial_metadata = true
     /\ flag call' received_initial_metadata = true
     /\ exists batch, dispatched call' = dispatched client_call ++ [batch])
  /\ (exists call',
        call_start_batch client_call [send_initial_op; null_message_op] 7 false
        = Ret (GRPC_CALL_ERROR_INVALID_MESSAGE, call')
        /\ (forall f, flag call' f = flag client_call f)
        /\ dispatched call' = dispatched client_call)
  /\ (exists call',
        call_start_batch client_call [] 7 false = Ret (GRPC_CALL_OK, call')
        /\ trace call'
           = trace client_call ++ [EvCqBeginOp 7; EvCqEndOp 7 GRPC_ERROR_NONE]
        /\ dispatched call' = dispatched client_call).
Proof.
  destruct (call_start_batch_all_or_nothing client_call 7 false) as (Hany & Hempty).
  split; [|split].
  - exists (call_after
              (call_start_batch client_call [send_initial_op; recv_initial_op] 7 false)).
    assert (H : call_start_batch client_call [send_initial_op; recv_initial_op] 7 false
                = Ret (GRPC_CALL_OK,
                       call_after (call_start_batch client_call
                                     [send_initial_op; recv_initial_op] 7 false)))
      by (vm_compute; reflexivity).
    split; [exact H|].
    destruct (Hany _ _ _ H) as (_ & Hok).
    destruct (Hok eq_refl) as (Hflags & batch & Hd & _).
    split; [apply (Hflags send_initial_op); simpl; auto|].
    split; [apply (Hflags recv_initial_op); simpl; auto|].
    exists batch. exact Hd.
  - exists (call_after
              (call_start_batch client_call [send_initial_op; null_message_op] 7 false)).
    assert (H : call_start_batch client_call [send_initial_op; null_message_op] 7 false
                = Ret (GRPC_CALL_ERROR_INVALID_MESSAGE,
                       call_after (call_start_batch client_call
                                     [send_initial_op; null_message_op] 7 false)))
      by (vm_compute; reflexivity).
    split; [exact H|].
    destruct (Hany _ _ _ H) as (Herr & _).
    apply Herr. discriminate.
  - destruct Hempty as (call' & Hrun & Htrace & Hd & _); [reflexivity|].
    exists call'. split; [exact Hrun|]. split; [exact Htrace|exact Hd].
Defined.

(** The empty vector is accepted and hands nothing to the filter stack:
    the claim C2 as stated asks for exactly one batch. *)
Lemma empty_vector_dispatches_nothing :
  (length (@nil grpc_op) <= 6)%nat
  /\ exists call',
       call_start_batch client_call [] 7 false = Ret (GRPC_CALL_OK, call')
       /\ dispatched call' = dispatched client_call
       /\ ~ exists batch, dispatched call' = dispatched client_call ++ [batch].
Proof.
  split; [simpl; lia|].
  exists (call_after (call_start_batch client_call [] 7 false)).
  split; [vm_compute; reflexivity|]. split; [vm_compute; reflexivity|].
  intros (batch & H). vm_compute in H. discriminate H.
Qed.

(** C3 on the client call with RECV_INITIAL_METADATA and RECV_MESSAGE in
    flight, a message with a stream and no error: in both orders the two
    filters are entered before [process_data_after_md], which is entered
    once. *)
Lemma inbound_race_processes_once_witness :
  recv_state receiving_call = RECV_NONE
  /\ exists c1 c2,
       deliver_all receiving_call 3
         [RecvInitialMetadataReady GRPC_ERROR_NONE;
          RecvMessageReady (Some a_stream) GRPC_ERROR_NONE] = Ret c1
       /\ deliver_all receiving_call 3
            [RecvMessageReady (Some a_stream) GRPC_ERROR_NONE;
             RecvInitialMetadataReady GRPC_ERROR_NONE] = Ret c2
       /\ marks c1 = [Enter_recv_initial_filter; Enter_validate_filtered_metadata;
                      Enter_process_data_after_md 3]
       /\ marks c2 = [Enter_recv_initial_filter; Enter_validate_filtered_metadata;
                      Enter_process_data_after_md 3].
Proof.
  assert (H0 : recv_state receiving_call = RECV_NONE) by (vm_compute; reflexivity).
  split; [exact H0|].
  destruct (deliver_all receiving_call 3
              [RecvInitialMetadataReady GRPC_ERROR_NONE;
               RecvMessageReady (Some a_stream) GRPC_ERROR_NONE]) as [c1|] eqn:H1;
    [|vm_compute in H1; discriminate H1].
  destruct (deliver_all receiving_call 3
              [RecvMessageReady (Some a_stream) GRPC_ERROR_NONE;
               RecvInitialMetadataReady GRPC_ERROR_NONE]) as [c2|] eqn:H2;
    [|vm_compute in H2; discriminate H2].
  exists c1, c2. split; [reflexivity|]. split; [reflexivity|]. split.
  - exact (proj1 (inbound_race_processes_once receiving_call c1 3 GRPC_ERROR_NONE
                    GRPC_ERROR_NONE (Some a_stream) H0) H1).
  - exact (proj1 (proj2 (inbound_race_processes_once receiving_call c2 3 GRPC_ERROR_NONE
                           GRPC_ERROR_NONE (Some a_stream) H0)) H2).
Defined.

(** A message that arrives first with no stream is processed at once:
    [process_data_after_md] is entered before the initial metadata has been
    through [recv_initial_filter] and [validate_filtered_metadata], against
    the claim C3 as stated. *)
Lemma early_message_is_processed_before_the_filters :
  exists c',
    deliver_all receiving_call 3
      [RecvMessageReady None GRPC_ERROR_NONE;
       RecvInitialMetadataReady GRPC_ERROR_NONE] = Ret c'
    /\ marks receiving_call = []
    /\ marks c' = [Enter_process_data_after_md 3; Enter_recv_initial_filter;
                   Enter_validate_filtered_metadata].
Proof.
  destruct (deliver_all receiving_call 3
              [RecvMessageReady None GRPC_ERROR_NONE;
               RecvInitialMetadataReady GRPC_ERROR_NONE]) as [c'|] eqn:H;
    [|vm_compute in H; discriminate H].
  exists c'. split; [reflexivity|]. split; [vm_compute; reflexivity|].
  assert (Hm : match deliver_all receiving_call 3
                       [RecvMessageReady None GRPC_ERROR_NONE;
                        RecvInitialMetadataReady GRPC_ERROR_NONE] with
               | Ret c => marks c
               | Abort _ => []
               end
               = [Enter_process_data_after_md 3; Enter_recv_initial_filter;
                  Enter_validate_filtered_metadata]) by (vm_compute; reflexivity).
  rewrite H in Hm. exact Hm.
Qed.

(** C4 on the client call: a batch of SEND_INITIAL_METADATA and a
    SEND_MESSAGE without a message is refused; slot 0 stays in use, the op
    flags are as before, and a well-formed SEND_INITIAL_METADATA submitted
    next is refused with TOO_MANY_OPERATIONS. *)
Lemma failed_batch_keeps_its_slot_witness :
  exists call',
    call_start_batch client_call [send_initial_op; null_message_op] 7 false
    = Ret (GRPC_CALL_ERROR_INVALID_MESSAGE, call')
    /\ GRPC_CALL_ERROR_INVALID_MESSAGE <> GRPC_CALL_OK
    /\ slot_in_use call' 0
    /\ (forall f, flag call' f = flag client_call f)
    /\ call_start_batch call' [send_initial_op] 8 false
       = Ret (GRPC_CALL_ERROR_TOO_MANY_OPERATIONS, call').
Proof.
  exists (call_after
            (call_start_batch client_call [send_initial_op; null_message_op] 7 false)).
  assert (H : call_start_batch client_call [send_initial_op; null_message_op] 7 false
              = Ret (GRPC_CALL_ERROR_INVALID_MESSAGE,
                     call_after (call_start_batch client_call
                                   [send_initial_op; null_message_op] 7 false)))
    by (vm_compute; reflexivity).
  assert (Hne : GRPC_CALL_ERROR_INVALID_MESSAGE <> GRPC_CALL_OK) by discriminate.
  destruct (failed_batch_keeps_its_slot _ _ _ _ _ _ _ H Hne) as (Hslot & Hflags & Hlater).
  split; [exact H|]. split; [exact Hne|]. split; [exact Hslot|]. split; [exact Hflags|].
  apply (Hlater [] _ send_initial_op [] 8 false); reflexivity.
Defined.


(** C6 on trailing metadata with status 5, a message and one more
    element: the error with status 5 and the message goes to the slot of
    source WIRE, and the one remaining element is published. *)
Lemma recv_trailing_filter_on_grpc_status_witness :
  exists call',
    recv_trailing_filter trailing_call = Ret call'
    /\ status call' STATUS_FROM_WIRE
       = ATM_SET (grpc_error_set_str
                    (grpc_error_set_int (GRPC_ERROR_CREATE "Error received from peer")
                       GRPC_ERROR_INT_GRPC_STATUS 5)
                    GRPC_ERROR_STR_GRPC_MESSAGE "not found"%string)
    /\ md_list (metadata_batch call' true true)
       = [MDELEM "x-served-by"%string "b7"%string None]
    /\ buffered_metadata call' true
       = Some [{| md_key := "x-served-by"%string; md_value := "b7"%string |}].
Proof.
  assert (H1 : idx_named (metadata_batch trailing_call true true) GRPC_MDSTR_GRPC_STATUS
               = Some (MDELEM GRPC_MDSTR_GRPC_STATUS "5"%string None))
    by (vm_compute; reflexivity).
  assert (H2 : buffered_metadata trailing_call true = Some [])
    by (vm_compute; reflexivity).
  pose proof (recv_trailing_filter_on_grpc_status trailing_call _ _ H1 H2) as H.
  cbv zeta in H.
  destruct H as (_ & _ & _ & _ & call' & Hrun & Hstat & Hlist & Hbuf).
  exists call'. split; [exact Hrun|].
  split.
  - assert (Hne : fst (decode_status (MDELEM GRPC_MDSTR_GRPC_STATUS "5"%string None))
                  <> GRPC_STATUS_OK) by (vm_compute; discriminate).
    destruct (Hstat Hne) as (_ & Hwire).
    rewrite Hwire by (vm_compute; reflexivity). vm_compute. reflexivity.
  - split.
    + rewrite Hlist. vm_compute. reflexivity.
    + rewrite Hbuf. vm_compute. reflexivity.
Defined.



(** C8 on two batches of the client call and one of a server call. The
    batch of RECV_STATUS_ON_CLIENT completes with no error and the final
    status goes to the status slot of the caller. The batch of
    RECV_INITIAL_METADATA and RECV_MESSAGE that collected two errors
    completes with the composite of the two. The batch of
    RECV_CLOSE_ON_SERVER on the server call that the application cancelled
    completes with no error and writes 1 to the cancelled flag, the final
    status being CANCELLED. *)
Lemma post_batch_completion_reports_witness :
  (exists call',
     post_batch_completion closing_call 5 = Ret call'
     /\ completions call' = [(9, GRPC_ERROR_NONE)]
     /\ client_status (final_op call') = Some (fst (get_final_status call')))
  /\ (exists call',
        post_batch_completion twice_failed_call 3 = Ret call'
        /\ completions call'
           = [(7, GRPC_ERROR_CREATE_REFERENCING "Call batch failed"
                    [GRPC_ERROR_CREATE "no message"; GRPC_ERROR_CREATE "no metadata"])]
        /\ final_op call' = final_op twice_failed_call)
  /\ (exists call',
        post_batch_completion cancelled_server_call 5 = Ret call'
        /\ completions call' = [(11, GRPC_ERROR_NONE)]
        /\ fst (get_final_status call') = GRPC_STATUS_CANCELLED
        /\ server_cancelled (final_op call') = Some 1).
Proof.
  split; [|split].
  - assert (Hget : get_bctl closing_call 5 = Ret (bctl_of closing_call 5))
      by (vm_compute; reflexivity).
    assert (Hn : 0 <= num_errors (bctl_of closing_call 5)
                 <= Z.of_nat (length (errors (bctl_of closing_call 5))))
      by (vm_compute; split; discriminate).
    assert (Hd : recv_trailing_metadata (stream_op (bctl_of closing_call 5)) = true ->
                 is_Some (buffered_metadata closing_call true)
                 \/ md_list (metadata_batch closing_call true true) = [])
      by (intros _; right; vm_compute; reflexivity).
    destruct (post_batch_completion_reports closing_call 5 _ Hget Hn Hd)
      as (call' & Hrun & H).
    assert (Ht : recv_trailing_metadata (stream_op (bctl_of closing_call 5)) = true)
      by (vm_compute; reflexivity).
    assert (Hc : is_client closing_call = true) by (vm_compute; reflexivity).
    rewrite Ht, Hc in H. destruct H as (Hcomp & Hstatus & _).
    exists call'. split; [exact Hrun|]. split; [|exact Hstatus].
    rewrite Hcomp. vm_compute. reflexivity.
  - assert (Hget : get_bctl twice_failed_call 3 = Ret (bctl_of twice_failed_call 3))
      by (vm_compute; reflexivity).
    assert (Hn : 0 <= num_errors (bctl_of twice_failed_call 3)
                 <= Z.of_nat (length (errors (bctl_of twice_failed_call 3))))
      by (vm_compute; split; discriminate).
    assert (Hd : recv_trailing_metadata (stream_op (bctl_of twice_failed_call 3)) = true ->
                 is_Some (buffered_metadata twice_failed_call true)
                 \/ md_list (metadata_batch twice_failed_call true true) = [])
      by (intros _; right; vm_compute; reflexivity).
    destruct (post_batch_completion_reports twice_failed_call 3 _ Hget Hn Hd)
      as (call' & Hrun & H).
    assert (Ht : recv_trailing_metadata (stream_op (bctl_of twice_failed_call 3)) = false)
      by (vm_compute; reflexivity).
    rewrite Ht in H. destruct H as (Hcomp & Hfinal).
    exists call'. split; [exact Hrun|]. split; [|exact Hfinal].
    rewrite Hcomp. vm_compute. reflexivity.
  - assert (Hget : get_bctl cancelled_server_call 5 = Ret (bctl_of cancelled_server_call 5))
      by (vm_compute; reflexivity).
    assert (Hn : 0 <= num_errors (bctl_of cancelled_server_call 5)
                 <= Z.of_nat (length (errors (bctl_of cancelled_server_call 5))))
      by (vm_compute; split; discriminate).
    assert (Hd : recv_trailing_metadata (stream_op (bctl_of cancelled_server_call 5))
                 = true ->
                 is_Some (buffered_metadata cancelled_server_call true)
                 \/ md_list (metadata_batch cancelled_server_call true true) = [])
      by (intros _; right; vm_compute; reflexivity).
    destruct (post_batch_completion_reports cancelled_server_call 5 _ Hget Hn Hd)
      as (call' & Hrun & H).
    assert (Ht : recv_trailing_metadata (stream_op (bctl_of cancelled_server_call 5))
                 = true) by (vm_compute; reflexivity).
    assert (Hc : is_client cancelled_server_call = false) by (vm_compute; reflexivity).
    rewrite Ht, Hc in H. destruct H as (Hcomp & Hflag & _).
    assert (Hfinal : match post_batch_completion cancelled_server_call 5 with
                     | Ret c => fst (get_final_status c)
                     | Abort _ => 0
                     end = GRPC_STATUS_CANCELLED) by (vm_compute; reflexivity).
    rewrite Hrun in Hfinal.
    exists call'. split; [exact Hrun|].
    split; [rewrite Hcomp; vm_compute; reflexivity|]. split; [exact Hfinal|].
    rewrite Hflag, Hfinal. reflexivity.
Defined.


(** C10 on the creation of a child of a server call that asks for the
    stats context only: the creation returns the aggregate error, and the
    new call is cancelled with it from source SURFACE. *)
Lemma census_mask_checked_both_ways_witness :
  exists call parent',
    let error :=
      grpc_error_add_child (GRPC_ERROR_CREATE "Call creation failed")
        (GRPC_ERROR_CREATE
           "Census context propagation requested without Census tracing propagation") in
    grpc_call_create stats_only_args = Ret (error, call, Some parent')
    /\ status call STATUS_FROM_SURFACE = ATM_SET error
    /\ exists batch,
         In batch (dispatched call)
         /\ cancel_stream batch = true
         /\ cancel_error batch = error.
Proof.
  destruct (census_mask_checked_both_ways stats_only_args server_call
              (GRPC_ERROR_CREATE
                 "Census context propagation requested without Census tracing propagation"))
    as (call & parent' & Hrun & _ & Hstatus & Hcancel).
  - reflexivity.
  - reflexivity.
  - vm_compute. reflexivity.
  - vm_compute. reflexivity.
  - right. reflexivity.
  - left. split; [vm_compute; discriminate|]. split; [vm_compute; reflexivity|reflexivity].
  - exists call, parent'. cbv zeta. split; [exact Hrun|]. split; [exact Hstatus|exact Hcancel].
Defined.

(** ** Status slots, cancellation and the final status *)

Section Statuses.
Context {ext : Externals}.

Lemma status_source_eqb_eq (a b : status_source) :
  status_source_eqb a b = true <-> a = b.
Proof. destruct a, b; simpl; split; intros H; try reflexivity; discriminate. Qed.

(** X1. A status slot takes the first error recorded for its source and
    keeps it: after any sequence of [set_status_from_error], a slot that was
    set before has its old error, and a slot that was unset has the error
    of the first record for its source, or is still unset when there was
    none. *)
Theorem first_record_wins (l : list (status_source * grpc_error)) (call : grpc_call)
    (source : status_source) :
  status (record_all l call) source =
  match status call source with
  | ATM_SET e => ATM_SET e
  | ATM_ZERO =>
      match first_recorded source l with
      | Some e => ATM_SET e
      | None => ATM_ZERO
      end
  end.
Proof.
  revert call. induction l as [|[s e] l IH]; intros call.
  - simpl. destruct (status call source); reflexivity.
  - unfold record_all in *. cbn [fold_left fst snd]. rewrite IH.
    rewrite status_after_record. unfold first_recorded. cbn [find fst].
    destruct (status_source_eqb s source) eqn:Hs.
    + apply status_source_eqb_eq in Hs. subst s.
      destruct (status call source); reflexivity.
    + destruct (status call s); reflexivity.
Qed.

(** What a sequence of cancellations hands over and records. *)
Lemma cancel_all_effects (l : list (status_source * grpc_error)) (call : grpc_call) :
  dispatched (cancel_all l call)
  = dispatched call ++ map (fun p => cancel_stream_op (snd p)) l
  /\ forall i, status (cancel_all l call) i = status (record_all l call) i.
Proof.
  assert (H : forall l c1 c2,
             (forall i, status c1 i = status c2 i) ->
             forall i, status (cancel_all l c1) i = status (record_all l c2) i).
  { clear. induction l as [|[s e] l IH]; intros c1 c2 Hs i; [apply Hs|].
    unfold cancel_all, record_all in *. cbn [fold_left fst snd]. apply IH.
    intros j. rewrite (proj1 (proj2 (cancel_with_error_effect c1 s e))).
    rewrite !status_after_record, !Hs. reflexivity. }
  split; [|apply H; reflexivity].
  clear H. revert call. induction l as [|[s e] l IH]; intros call.
  - simpl. rewrite app_nil_r. reflexivity.
  - unfold cancel_all in *. cbn [fold_left fst snd map]. rewrite IH.
    unfold dispatched at 1. rewrite trace_cancel, omap_app. cbn [omap].
    fold (dispatched call). rewrite <- app_assoc. reflexivity.
Qed.

(** X2. Every [cancel_with_error] hands one batch to the filter stack,
    also when the call was cancelled before: the batches handed over by a
    sequence of cancellations are as many as the cancellations, in their
    order, each with [cancel_stream] set and the error of its cancellation
    as [cancel_error]. The status slots take the errors as plain records
    would, so only the first error per source is kept. *)
Theorem every_cancel_is_dispatched (l : list (status_source * grpc_error))
    (call : grpc_call) :
  exists batches,
    dispatched (cancel_all l call) = dispatched call ++ batches
    /\ map (fun b => (cancel_stream b, cancel_error b)) batches
       = map (fun p => (true, snd p)) l
    /\ forall i, status (cancel_all l call) i = status (record_all l call) i.
Proof.
  destruct (cancel_all_effects l call) as (Hd & Hs).
  exists (map (fun p => cancel_stream_op (snd p)) l).
  split; [exact Hd|]. split; [|exact Hs].
  rewrite map_map. apply map_ext. intros [source e]. cbn [snd].
  destruct (cancel_stream_op_fields e) as (-> & ->). reflexivity.
Qed.

Lemma set_errors_in (call : grpc_call) (e : grpc_error) :
  In e (omap (set_error call) STATUS_SOURCES) <->
  exists source, status call source = ATM_SET e.
Proof.
  rewrite <- list_elem_of_In, list_elem_of_omap. split.
  - intros (s & _ & Hs). exists s. unfold set_error in Hs.
    destruct (status call s); congruence.
  - intros (s & Hs). exists s. split.
    + rewrite list_elem_of_In. unfold STATUS_SOURCES. destruct s; simpl; tauto.
    + unfold set_error. rewrite Hs. reflexivity.
Qed.

Lemma spec_candidates_in (call : grpc_call) (e : grpc_error) :
  In e (spec_candidates call) <-> exists source, status call source = ATM_SET e.
Proof.
  unfold spec_candidates. cbv zeta. rewrite in_app_iff, <- set_errors_in.
  rewrite <- !list_elem_of_In, list_elem_of_filter. tauto.
Qed.

(** X3. An error is never masked by an OK: when some slot holds an error
    whose derived code is not OK, the final status is not OK, whatever the
    other slots hold; and the final status is always the code of one of
    the recorded errors, unless nothing is recorded. *)
Theorem recorded_error_is_not_masked (call : grpc_call) :
  (forall source e,
     status call source = ATM_SET e ->
     code_of call e <> GRPC_STATUS_OK ->
     fst (get_final_status call) <> GRPC_STATUS_OK)
  /\ ((exists source e, status call source = ATM_SET e) ->
      exists source e,
        status call source = ATM_SET e
        /\ fst (get_final_status call) = code_of call e).
Proof.
  rewrite get_final_status_refines. unfold spec_final_status. cbv zeta.
  split.
  - intros source e Hs Hcode.
    assert (Hin : In e (filter (fun e => code_of call e <> GRPC_STATUS_OK)
                          (spec_candidates call))).
    { rewrite <- list_elem_of_In, list_elem_of_filter, list_elem_of_In.
      split; [exact Hcode|]. apply spec_candidates_in. eauto. }
    destruct (filter _ (spec_candidates call)) as [|e' l] eqn:Hf; [destruct Hin|].
    cbn [app].
    assert (Hin' : e' ∈ filter (fun e => code_of call e <> GRPC_STATUS_OK)
                     (spec_candidates call)) by (rewrite Hf; left).
    apply list_elem_of_filter in Hin'. apply Hin'.
  - intros (source & e & Hs).
    assert (Hin : In e (spec_candidates call)) by (apply spec_candidates_in; eauto).
    destruct (filter (fun e => code_of call e <> GRPC_STATUS_OK) (spec_candidates call)
              ++ spec_candidates call) as [|e' l] eqn:Hl.
    + apply app_eq_nil in Hl. destruct Hl as (_ & Hl). rewrite Hl in Hin. destruct Hin.
    + assert (Hin' : In e' (spec_candidates call)).
      { assert (H : e' ∈ filter (fun e => code_of call e <> GRPC_STATUS_OK)
                        (spec_candidates call) ++ spec_candidates call)
          by (rewrite Hl; left).
        apply elem_of_app in H. destruct H as [H|H].
        - apply list_elem_of_filter in H. apply list_elem_of_In, H.
        - apply list_elem_of_In, H. }
      apply spec_candidates_in in Hin'. destruct Hin' as (s' & Hs').
      exists s', e'. split; [exact Hs'|reflexivity].
Qed.

(** X4. The application's word is final. When the slot of source
    API_OVERRIDE holds an error with an explicit status that is not OK,
    the final status is the code and message of that error, whatever the
    wire, the core or the surface recorded. So after
    [grpc_call_cancel_with_status] on a call whose application has not
    cancelled before, with a status other than OK that the error library
    reads back from the error made of it, the final status is that status
    and its description. *)
Theorem api_override_wins (call : grpc_call) :
  (forall e,
     status call STATUS_FROM_API_OVERRIDE = ATM_SET e ->
     grpc_error_has_clear_grpc_status e = true ->
     code_of call e <> GRPC_STATUS_OK ->
     get_final_status call
     = (code_of call e, Some (snd (grpc_error_get_status e (send_deadline call)))))
  /\ (forall st description,
        status call STATUS_FROM_API_OVERRIDE = ATM_ZERO ->
        st <> GRPC_STATUS_OK ->
        grpc_error_has_clear_grpc_status (error_from_status st description) = true ->
        grpc_error_get_status (error_from_status st description) (send_deadline call)
        = (st, description) ->
        exists call',
          grpc_call_cancel_with_status call st description false
          = Ret (GRPC_CALL_OK, call')
          /\ get_final_status call' = (st, Some description)).
Proof.
  assert (H : forall c e,
             status c STATUS_FROM_API_OVERRIDE = ATM_SET e ->
             grpc_error_has_clear_grpc_status e = true ->
             code_of c e <> GRPC_STATUS_OK ->
             get_final_status c
             = (code_of c e, Some (snd (grpc_error_get_status e (send_deadline c))))).
  { intros c e Hs Hclear Hcode.
    unfold get_final_status, get_final_status_search, STATUS_SOURCES.
    cbn [first_some]. rewrite Hs. cbn [unpack_received_status is_set error andb].
    rewrite Hclear. unfold get_final_status_from, code_of in *.
    destruct (grpc_error_get_status e (send_deadline c)) as [code slice].
    cbn [fst snd] in *. apply Z.eqb_neq in Hcode. rewrite Hcode. reflexivity. }
  split; [apply H|].
  intros st description Hzero Hst Hclear Hget.
  unfold grpc_call_cancel_with_status. cbn [negb GPR_ASSERT obind].
  eexists. split; [reflexivity|].
  unfold cancel_with_status.
  set (e := error_from_status st description) in *.
  destruct (cancel_with_error_effect call STATUS_FROM_API_OVERRIDE e)
    as (_ & Hstat & Hd & _).
  rewrite (H _ e).
  - unfold code_of. rewrite Hd, Hget. reflexivity.
  - rewrite Hstat, status_after_record, Hzero. reflexivity.
  - exact Hclear.
  - unfold code_of. rewrite Hd, Hget. exact Hst.
Qed.

End Statuses.

(** ** Creation, parents and children *)

Section Lineage.
Context {ext : Externals}.

Lemma attach_to_parent_result (args : grpc_call_create_args) (call parent : grpc_call)
    (deadline : gpr_timespec) (a : attach) :
  attach_to_parent args call parent deadline = Ret a ->
  let inherit := negb (Z.land (propagation_mask args) GRPC_PROPAGATE_CANCELLATION =? 0) in
  status (at_call a) = status call
  /\ trace (at_call a) = trace call
  /\ is_client (at_call a) = is_client call
  /\ cancellation_is_inherited (at_call a)
     = (inherit || cancellation_is_inherited call)
  /\ at_immediately_cancel a = inherit && negb (received_final_op_atm parent =? 0)
  /\ at_send_deadline a
     = (if negb (Z.land (propagation_mask args) GRPC_PROPAGATE_DEADLINE =? 0)
        then gpr_time_min deadline (send_deadline parent) else deadline)
  /\ children (at_parent a)
     = children parent
         ++ [{| child_id := call_id args;
                child_cancellation_is_inherited :=
                  inherit || cancellation_is_inherited call |}]
  /\ trace (at_parent a) = trace parent ++ [EvInternalRef "child"]
  /\ is_client parent = false.
Proof.
  unfold attach_to_parent. intros H.
  destruct (is_client call) eqn:Hc; cbn [GPR_ASSERT obind] in H; [|discriminate].
  change (is_client (emit (EvInternalRef "child") parent)) with (is_client parent) in H.
  destruct (is_client parent) eqn:Hpc; cbn [negb GPR_ASSERT obind] in H; [discriminate|].
  unfold get_or_create_parent_call, children in *.
  change (parent_call_atm (emit (EvInternalRef "child") parent))
    with (parent_call_atm parent) in H.
  destruct (parent_call_atm parent) as [pc|] eqn:Hp;
    destruct (negb (Z.land (propagation_mask args) GRPC_PROPAGATE_CENSUS_TRACING_CONTEXT =? 0));
    destruct (Z.land (propagation_mask args) GRPC_PROPAGATE_CENSUS_STATS_CONTEXT =? 0);
    destruct (negb (Z.land (propagation_mask args) GRPC_PROPAGATE_CANCELLATION =? 0));
    destruct (negb (Z.land (propagation_mask args) GRPC_PROPAGATE_DEADLINE =? 0));
    cbn in H; inversion H; subst a; cbn; rewrite ?Hc; repeat split; reflexivity.
Qed.

(** What [grpc_call_create] records and hands over. *)
Lemma grpc_call_create_effects (args : grpc_call_create_args)
    (error : grpc_error) (call : grpc_call) (parent' : option grpc_call) :
  grpc_call_create args = Ret (error, call, parent') ->
  is_client call = negb (server_transport_data args)
  /\ status call STATUS_FROM_SURFACE
     = (if is_error_none error then ATM_ZERO else ATM_SET error)
  /\ status call STATUS_FROM_API_OVERRIDE
     = (if late_child args then ATM_SET GRPC_ERROR_CANCELLED else ATM_ZERO)
  /\ status call STATUS_FROM_WIRE = ATM_ZERO
  /\ status call STATUS_FROM_CORE = ATM_ZERO
  /\ status call STATUS_FROM_SERVER_STATUS = ATM_ZERO
  /\ dispatched call
     = (if is_error_none error then [] else [cancel_stream_op error])
       ++ (if late_child args then [cancel_stream_op GRPC_ERROR_CANCELLED] else []).
Proof.
  unfold grpc_call_create. intros H.
  cbn [is_client upd_is_client upd_encodings_accepted_by_peer zero_call] in H.
  set (c0 := upd_is_client _ _) in H.
  assert (Hc0 : status c0 = (fun _ => ATM_ZERO) /\ trace c0 = []
                /\ is_client c0 = negb (server_transport_data args))
    by (repeat split).
  destruct Hc0 as (Hs0 & Ht0 & Hi0).
  match type of H with
  | obind ?m _ = _ =>
      assert (H1 : forall c1, m = Ret c1 ->
                     status c1 = (fun _ => ATM_ZERO) /\ trace c1 = []
                     /\ is_client c1 = negb (server_transport_data args));
      [|destruct m as [c1|]; [|discriminate H]]
  end.
  { intros c1. destruct (negb (server_transport_data args));
      [destruct (_ <? _)|destruct (_ =? _)]; cbn [GPR_ASSERT obind];
      intros Hr; inversion Hr; subst c1; repeat split. }
  destruct (H1 c1 eq_refl) as (Hs1 & Ht1 & Hi1). clear H1. cbn [obind] in H.
  set (c2 := upd_metadata_batch _ c1) in H.
  assert (Hc2 : status c2 = (fun _ => ATM_ZERO) /\ trace c2 = []
                /\ is_client c2 = negb (server_transport_data args))
    by (subst c2; cbn; auto).
  destruct Hc2 as (Hs2 & Ht2 & Hi2).
  unfold late_child.
  destruct (parent_call_arg args) as [parent|].
  - destruct (attach_to_parent args c2 parent (args_send_deadline args)) as [a|] eqn:Ha;
      [|discriminate H].
    destruct (attach_to_parent_result _ _ _ _ _ Ha)
      as (As & At & Ai & _ & Aim & _).
    cbn [obind] in H. rewrite Aim in H.
    set (err := add_init_error (at_error a) (call_stack_init_result args)) in H.
    set (c3 := upd_send_deadline (at_send_deadline a) (at_call a)) in H.
    assert (Hc3 : status c3 = (fun _ => ATM_ZERO) /\ trace c3 = []
                  /\ is_client c3 = negb (server_transport_data args))
      by (subst c3; cbn; rewrite As, At, Ai; auto).
    revert H. generalize (negb (Z.land (propagation_mask args) GRPC_PROPAGATE_CANCELLATION =? 0)
                          && negb (received_final_op_atm parent =? 0)).
    intros late H. clearbody c3 err. clear -H Hc3.
    destruct Hc3 as (Hs3 & Ht3 & Hi3).
    destruct (is_error_none err) eqn:He, late; cbn [negb] in H;
      destruct (args_cq args), (args_pollset_set_alternative args);
      cbn [GPR_ASSERT obind] in H; try discriminate H;
      inversion H; subst error call; clear H; rewrite ?He;
      unfold dispatched;
      rewrite ?(proj1 (cancel_with_error_effect _ _ _)), ?omap_app, ?Ht3;
      repeat rewrite (proj1 (proj2 (cancel_with_error_effect _ _ _)));
      rewrite ?status_after_record;
      repeat rewrite (proj1 (proj2 (cancel_with_error_effect _ _ _)));
      rewrite ?status_after_record, ?Hs3;
      rewrite ?(proj2 (proj2 (proj2 (cancel_with_error_effect _ _ _)))), ?Hi3;
      cbn; repeat split; reflexivity.
  - cbn [obind] in H.
    set (err := add_init_error GRPC_ERROR_NONE (call_stack_init_result args)) in H.
    set (c3 := upd_send_deadline (args_send_deadline args) c2) in H.
    assert (Hc3 : status c3 = (fun _ => ATM_ZERO) /\ trace c3 = []
                  /\ is_client c3 = negb (server_transport_data args))
      by (subst c3; cbn; auto).
    clearbody c3 err. clear -H Hc3.
    destruct Hc3 as (Hs3 & Ht3 & Hi3).
    destruct (is_error_none err) eqn:He; cbn [negb] in H;
      destruct (args_cq args), (args_pollset_set_alternative args);
      cbn [GPR_ASSERT obind] in H; try discriminate H;
      inversion H; subst error call; clear H; rewrite ?He;
      unfold dispatched;
      rewrite ?(proj1 (cancel_with_error_effect _ _ _)), ?omap_app, ?Ht3;
      repeat rewrite (proj1 (proj2 (cancel_with_error_effect _ _ _)));
      rewrite ?status_after_record, ?Hs3;
      rewrite ?(proj2 (proj2 (proj2 (cancel_with_error_effect _ _ _)))), ?Hi3;
      cbn; repeat split; reflexivity.
Qed.

(** X5. What [grpc_call_create] returns is what it has done to the new
    call. It returns an error exactly when it has cancelled the call from
    source SURFACE with that error; it cancels the call from source
    API_OVERRIDE with the cancelled error exactly when the call is a late
    child; nothing else is recorded or dispatched, the SURFACE cancel
    going first. Each cancel is a status slot holding the error and one
    batch to the filter stack with [cancel_stream] set and the error as
    its [cancel_error]. The side of the call is client unless server
    transport data is given. *)
Theorem creation_cancels_what_it_reports (args : grpc_call_create_args)
    (error : grpc_error) (call : grpc_call) (parent' : option grpc_call) :
  grpc_call_create args = Ret (error, call, parent') ->
  is_client call = negb (server_transport_data args)
  /\ status call STATUS_FROM_SURFACE
     = (if is_error_none error then ATM_ZERO else ATM_SET error)
  /\ status call STATUS_FROM_API_OVERRIDE
     = (if late_child args then ATM_SET GRPC_ERROR_CANCELLED else ATM_ZERO)
  /\ status call STATUS_FROM_WIRE = ATM_ZERO
  /\ status call STATUS_FROM_CORE = ATM_ZERO
  /\ status call STATUS_FROM_SERVER_STATUS = ATM_ZERO
  /\ map (fun b => (cancel_stream b, cancel_error b)) (dispatched call)
     = (if is_error_none error then [] else [(true, error)])
       ++ (if late_child args then [(true, GRPC_ERROR_CANCELLED)] else []).
Proof.
  intros H.
  destruct (grpc_call_create_effects args error call parent' H)
    as (H1 & H2 & H3 & H4 & H5 & H6 & Hd).
  repeat (split; [assumption|]).
  rewrite Hd. destruct (is_error_none error), (late_child args); reflexivity.
Qed.

Lemma cancel_keeps_deadline (c : grpc_call) (late : bool) (err : grpc_error) :
  send_deadline
    (if late
     then cancel_with_error
            (if negb (is_error_none err)
             then cancel_with_error c STATUS_FROM_SURFACE err else c)
            STATUS_FROM_API_OVERRIDE GRPC_ERROR_CANCELLED
     else if negb (is_error_none err)
          then cancel_with_error c STATUS_FROM_SURFACE err else c)
  = send_deadline c.
Proof.
  destruct late, (negb (is_error_none err));
    rewrite ?(proj1 (proj2 (proj2 (cancel_with_error_effect _ _ _)))); reflexivity.
Qed.

(** X6. A call created with a parent is a client call of a server call. It
    enters the sibling ring of the parent behind the children that are
    there, marked as inheriting cancellation when the mask asks for it, and
    its deadline is the earlier of its own and the parent's when the mask
    propagates the deadline, its own otherwise. Without a parent the
    deadline is the one asked for. *)
Theorem child_joins_the_ring (args : grpc_call_create_args)
    (error : grpc_error) (call : grpc_call) (parent' : option grpc_call) :
  grpc_call_create args = Ret (error, call, parent') ->
  match parent_call_arg args with
  | Some parent =>
      exists p',
        parent' = Some p'
        /\ is_client call = true
        /\ is_client parent = false
        /\ children p'
           = children parent
               ++ [{| child_id := call_id args;
                      child_cancellation_is_inherited :=
                        negb (Z.land (propagation_mask args)
                                GRPC_PROPAGATE_CANCELLATION =? 0) |}]
        /\ send_deadline call
           = (if negb (Z.land (propagation_mask args) GRPC_PROPAGATE_DEADLINE =? 0)
              then gpr_time_min (args_send_deadline args) (send_deadline parent)
              else args_send_deadline args)
  | None => parent' = None /\ send_deadline call = args_send_deadline args
  end.
Proof.
  unfold grpc_call_create. intros H.
  cbn [is_client upd_is_client upd_encodings_accepted_by_peer zero_call] in H.
  set (c0 := upd_is_client _ _) in H.
  match type of H with
  | obind ?m _ = _ =>
      assert (H1 : forall c1, m = Ret c1 ->
                     cancellation_is_inherited c1 = false
                     /\ is_client c1 = negb (server_transport_data args));
      [|destruct m as [c1|]; [|discriminate H]]
  end.
  { intros c1. destruct (negb (server_transport_data args));
      [destruct (_ <? _)|destruct (_ =? _)]; cbn [GPR_ASSERT obind];
      intros Hr; inversion Hr; subst c1; repeat split. }
  destruct (H1 c1 eq_refl) as (Hinh & Hi1). clear H1. cbn [obind] in H.
  set (c2 := upd_metadata_batch _ c1) in H.
  assert (Hc2 : cancellation_is_inherited c2 = false
                /\ is_client c2 = negb (server_transport_data args))
    by (subst c2; cbn; auto).
  destruct Hc2 as (Hinh2 & Hi2).
  destruct (parent_call_arg args) as [parent|].
  - destruct (attach_to_parent args c2 parent (args_send_deadline args)) as [a|] eqn:Ha;
      [|discriminate H].
    destruct (attach_to_parent_result _ _ _ _ _ Ha)
      as (_ & _ & Ai & _ & _ & Ad & Ar & _ & Ap).
    assert (Hcl : is_client c2 = true).
    { unfold attach_to_parent in Ha. destruct (is_client c2); [reflexivity|].
      cbn in Ha. discriminate Ha. }
    cbn [obind] in H.
    set (err := add_init_error (at_error a) (call_stack_init_result args)) in H.
    pose proof (cancel_keeps_deadline
                  (upd_send_deadline (at_send_deadline a) (at_call a))
                  (at_immediately_cancel a) err) as Hd.
    set (c4 := if at_immediately_cancel a then _ else _) in *.
    assert (Hi4 : is_client c4 = is_client (at_call a)).
    { subst c4. destruct (at_immediately_cancel a), (negb (is_error_none err));
        rewrite ?(proj2 (proj2 (proj2 (cancel_with_error_effect _ _ _)))); reflexivity. }
    clearbody c4.
    destruct (args_cq args), (args_pollset_set_alternative args);
      cbn [GPR_ASSERT obind] in H; try discriminate H;
      inversion H; subst error call parent'; clear H;
      (exists (at_parent a); split; [reflexivity|]);
      (split; [congruence|]); (split; [exact Ap|]);
      (split; [rewrite Ar, Hinh2, orb_false_r; reflexivity|]);
      rewrite Hd; cbn; exact Ad.
  - cbn [obind] in H.
    set (err := add_init_error GRPC_ERROR_NONE (call_stack_init_result args)) in H.
    pose proof (cancel_keeps_deadline
                  (upd_send_deadline (args_send_deadline args) c2) false err) as Hd.
    cbv iota in Hd, H.
    set (c4 := if negb (is_error_none err) then _ else _) in *. clearbody c4.
    destruct (args_cq args), (args_pollset_set_alternative args);
      cbn [GPR_ASSERT obind] in H; try discriminate H;
      inversion H; subst error call parent'; split; try reflexivity; exact Hd.
Qed.

End Lineage.

(** ** Completion: children, slots and steps *)

Section Completion.
Context {ext : Externals}.

Lemma propagate_cancellation_trace (c : grpc_call) :
  trace (propagate_cancellation c)
  = trace c
      ++ map (fun child => EvCancelChild (child_id child) STATUS_FROM_API_OVERRIDE
                             GRPC_ERROR_CANCELLED)
           (filter (fun child => child_cancellation_is_inherited child = true)
              (children c))
  /\ received_final_op_atm (propagate_cancellation c) = received_final_op_atm c.
Proof.
  unfold propagate_cancellation, children, get_parent_call.
  destruct (parent_call_atm c) as [pc|]; [|simpl; rewrite app_nil_r; auto].
  generalize (first_child_ring pc). intros l. revert c.
  induction l as [|child l IH]; intros c; [simpl; rewrite app_nil_r; auto|].
  cbn [fold_left]. destruct (child_cancellation_is_inherited child) eqn:Hi.
  - rewrite filter_cons_True by exact Hi. destruct (IH (emit (EvCancelChild (child_id child)
                 STATUS_FROM_API_OVERRIDE GRPC_ERROR_CANCELLED) c)) as (H1 & H2).
    rewrite H1, H2. unfold emit. cbn. rewrite <- app_assoc. auto.
  - rewrite filter_cons_False by (rewrite Hi; discriminate). apply IH.
Qed.

Lemma cancelled_children_app (c c' : grpc_call) (l : list event) :
  trace c' = trace c ++ l ->
  cancelled_children c'
  = cancelled_children c
      ++ omap (fun e => match e with
                        | EvCancelChild child _ _ => Some child
                        | _ => None
                        end) l.
Proof. unfold cancelled_children. intros ->. apply omap_app. Qed.

Lemma cancelled_of_ring (l : list child_entry) :
  omap (fun e => match e with
                 | EvCancelChild child _ _ => Some child
                 | _ => None
                 end)
    (map (fun child => EvCancelChild (child_id child) STATUS_FROM_API_OVERRIDE
                         GRPC_ERROR_CANCELLED) l)
  = map child_id l.
Proof. induction l as [|x l IH]; cbn; [reflexivity|]. f_equal. exact IH. Qed.

(** X7. Cancellation reaches the children that inherit it when the parent
    completes its final op: [post_batch_completion] on a batch with
    recv-trailing-metadata marks the final op as received and cancels, in
    the order of the ring, exactly the children marked as inheriting; a
    batch without recv-trailing-metadata cancels no child and leaves the
    mark alone. *)
Theorem final_op_cancels_the_heirs (call : grpc_call) (b : nat) (bctl : batch_control) :
  get_bctl call b = Ret bctl ->
  0 <= num_errors bctl <= Z.of_nat (length (errors bctl)) ->
  (recv_trailing_metadata (stream_op bctl) = true ->
   is_Some (buffered_metadata call true)
   \/ md_list (metadata_batch call true true) = []) ->
  exists call',
    post_batch_completion call b = Ret call'
    /\ if recv_trailing_metadata (stream_op bctl)
       then received_final_op_atm call' = 1
            /\ cancelled_children call'
               = cancelled_children call
                   ++ map child_id
                        (filter (fun child => child_cancellation_is_inherited child = true)
                           (children call))
       else received_final_op_atm call' = received_final_op_atm call
            /\ cancelled_children call' = cancelled_children call.
Proof.
  intros Hget Hn Hdest. unfold post_batch_completion.
  rewrite Hget. cbn [obind].
  destruct (consolidate_returns bctl Hn) as (bctl' & -> & Hop & Htag & Hcl).
  cbn [obind]. cbv zeta. rewrite Hop, Htag, Hcl.
  set (c1 := if send_trailing_metadata (stream_op bctl) then _ else _).
  assert (H1 : trace c1 = trace call
                /\ buffered_metadata c1 = buffered_metadata call
                /\ metadata_batch c1 true true = metadata_batch call true true
                /\ parent_call_atm c1 = parent_call_atm call
                /\ received_final_op_atm c1 = received_final_op_atm call).
  { subst c1. destruct (send_trailing_metadata _), (send_message _),
      (send_initial_metadata _); repeat split. }
  destruct H1 as (T1 & B1 & M1 & P1 & R1).
  destruct (recv_trailing_metadata (stream_op bctl)) eqn:Hrecv.
  - destruct (recv_trailing_filter_returns c1) as (c2 & -> & T2 & C2 & F2 & P2).
    { rewrite B1, M1. apply Hdest. reflexivity. }
    cbn [obind].
    destruct (propagate_cancellation_trace (upd_received_final_op_atm 1 c2)) as (Tp & Rp).
    set (c3 := propagate_cancellation (upd_received_final_op_atm 1 c2)) in *.
    assert (Hch : children (upd_received_final_op_atm 1 c2) = children call).
    { unfold children. cbn. rewrite P2, P1. reflexivity. }
    rewrite Hch in Tp. cbn [trace upd_received_final_op_atm] in Tp. rewrite T2, T1 in Tp.
    destruct (is_client c3), (is_closure bctl);
      (eexists; split; [reflexivity|]); (split; [exact Rp|]);
      (erewrite cancelled_children_app;
       [|unfold emit, put_bctl; cbn [trace upd_trace upd_active_batches upd_final_op];
         rewrite Tp, <- ?app_assoc; reflexivity]);
      rewrite omap_app; cbn [omap]; rewrite ?app_nil_r; f_equal;
      apply cancelled_of_ring.
  - cbn [obind].
    destruct (is_closure bctl); (eexists; split; [reflexivity|]); (split; [exact R1|]);
      (erewrite cancelled_children_app;
       [|unfold emit, put_bctl; cbn [trace upd_trace upd_active_batches];
         rewrite T1, <- ?app_assoc; reflexivity]);
      cbn [omap]; rewrite app_nil_r; reflexivity.
Qed.

Lemma consolidate_keeps_call (bctl bctl' : batch_control) (e : grpc_error) :
  consolidate_batch_errors bctl = Ret (e, bctl') ->
  bctl_call bctl' = bctl_call bctl /\ steps_to_complete bctl' = steps_to_complete bctl.
Proof.
  unfold consolidate_batch_errors. cbv zeta.
  destruct (num_errors bctl =? 0); [intros H; inversion H; auto|].
  destruct (num_errors bctl =? 1).
  - destruct (errors bctl !! 0%nat); intros H; inversion H; auto.
  - destruct (num_errors bctl <=? _); cbn; intros H; inversion H; auto.
Qed.

Lemma recv_trailing_filter_batches (c c' : grpc_call) :
  recv_trailing_filter c = Ret c' -> active_batches c' = active_batches c.
Proof.
  unfold recv_trailing_filter, publish_app_metadata.
  destruct (idx_named (metadata_batch c true true) GRPC_MDSTR_GRPC_STATUS); cbv zeta;
    match goal with
    | |- context [match md_list ?b with _ => _ end] => destruct (md_list b)
    end;
    try match goal with
    | |- context [match buffered_metadata ?x true with _ => _ end] =>
        destruct (buffered_metadata x true)
    end;
    intros H; inversion H; cbn; rewrite ?active_batches_record; reflexivity.
Qed.

Lemma not_in_use (c : grpc_call) (b : nat) (bctl : batch_control) :
  active_batches c !! b = Some bctl -> bctl_call bctl = false -> ~ slot_in_use c b.
Proof. intros Hl Hc (x & Hx & Hcx). congruence. Qed.

(** X8. When a batch completes through a continuation,
    [post_batch_completion] frees its slot at once. When it completes
    through the completion queue, the slot stays in use until the queue
    hands the completion back to [finish_batch_completion], which frees it
    and touches no other slot. Once the slot is free,
    [allocate_batch_control] gives it to the next batch whose first op
    maps to it. *)
Theorem slot_is_freed_with_the_completion (call : grpc_call) (b : nat)
    (bctl : batch_control) :
  get_bctl call b = Ret bctl ->
  0 <= num_errors bctl <= Z.of_nat (length (errors bctl)) ->
  (recv_trailing_metadata (stream_op bctl) = true ->
   is_Some (buffered_metadata call true)
   \/ md_list (metadata_batch call true true) = []) ->
  exists call',
    post_batch_completion call b = Ret call'
    /\ (forall s, s <> b -> active_batches call' !! s = active_batches call !! s)
    /\ exists free,
         (if is_closure bctl then free = call'
          else slot_in_use call' b
               /\ finish_batch_completion call' b = Ret free
               /\ forall s, s <> b -> active_batches free !! s = active_batches call' !! s)
         /\ ~ slot_in_use free b
         /\ forall o ops,
              batch_slot_for_op (op o) = b ->
              exists next,
                allocate_batch_control free (o :: ops) = Ret (Some b, next)
                /\ slot_in_use next b.
Proof.
  intros Hget Hn Hdest. unfold post_batch_completion.
  rewrite Hget. cbn [obind].
  assert (Hcall : bctl_call bctl = true).
  { unfold get_bctl in Hget. destruct (active_batches call !! b); [|discriminate].
    destruct (bctl_call b0) eqn:Hb; cbn in Hget; inversion Hget; subst; exact Hb. }
  destruct (consolidate_returns bctl Hn) as (bctl' & Hcons & Hop & Htag & Hcl).
  destruct (consolidate_keeps_call _ _ _ Hcons) as (Hk & _).
  rewrite Hcons. cbn [obind]. cbv zeta. rewrite Hop, Htag, Hcl.
  set (c1 := if send_trailing_metadata (stream_op bctl) then _ else _).
  assert (H1 : buffered_metadata c1 = buffered_metadata call
                /\ metadata_batch c1 true true = metadata_batch call true true
                /\ active_batches c1 = <[b := bctl']> (active_batches call)).
  { subst c1. destruct (send_trailing_metadata _), (send_message _),
      (send_initial_metadata _); repeat split. }
  destruct H1 as (B1 & M1 & A1).
  match goal with
  | |- context [obind ?m _] =>
      assert (H2 : exists c3 e3, m = Ret (c3, e3)
                                 /\ active_batches c3 = <[b := bctl']> (active_batches call))
  end.
  { destruct (recv_trailing_metadata (stream_op bctl)) eqn:Hrecv.
    - destruct (recv_trailing_filter_returns c1) as (c2 & Hr & _).
      { rewrite B1, M1. apply Hdest. reflexivity. }
      rewrite Hr. cbn [obind].
      destruct (propagate_fields (upd_received_final_op_atm 1 c2)) as (_ & _ & P3 & _).
      eexists _, _. split; [reflexivity|].
      destruct (is_client _); cbn [active_batches upd_final_op]; rewrite P3;
        cbn [active_batches upd_received_final_op_atm];
        rewrite (recv_trailing_filter_batches _ _ Hr); exact A1.
    - eexists _, _. split; [reflexivity|exact A1]. }
  destruct H2 as (c3 & e3 & -> & A3). cbn [obind].
  assert (Hfree : forall free x,
             active_batches free !! b = Some x -> bctl_call x = false ->
             ~ slot_in_use free b
             /\ forall o ops,
                  batch_slot_for_op (op o) = b ->
                  exists next,
                    allocate_batch_control free (o :: ops) = Ret (Some b, next)
                    /\ slot_in_use next b).
  { intros free x Hl Hx. split; [eapply not_in_use; eassumption|].
    intros o ops Ho. unfold allocate_batch_control. rewrite Ho, Hl. rewrite Hl, Hx.
    eexists. split; [reflexivity|].
    eexists. split; [unfold put_bctl; cbn; apply lookup_insert_eq|reflexivity]. }
  destruct (is_closure bctl).
  - eexists. split; [reflexivity|]. split.
    + intros s Hs. unfold emit, put_bctl. cbn. rewrite lookup_insert_ne by auto.
      rewrite A3. apply lookup_insert_ne. auto.
    + eexists. split; [reflexivity|].
      apply (Hfree _ (bctl_upd_bctl_call false bctl')); [|reflexivity].
      unfold emit, put_bctl. cbn. apply lookup_insert_eq.
  - eexists. split; [reflexivity|]. split.
    + intros s Hs. unfold emit. cbn. rewrite A3. apply lookup_insert_ne. auto.
    + assert (Hl : active_batches (emit (EvCqEndOp (notify_tag bctl) e3) c3) !! b
                   = Some bctl').
      { unfold emit. cbn. rewrite A3. apply lookup_insert_eq. }
      unfold finish_batch_completion, get_bctl. rewrite Hl, Hk, Hcall. cbn [obind].
      eexists. split; [split; [|split; [reflexivity|]]|].
      * exists bctl'. split; [exact Hl|congruence].
      * intros s Hs. unfold emit, put_bctl. cbn. apply lookup_insert_ne. auto.
      * apply (Hfree _ (bctl_upd_bctl_call false bctl')); [|reflexivity].
        unfold emit, put_bctl. cbn. apply lookup_insert_eq.
Qed.

End Completion.

(** ** What the translator accepts and what it leaves behind *)

Section Acceptance.
Context {ext : Externals}.

Ltac split_cases H :=
  repeat match type of H with
    | context [if ?b then _ else _] => destruct b eqn:?
    | context [match ?x with _ => _ end] => destruct x eqn:?
    | context [let (_, _) := ?x in _] => destruct x eqn:?
    end;
  simpl in H; try discriminate.

Ltac kept :=
  repeat match goal with
    | H : prepare_application_metadata _ _ _ _ _ = (_, _) |- _ =>
        apply prepare_application_metadata_keeps in H;
        destruct H as (? & ? & ? & ? & ? & ?)
    | H : process_compression_level _ _ = (_, _) |- _ =>
        apply process_compression_level_keeps in H;
        destruct H as (? & ? & ? & ? & ?)
    end.

Ltac positive :=
  repeat match goal with
    | H : negb _ = false |- _ => apply negb_false_iff in H
    | H : negb _ = true |- _ => apply negb_true_iff in H
    end.

Lemma prepared_is_legal (call call' : grpc_call) metadata is_trailing prepend additional :
  prepare_application_metadata call metadata is_trailing prepend additional = (true, call') ->
  forallb metadata_is_legal (metadata ++ additional) = true.
Proof.
  unfold prepare_application_metadata. cbv zeta.
  destruct (forallb metadata_is_legal (metadata ++ additional)); [reflexivity|].
  cbn. discriminate.
Qed.

(** The metadata an op asks to send. *)
Lemma translate_op_accepts (o : grpc_op) (t t' : translation) :
  translate_op o t = Ret (GRPC_CALL_OK, t') ->
  passes_own_checks (is_client (tr_call t)) o = true
  /\ flag (tr_call t) (flag_of_op (op o)) = false
  /\ (forall f, flag (tr_call t') f
                = if call_flag_eqb (flag_of_op (op o)) f then true
                  else flag (tr_call t) f)
  /\ is_client (tr_call t') = is_client (tr_call t)
  /\ (forall metadata level,
        data o = Op_send_initial_metadata metadata level ->
        forallb metadata_is_legal metadata = true)
  /\ tr_callbacks t'
     = tr_callbacks t
       + match op o with
         | GRPC_OP_RECV_INITIAL_METADATA | GRPC_OP_RECV_MESSAGE => 1
         | _ => 0
         end.
Proof.
  intros H. unfold translate_op, obind, GPR_ASSERT in H.
  unfold passes_own_checks, op.
  destruct (reserved o) eqn:Hres; [inversion H|].
  destruct (data o) eqn:Hdata.
  all: split_cases H.
  all: inversion H; subst; clear H.
  all: positive; subst.
  all: try match goal with
       | H : prepare_application_metadata _ _ _ _ _ = (true, _) |- _ =>
           pose proof (prepared_is_legal _ _ _ _ _ _ H) as Hlegal
       end.
  all: kept.
  all: pose proof (send_status_extra_metadata_keeps
                     (set_call_flag sent_final_op true (tr_call t))) as Hss.
  all: cbn [tr_call tr_stream_op tr_callbacks negb andb flag_of_op] in *.
  all: repeat split.
  all: try (intros ? ? Heq; inversion Heq; subst; clear Heq).
  all: try lia.
  all: try (intros f).
  all: repeat first
         [ rewrite !(proj1 (Hss _ _)) in *
         | rewrite !(proj2 (proj2 (proj2 (Hss _ _)))) in *
         | match goal with
           | H : flag ?g = _ |- context [flag ?g] => rewrite H
           | H : is_client ?g = _ |- context [is_client ?g] => rewrite H
           end
         | progress (unfold set_call_flag, flag_store; cbn) ].
  all: try (destruct f; reflexivity).
  all: try reflexivity.
  all: try (cbn in *; congruence).
  all: try match goal with
       | H : (INT_MAX <? ?x) = false |- _ => apply Z.ltb_ge in H; apply Z.leb_le in H
       end.
  all: try (rewrite app_nil_r in Hlegal).
  all: try (rewrite forallb_app in Hlegal; apply andb_prop in Hlegal;
            destruct Hlegal as (Hlegal & _)).
  all: repeat match goal with
       | H : _ = true |- _ => rewrite H
       | H : _ = false |- _ => rewrite H
       end; cbn; try reflexivity.
  all: try congruence.
Qed.

Lemma call_flag_eqb_eq (a b : call_flag) : call_flag_eqb a b = true <-> a = b.
Proof. destruct a, b; simpl; split; intros H; try reflexivity; discriminate. Qed.

Lemma translate_ops_accepts (ops : list grpc_op) :
  forall t t' : translation,
  translate_ops ops t = Ret (GRPC_CALL_OK, t') ->
  Forall (fun o => passes_own_checks (is_client (tr_call t)) o = true) ops
  /\ NoDup (map (fun o => flag_of_op (op o)) ops)
  /\ (forall o, In o ops -> flag (tr_call t) (flag_of_op (op o)) = false)
  /\ (forall f, flag (tr_call t') f
                = existsb (fun o => call_flag_eqb (flag_of_op (op o)) f) ops
                  || flag (tr_call t) f)
  /\ is_client (tr_call t') = is_client (tr_call t)
  /\ (forall o metadata level,
        In o ops -> data o = Op_send_initial_metadata metadata level ->
        forallb metadata_is_legal metadata = true).
Proof.
  induction ops as [|o ops IH]; intros t t' H; cbn [translate_ops] in H.
  - inversion H; subst. repeat split; try constructor; intros; try contradiction.
  - destruct (translate_op o t) as [[e t1]|] eqn:Ho; cbn [obind] in H; [|discriminate].
    destruct e; try discriminate.
    destruct (translate_op_accepts _ _ _ Ho) as (Hp & Hf & Hfl & Hc & Hmd & _).
    destruct (IH _ _ H) as (IHp & IHn & IHf & IHfl & IHc & IHmd).
    split.
    { constructor; [exact Hp|]. rewrite Hc in IHp. exact IHp. }
    split.
    { cbn [map]. constructor; [|exact IHn].
      rewrite list_elem_of_In, in_map_iff. intros (o' & Heq & Hin).
      specialize (IHf o' Hin). rewrite Hfl, Heq in IHf.
      assert (Hrefl : call_flag_eqb (flag_of_op (op o)) (flag_of_op (op o)) = true)
        by (apply call_flag_eqb_eq; reflexivity).
      rewrite Hrefl in IHf. discriminate. }
    split.
    { intros o' [<-|Hin]; [exact Hf|].
      specialize (IHf o' Hin). rewrite Hfl in IHf.
      destruct (call_flag_eqb _ _); [discriminate|exact IHf]. }
    split.
    { intros f. rewrite IHfl, Hfl. cbn [existsb].
      destruct (call_flag_eqb (flag_of_op (op o)) f), (existsb _ ops); reflexivity. }
    split; [congruence|].
    intros o' md lvl [<-|Hin] Hd; [eapply Hmd; exact Hd|eapply IHmd; eassumption].
Qed.

(** X9. A batch that [call_start_batch] accepts is well formed: every op
    passes the checks of its kind for the side of the call (no reserved
    pointer, valid flags, a message where one is sent, legal trailing
    metadata), the initial metadata it sends is legal, no two ops set the
    same flag of the call, and each of these flags was clear before.
    Afterwards exactly the flags of the ops of the batch have been added to
    those of the call. *)
Theorem accepted_batch_is_well_formed (call call' : grpc_call) (ops : list grpc_op)
    (tag : Z) (is_closure : bool) :
  call_start_batch call ops tag is_closure = Ret (GRPC_CALL_OK, call') ->
  Forall (fun o => passes_own_checks (is_client call) o = true) ops
  /\ NoDup (map (fun o => flag_of_op (op o)) ops)
  /\ (forall o, In o ops -> flag call (flag_of_op (op o)) = false)
  /\ (forall f, flag call' f
                = existsb (fun o => call_flag_eqb (flag_of_op (op o)) f) ops
                  || flag call f)
  /\ (forall o metadata level,
        In o ops -> data o = Op_send_initial_metadata metadata level ->
        forallb metadata_is_legal metadata = true).
Proof.
  intros H. destruct ops as [|o ops].
  - unfold call_start_batch, obind, GPR_ASSERT in H.
    assert (Hf : flag call' = flag call).
    { destruct is_closure; cbn [negb] in H; cbv iota in H;
        [|destruct (grpc_cq_begin_op tag); [|discriminate]];
        inversion H; subst; reflexivity. }
    repeat split; try constructor; intros; try contradiction.
    rewrite Hf. reflexivity.
  - apply call_start_batch_translated in H.
    destruct H as [(Habs & _)|(c1 & t & Hf & _ & Hc & _ & Htr & _ & _ & Hres)];
      [discriminate|].
    destruct Hres as (Hfl & _).
    destruct (translate_ops_accepts _ _ _ Htr) as (Hp & Hn & Hclear & Hset & _ & Hmd).
    cbn [tr_call] in *. rewrite Hc in Hp. rewrite Hf in Hclear, Hset.
    repeat split; try assumption.
    intros f. rewrite Hfl. apply Hset.
Qed.

End Acceptance.

(** ** What stays: recorded statuses *)

Section Permanence.
Context {ext : Externals}.

Lemma kept_refl (c : grpc_call) : statuses_kept c c.
Proof. intros s e H. exact H. Qed.

Lemma kept_step (c0 c c' : grpc_call) :
  statuses_kept c0 c -> status c' = status c -> statuses_kept c0 c'.
Proof. intros H Hs s e H0. rewrite Hs. apply H, H0. Qed.

Lemma kept_record (c0 c : grpc_call) (source : status_source) (x : grpc_error) :
  statuses_kept c0 c -> statuses_kept c0 (set_status_from_error c source x).
Proof.
  intros H s e H0. apply H in H0. rewrite status_after_record.
  destruct (status c source) eqn:Hs; [|exact H0].
  destruct (status_source_eqb source s) eqn:Heq; [|exact H0].
  apply status_source_eqb_eq in Heq. congruence.
Qed.

Lemma kept_cancel (c0 c : grpc_call) (source : status_source) (x : grpc_error) :
  statuses_kept c0 c -> statuses_kept c0 (cancel_with_error c source x).
Proof.
  intros H s e H0. rewrite (proj1 (proj2 (cancel_with_error_effect c source x))).
  exact (kept_record c0 c source x H s e H0).
Qed.

(** Closes [statuses_kept c0 t] for a term [t] made from a call known to
    keep the statuses by field updates, events, records and cancels. *)
Ltac still :=
  repeat first
    [ assumption
    | apply kept_cancel
    | apply kept_record
    | match goal with
      | |- statuses_kept _ (if ?b then _ else _) => destruct b
      | |- statuses_kept _ (match ?x with _ => _ end) => destruct x
      | H : statuses_kept ?c0 ?c |- statuses_kept ?c0 _ =>
          apply (kept_step c0 c); [exact H|reflexivity]
      end ].

Ltac ret_step :=
  match goal with
  | |- post_ret _ (Ret _) => cbn [post_ret]
  | |- post_ret _ (Abort _) => exact I
  | |- post_ret _ (obind (get_bctl ?c ?b) _) =>
      destruct (get_bctl c b); cbn [obind]; [|exact I]
  | |- post_ret _ (obind (GPR_ASSERT ?b _) _) =>
      destruct b; cbn [GPR_ASSERT obind]; [|exact I]
  | |- post_ret _ (if ?b then _ else _) => destruct b
  | |- post_ret _ (match ?x with _ => _ end) => destruct x
  end.

Lemma publish_kept (c0 c : grpc_call) (b : grpc_metadata_batch) (is_trailing : bool) :
  statuses_kept c0 c -> post_ret (statuses_kept c0) (publish_app_metadata c b is_trailing).
Proof. intros H. unfold publish_app_metadata. repeat ret_step; still. Qed.

Lemma recv_trailing_filter_kept (c0 c : grpc_call) :
  statuses_kept c0 c -> post_ret (statuses_kept c0) (recv_trailing_filter c).
Proof.
  intros H. unfold recv_trailing_filter.
  destruct (idx_named (metadata_batch c true true) GRPC_MDSTR_GRPC_STATUS);
    apply (publish_kept c0).
  - eapply kept_step; [apply kept_record; exact H|reflexivity].
  - still.
Qed.

Lemma propagate_kept (c0 c : grpc_call) :
  statuses_kept c0 c -> statuses_kept c0 (propagate_cancellation c).
Proof.
  intros H. eapply kept_step; [exact H|]. apply propagate_fields.
Qed.

Lemma post_batch_completion_kept (c0 c : grpc_call) (b : nat) :
  statuses_kept c0 c -> post_ret (statuses_kept c0) (post_batch_completion c b).
Proof.
  intros H. unfold post_batch_completion. ret_step.
  match goal with
  | |- context [consolidate_batch_errors ?x] =>
      destruct (consolidate_batch_errors x) as [[error bctl]|]; cbn [obind]; [|exact I]
  end.
  cbv zeta.
  set (c1 := if send_trailing_metadata (stream_op bctl) then _ else _).
  assert (H1 : statuses_kept c0 c1).
  { subst c1. destruct (send_trailing_metadata _), (send_message _),
      (send_initial_metadata _); still. }
  clearbody c1.
  eapply post_ret_bind with (Q1 := fun r => statuses_kept c0 (fst r)).
  - destruct (recv_trailing_metadata (stream_op bctl)); [|exact H1].
    eapply post_ret_bind; [apply (recv_trailing_filter_kept c0); exact H1|].
    intros c2 H2. cbn [post_ret fst].
    assert (H3 : statuses_kept c0 (propagate_cancellation (upd_received_final_op_atm 1 c2))).
    { apply (propagate_kept c0). still. }
    destruct (is_client _); still.
  - intros [c3 e3] H3. cbn [fst] in H3. destruct (is_closure bctl); cbn [post_ret]; still.
Qed.

Lemma finish_batch_step_kept (c0 c : grpc_call) (b : nat) :
  statuses_kept c0 c -> post_ret (statuses_kept c0) (finish_batch_step c b).
Proof.
  intros H. unfold finish_batch_step. ret_step. cbv zeta.
  destruct (_ =? 0); [apply (post_batch_completion_kept c0)|cbn [post_ret]]; still.
Qed.

Lemma store_receiving_buffer_kept (c0 c : grpc_call) (b : option grpc_byte_buffer) :
  statuses_kept c0 c -> post_ret (statuses_kept c0) (store_receiving_buffer b c).
Proof. intros H. unfold store_receiving_buffer. repeat ret_step; still. Qed.

Lemma abandon_message_kept (c0 c : grpc_call) (b : nat) :
  statuses_kept c0 c -> post_ret (statuses_kept c0) (abandon_message c b).
Proof.
  intros H. unfold abandon_message. cbv zeta.
  destruct (deref_receiving_buffer _); cbn [obind]; [|exact I].
  eapply post_ret_bind; [apply (store_receiving_buffer_kept c0); still|].
  intros c1 H1. apply (finish_batch_step_kept c0). still.
Qed.

Lemma continue_receiving_slices_from_kept (c0 : grpc_call) (script : list stream_step)
    (length flags : Z) (b : nat) :
  forall c, statuses_kept c0 c ->
            post_ret (statuses_kept c0) (continue_receiving_slices_from script length flags c b).
Proof.
  induction script as [|step script IH]; intros c H; cbn [continue_receiving_slices_from].
  - destruct (deref_receiving_buffer c) as [[buffer|]|]; cbn [obind]; try exact I.
    destruct (_ =? 0); [apply (finish_batch_step_kept c0); still|exact H].
  - destruct (deref_receiving_buffer c) as [[buffer|]|]; cbn [obind]; try exact I.
    destruct (_ =? 0); [apply (finish_batch_step_kept c0); still|].
    destruct step as [[slice|e]|r]; [| |exact H].
    + eapply post_ret_bind; [apply (store_receiving_buffer_kept c0); still|].
      intros c1 H1. apply IH, H1.
    + apply (abandon_message_kept c0), H.
Qed.

Lemma continue_receiving_slices_kept (c0 c : grpc_call) (b : nat) :
  statuses_kept c0 c -> post_ret (statuses_kept c0) (continue_receiving_slices c b).
Proof.
  intros H. unfold continue_receiving_slices. ret_step.
  destruct (receiving_stream c); [|exact I].
  apply (continue_receiving_slices_from_kept c0), H.
Qed.

Lemma receiving_slice_ready_kept (c0 c : grpc_call) (b : nat) (e : grpc_error) :
  statuses_kept c0 c -> post_ret (statuses_kept c0) (receiving_slice_ready c b e).
Proof.
  intros H. unfold receiving_slice_ready. ret_step.
  destruct (is_error_none e); [|apply (abandon_message_kept c0), H].
  destruct (receiving_stream c) as [bs|]; [|exact I].
  destruct (bs_script bs) as [|[r|r] script]; [exact I| |];
    (destruct r as [slice|e']; [|apply (abandon_message_kept c0); still]);
    (destruct (deref_receiving_buffer _) as [[buffer|]|]; cbn [obind]; try exact I);
    (eapply post_ret_bind; [apply (store_receiving_buffer_kept c0); still|]);
    intros c1 H1; apply (continue_receiving_slices_kept c0), H1.
Qed.

Lemma process_data_after_md_kept (c0 c : grpc_call) (b : nat) :
  statuses_kept c0 c -> post_ret (statuses_kept c0) (process_data_after_md c b).
Proof.
  intros H. unfold process_data_after_md. cbv zeta. ret_step.
  change (receiving_stream (emit (EvMark (Enter_process_data_after_md b)) c))
    with (receiving_stream c).
  destruct (receiving_stream c) as [bs|].
  - match goal with
    | |- post_ret _ (obind ?m _) => destruct m as [buffer|]; cbn [obind]; [|exact I]
    end.
    eapply post_ret_bind; [apply (store_receiving_buffer_kept c0); still|].
    intros c1 H1. apply (continue_receiving_slices_kept c0), H1.
  - eapply post_ret_bind; [apply (store_receiving_buffer_kept c0); still|].
    intros c1 H1. apply (finish_batch_step_kept c0). still.
Qed.

Lemma add_batch_error_kept (c0 c : grpc_call) (b : nat) (e : grpc_error) (hc : bool) :
  statuses_kept c0 c -> post_ret (statuses_kept c0) (add_batch_error c b e hc).
Proof.
  intros H. unfold add_batch_error. destruct (is_error_none e); [exact H|].
  ret_step. cbv zeta. ret_step.
  eapply kept_step; [|reflexivity].
  destruct (_ && _); still.
Qed.

Lemma receiving_stream_ready_kept (c0 c : grpc_call) (b : nat) (e : grpc_error) :
  statuses_kept c0 c -> post_ret (statuses_kept c0) (receiving_stream_ready c b e).
Proof.
  intros H. unfold receiving_stream_ready. ret_step.
  destruct (is_error_none e); cbn [negb obind].
  - destruct (receiving_stream c); [|apply (process_data_after_md_kept c0), H].
    destruct (recv_state c); try (apply (process_data_after_md_kept c0), H).
    cbn [post_ret]. still.
  - eapply post_ret_bind.
    + eapply post_ret_bind.
      * apply (add_batch_error_kept c0). destruct (receiving_stream c); still.
      * intros c1 H1. cbn [post_ret]. apply kept_cancel, H1.
    + intros c2 H2. apply (process_data_after_md_kept c0), H2.
Qed.

Lemma set_incoming_kept (c0 c : grpc_call) (algo : Z) :
  statuses_kept c0 c ->
  post_ret (statuses_kept c0) (set_incoming_stream_compression_algorithm c algo)
  /\ post_ret (statuses_kept c0) (set_incoming_message_compression_algorithm c algo).
Proof.
  intros H. unfold set_incoming_stream_compression_algorithm,
    set_incoming_message_compression_algorithm.
  split; ret_step; cbn [post_ret]; still.
Qed.

Lemma recv_initial_filter_kept (c0 c : grpc_call) :
  statuses_kept c0 c -> post_ret (statuses_kept c0) (recv_initial_filter c).
Proof.
  intros H. unfold recv_initial_filter. cbv zeta.
  assert (H0 : statuses_kept c0 (emit (EvMark Enter_recv_initial_filter) c)) by still.
  eapply post_ret_bind with (Q1 := fun r => statuses_kept c0 (fst r)).
  { destruct (idx_named _ GRPC_MDSTR_CONTENT_ENCODING); [|exact H0].
    eapply post_ret_bind; [apply (set_incoming_kept c0), H0|]. intros c1 H1. exact H1. }
  intros [c1 b1] H1. cbn [fst] in H1.
  eapply post_ret_bind with (Q1 := fun r => statuses_kept c0 (fst r)).
  { destruct (idx_named _ GRPC_MDSTR_GRPC_ENCODING); [|exact H1].
    eapply post_ret_bind; [apply (set_incoming_kept c0), H1|]. intros c2 H2. exact H2. }
  intros [c2 b2] H2. cbn [fst] in H2.
  destruct (match idx_named b2 GRPC_MDSTR_GRPC_ACCEPT_ENCODING with
            | Some md => _ | None => _ end) as [m b3].
  destruct (match idx_named b3 GRPC_MDSTR_ACCEPT_ENCODING with
            | Some md => _ | None => _ end) as [s b4].
  apply (publish_kept c0). still.
Qed.

Lemma validate_filtered_metadata_kept (c0 c : grpc_call) :
  statuses_kept c0 c -> post_ret (statuses_kept c0) (validate_filtered_metadata c).
Proof.
  intros H. unfold validate_filtered_metadata, cancel_with_status. cbv zeta.
  assert (H0 : statuses_kept c0 (emit (EvMark Enter_validate_filtered_metadata) c))
    by still.
  destruct (_ && _); [cbn [post_ret]; apply kept_cancel, H0|].
  destruct (grpc_compression_algorithm_from_message_stream_compression_algorithm _ _);
    [|cbn [post_ret]; apply kept_cancel, H0].
  ret_step. cbn [post_ret].
  destruct (_ <=? _); [apply kept_cancel, H0|].
  destruct (negb _); [apply kept_cancel, H0|exact H0].
Qed.

Lemma receiving_initial_metadata_ready_kept (c0 c : grpc_call) (b : nat) (e : grpc_error) :
  statuses_kept c0 c ->
  post_ret (statuses_kept c0) (receiving_initial_metadata_ready c b e).
Proof.
  intros H. unfold receiving_initial_metadata_ready. ret_step. cbv zeta.
  eapply post_ret_bind; [apply (add_batch_error_kept c0); still|]. intros c1 H1.
  eapply post_ret_bind.
  { instantiate (1 := statuses_kept c0).
    destruct (is_error_none e); [|exact H1].
    eapply post_ret_bind; [apply (recv_initial_filter_kept c0), H1|]. intros c2 H2.
    eapply post_ret_bind; [apply (validate_filtered_metadata_kept c0), H2|]. intros c3 H3.
    destruct (_ && _); cbn [post_ret]; still. }
  intros c2 H2.
  eapply post_ret_bind with (Q1 := fun r => statuses_kept c0 (fst r)).
  { destruct (recv_state c2); cbn [post_ret fst]; still. exact I. }
  intros [c3 saved] H3. cbn [fst] in H3.
  eapply post_ret_bind.
  { instantiate (1 := statuses_kept c0).
    destruct saved; [apply (receiving_stream_ready_kept c0), H3|exact H3]. }
  intros c4 H4. apply (finish_batch_step_kept c0), H4.
Qed.

Lemma finish_batch_kept (c0 c : grpc_call) (b : nat) (e : grpc_error) :
  statuses_kept c0 c -> post_ret (statuses_kept c0) (finish_batch c b e).
Proof.
  intros H. unfold finish_batch. ret_step. cbv zeta.
  eapply post_ret_bind; [apply (add_batch_error_kept c0); still|]. intros c1 H1.
  apply (finish_batch_step_kept c0), H1.
Qed.

Lemma deliver_kept (c0 c : grpc_call) (b : nat) (cb : callback) :
  statuses_kept c0 c -> post_ret (statuses_kept c0) (deliver c b cb).
Proof.
  intros H. destruct cb as [e|e|stream e]; cbn [deliver].
  - apply (finish_batch_kept c0), H.
  - apply (receiving_initial_metadata_ready_kept c0), H.
  - unfold receiving_stream_ready_in_call_combiner. ret_step. cbv zeta.
    apply (receiving_stream_ready_kept c0). still.
Qed.

Lemma prepare_application_metadata_status (call call' : grpc_call) metadata is_trailing
    prepend additional (ok : bool) :
  prepare_application_metadata call metadata is_trailing prepend additional = (ok, call') ->
  status call' = status call.
Proof.
  unfold prepare_application_metadata.
  destruct (forallb _ _); simpl; intros H; inversion H; reflexivity.
Qed.

Lemma process_compression_level_status (call call' : grpc_call) level additional :
  process_compression_level call level = (call', additional) ->
  status call' = status call.
Proof.
  unfold process_compression_level. cbv zeta.
  destruct (match level with Some l => Some l | None => _ end);
    [destruct (negb _)|]; intros H; inversion H; reflexivity.
Qed.

Lemma send_status_extra_metadata_kept (c0 c : grpc_call) st details :
  statuses_kept c0 c -> statuses_kept c0 (send_status_extra_metadata c st details).
Proof.
  intros H. unfold send_status_extra_metadata. cbv zeta.
  destruct details; apply kept_record; still.
Qed.

Lemma translate_op_kept (c0 : grpc_call) (o : grpc_op) (t t' : translation)
    (e : grpc_call_error) :
  statuses_kept c0 (tr_call t) ->
  translate_op o t = Ret (e, t') ->
  statuses_kept c0 (tr_call t').
Proof.
  intros Hk H. unfold translate_op, obind, GPR_ASSERT in H.
  destruct (reserved o); [inversion H; subst; exact Hk|].
  destruct (data o) eqn:Hdata.
  all: repeat match type of H with
         | context [if ?b then _ else _] => destruct b eqn:?
         | context [match ?x with _ => _ end] => destruct x eqn:?
         | context [let (_, _) := ?x in _] => destruct x eqn:?
         end.
  all: simpl in H; try discriminate.
  all: inversion H; subst; clear H; try exact Hk.
  all: repeat match goal with
         | H : prepare_application_metadata _ _ _ _ _ = (_, _) |- _ =>
             apply prepare_application_metadata_status in H
         | H : process_compression_level _ _ = (_, _) |- _ =>
             apply process_compression_level_status in H
         end.
  all: cbn [tr_call].
  all: try (eapply kept_step; [exact Hk|]; cbn in *; congruence).
  all: eapply kept_step;
         [apply (send_status_extra_metadata_kept c0
                   (set_call_flag sent_final_op true (tr_call t))); still|];
         first [reflexivity|eassumption].
Qed.

Lemma translate_ops_kept (c0 : grpc_call) (ops : list grpc_op) :
  forall (t t' : translation) (e : grpc_call_error),
  statuses_kept c0 (tr_call t) ->
  translate_ops ops t = Ret (e, t') ->
  statuses_kept c0 (tr_call t').
Proof.
  induction ops as [|o ops IH]; intros t t' e Hk H; cbn [translate_ops] in H.
  - inversion H; subst. exact Hk.
  - destruct (translate_op o t) as [[e1 t1]|] eqn:Ho; cbn [obind] in H; [|discriminate].
    pose proof (translate_op_kept c0 _ _ _ _ Hk Ho) as H1.
    destruct e1; try (inversion H; subst; exact H1).
    eapply IH; eassumption.
Qed.

Lemma done_with_error_kept (c0 c : grpc_call) (stream_op : grpc_transport_stream_op_batch) :
  statuses_kept c0 c -> statuses_kept c0 (done_with_error stream_op c).
Proof.
  intros H. eapply kept_step; [exact H|]. unfold done_with_error. cbv zeta.
  destruct (send_initial_metadata stream_op), (send_message stream_op),
    (send_trailing_metadata stream_op), (recv_initial_metadata stream_op),
    (recv_message stream_op), (recv_trailing_metadata stream_op); reflexivity.
Qed.

Lemma call_start_batch_kept (c0 c : grpc_call) (ops : list grpc_op) (tag : Z)
    (is_closure : bool) :
  statuses_kept c0 c ->
  post_ret (fun r => statuses_kept c0 (snd r)) (call_start_batch c ops tag is_closure).
Proof.
  intros H. unfold call_start_batch. destruct ops as [|o ops].
  - destruct (negb is_closure); [ret_step|]; cbn [post_ret snd]; still.
  - unfold allocate_batch_control.
    set (c1 := match active_batches c !! batch_slot_for_op (op o) with
               | Some _ => c
               | None => _
               end).
    assert (H1 : statuses_kept c0 c1) by (subst c1; still).
    clearbody c1.
    destruct (active_batches c1 !! batch_slot_for_op (op o)) as [bctl|];
      cbn [obind]; [|exact I].
    destruct (bctl_call bctl); cbn [obind post_ret snd]; [exact H1|].
    ret_step.
    match goal with
    | |- context [translate_ops ?l ?t] =>
        destruct (translate_ops l t) as [[e t']|] eqn:Htr; cbn [obind]; [|exact I];
        assert (H2 : statuses_kept c0 (tr_call t'))
          by (eapply translate_ops_kept; [|exact Htr]; cbn [tr_call]; still)
    end.
    destruct e; cbn [post_ret snd];
      try (apply done_with_error_kept; still).
    destruct (negb is_closure);
      [destruct (grpc_cq_begin_op tag); cbn [GPR_ASSERT obind]; [|exact I]|];
      cbn [obind post_ret snd]; unfold execute_batch; still.
Qed.

(** X10. A recorded status is never lost. Whatever the application, the
    filter stack and the completion queue do to a call afterwards (batches
    submitted, accepted or refused; cancellations; callbacks of batches;
    slices; completions handed back), every status slot that was set
    still holds the error it held. *)
Theorem recorded_status_is_never_lost (l : list activity) :
  forall (call call' : grpc_call) (source : status_source) (e : grpc_error),
  run call l = Ret call' ->
  status call source = ATM_SET e ->
  status call' source = ATM_SET e.
Proof.
  assert (Hact : forall c0 c a, statuses_kept c0 c -> post_ret (statuses_kept c0) (act c a)).
  { intros c0 c a H. destruct a as [ops tag cl| |st d|b cb|b e|b]; cbn [act].
    - eapply post_ret_bind; [apply (call_start_batch_kept c0), H|].
      intros [err c1] H1. exact H1.
    - cbn. apply kept_cancel, H.
    - cbn. apply kept_cancel, H.
    - apply deliver_kept, H.
    - apply receiving_slice_ready_kept, H.
    - unfold finish_batch_completion. ret_step. cbn [post_ret]. still. }
  induction l as [|a l IH]; intros call call' source e H Hs; cbn [run] in H.
  - inversion H; subst. exact Hs.
  - pose proof (Hact call call a (kept_refl call)) as Ha.
    destruct (act call a) as [c1|]; cbn [obind post_ret] in *; [|discriminate].
    eapply IH; [exact H|]. apply Ha, Hs.
Qed.

Lemma call_start_batch_first_op (call call' : grpc_call) (o : grpc_op) (ops : list grpc_op)
    (tag : Z) (is_closure : bool) (err : grpc_call_error) :
  ~ slot_in_use call (batch_slot_for_op (op o)) ->
  call_start_batch call (o :: ops) tag is_closure = Ret (err, call') ->
  exists c1 e1 t1,
    status c1 = status call /\ flag c1 = flag call /\ is_client c1 = is_client call
    /\ send_extra_metadata_count c1 = send_extra_metadata_count call
    /\ translate_op o {| tr_call := c1; tr_stream_op := zero_stream_op; tr_callbacks := 1 |}
       = Ret (e1, t1)
    /\ statuses_kept (tr_call t1) call'.
Proof.
  intros Hfree H. unfold call_start_batch, allocate_batch_control in H.
  set (c1 := match active_batches call !! batch_slot_for_op (op o) with
             | Some _ => call
             | None => _
             end) in H.
  assert (Hc1 : exists bctl, active_batches c1 !! batch_slot_for_op (op o) = Some bctl
                             /\ bctl_call bctl = false).
  { subst c1. destruct (active_batches call !! batch_slot_for_op (op o)) as [bctl|] eqn:Hl.
    - exists bctl. split; [exact Hl|]. destruct (bctl_call bctl) eqn:Hb; [|reflexivity].
      exfalso. apply Hfree. exists bctl. auto.
    - exists zero_batch_control. split; [|reflexivity].
      unfold put_bctl. cbn. apply lookup_insert_eq. }
  assert (Hsame : status c1 = status call /\ flag c1 = flag call
                  /\ is_client c1 = is_client call
                  /\ send_extra_metadata_count c1 = send_extra_metadata_count call).
  { subst c1. destruct (active_batches call !! batch_slot_for_op (op o));
      repeat split. }
  clearbody c1. destruct Hc1 as (bctl & Hl & Hb). rewrite Hl, Hb in H.
  cbn [obind] in H. unfold get_bctl in H.
  unfold put_bctl at 1 in H. cbn [active_batches upd_active_batches] in H.
  rewrite lookup_insert_eq in H.
  cbn [bctl_call bctl_upd_bctl_call obind stream_op bctl_upd_is_closure
         bctl_upd_notify_tag zero_batch_control translate_ops] in H.
  set (c2 := put_bctl _ _ c1) in H.
  destruct (translate_op o _) as [[e1 t1]|] eqn:Ho; cbn [obind] in H; [|discriminate].
  exists c2, e1, t1.
  destruct Hsame as (S1 & S2 & S3 & S4).
  split; [exact S1|]. split; [exact S2|]. split; [exact S3|]. split; [exact S4|].
  split; [exact Ho|].
  set (m := match e1 with
             | GRPC_CALL_OK => translate_ops ops t1
             | _ => Ret (e1, t1)
             end) in H.
  assert (Hm : forall e t', m = Ret (e, t') -> statuses_kept (tr_call t1) (tr_call t')).
  { subst m. intros e t' Hr.
    destruct e1; try (inversion Hr; subst; apply kept_refl).
    eapply translate_ops_kept; [apply kept_refl|exact Hr]. }
  destruct m as [[e t']|]; cbn [obind] in H; [|discriminate].
  specialize (Hm e t' eq_refl).
  destruct e;
    try (inversion H; subst; apply done_with_error_kept; still).
  destruct (negb is_closure);
    [destruct (grpc_cq_begin_op tag); cbn [GPR_ASSERT obind] in H; [|discriminate]|];
    cbn [obind] in H; inversion H; subst; unfold execute_batch; still.
Qed.

Lemma send_status_extra_metadata_records (c : grpc_call) (st : grpc_status_code)
    (details : option grpc_slice) :
  status c STATUS_FROM_API_OVERRIDE = ATM_ZERO ->
  status (send_status_extra_metadata c st details) STATUS_FROM_API_OVERRIDE
  = ATM_SET
      (let e := if negb (st =? GRPC_STATUS_OK)
                then GRPC_ERROR_CREATE "Error from server send status"
                else GRPC_ERROR_NONE in
       match details with
       | Some d => grpc_error_set_str e GRPC_ERROR_STR_GRPC_MESSAGE d
       | None => e
       end).
Proof.
  intros Hz. unfold send_status_extra_metadata. cbv zeta.
  destruct details; rewrite status_after_record; cbn; rewrite Hz; reflexivity.
Qed.

(** X11. The rollback of a refused batch does not reach the status slots.
    A server batch that starts with a well-formed SEND_STATUS_FROM_SERVER,
    on a call that has sent no final op and whose slot of source
    API_OVERRIDE is unset, leaves in that slot the override error the op
    builds: no error for the status OK, and for any other status the one
    created error "Error from server send status", which does not carry
    the status code; in both cases the details, when given, are attached
    as its message. The slot holds this error whether the batch is
    accepted or refused because of a later op or of its trailing metadata;
    when it is refused, [sent_final_op] is clear again while the slot
    stays set. *)
Theorem sent_status_outlives_the_rollback (call call' : grpc_call)
    (trailing_metadata : list grpc_metadata) (st : grpc_status_code)
    (details : option grpc_slice) (ops : list grpc_op) (tag : Z) (is_closure : bool)
    (err : grpc_call_error) :
  let o := {| data := Op_send_status_from_server trailing_metadata st details;
              flags := 0; reserved := false |} in
  is_client call = false ->
  flag call sent_final_op = false ->
  send_extra_metadata_count call = 0 ->
  ~ slot_in_use call 2%nat ->
  Z.of_nat (length trailing_metadata) <= INT_MAX ->
  status call STATUS_FROM_API_OVERRIDE = ATM_ZERO ->
  call_start_batch call (o :: ops) tag is_closure = Ret (err, call') ->
  status call' STATUS_FROM_API_OVERRIDE
  = ATM_SET
      (let e := if negb (st =? GRPC_STATUS_OK)
                then GRPC_ERROR_CREATE "Error from server send status"
                else GRPC_ERROR_NONE in
       match details with
       | Some d => grpc_error_set_str e GRPC_ERROR_STR_GRPC_MESSAGE d
       | None => e
       end)
  /\ (err <> GRPC_CALL_OK -> flag call' sent_final_op = false).
Proof.
  intros o Hserver Hflag Hcount Hfree Hlen Hzero H.
  split.
  - destruct (call_start_batch_first_op call call' o ops tag is_closure err Hfree H)
      as (c1 & e1 & t1 & S1 & S2 & S3 & S4 & Ho & Hk).
    apply Hk. clear Hk H.
    unfold translate_op, obind, GPR_ASSERT in Ho.
    cbn [reserved data flags o tr_call tr_stream_op tr_callbacks] in Ho.
    rewrite S3, Hserver, S2, Hflag in Ho. cbn [Z.eqb negb] in Ho.
    apply Z.ltb_ge in Hlen. rewrite Hlen in Ho.
    change (send_extra_metadata_count (set_call_flag sent_final_op true c1))
      with (send_extra_metadata_count c1) in Ho.
    rewrite S4, Hcount in Ho. cbn [Z.eqb] in Ho.
    assert (Hrec := send_status_extra_metadata_records
                      (set_call_flag sent_final_op true c1) st details).
    cbn [status set_call_flag upd_flag] in Hrec. rewrite S1 in Hrec.
    specialize (Hrec Hzero).
    destruct (prepare_application_metadata _ trailing_metadata true true [])
      as [ok c3] eqn:Hp.
    apply prepare_application_metadata_status in Hp.
    destruct ok; cbn [negb] in Ho; inversion Ho; subst; cbn [tr_call];
      [rewrite Hp|]; exact Hrec.
  - intros Hne.
    destruct (call_start_batch_flags_and_dispatch _ _ _ _ _ _ H) as (Herr & _).
    destruct (Herr Hne) as (Hf & _). rewrite Hf. exact Hflag.
Qed.

End Permanence.

(** ** Flags, headers and filters *)

Section Headers.
Context {ext : Externals}.

Lemma uint32_not_spec (m i : Z) :
  0 <= i ->
  Z.testbit (uint32_not m) i = (i <? 32) && negb (Z.testbit m i).
Proof.
  intros Hi. unfold uint32_not, UINT32_MODULUS.
  rewrite Z.lxor_spec.
  change (2 ^ 32 - 1) with (Z.ones 32).
  destruct (Z.ltb_spec i 32) as [Hlt|Hge].
  - rewrite Z.mod_pow2_bits_low by lia. rewrite Z.ones_spec_low by lia.
    cbn [andb]. apply xorb_true_r.
  - rewrite Z.mod_pow2_bits_high by lia. rewrite Z.ones_spec_high by lia. reflexivity.
Qed.

Lemma land_not_zero (flags m : Z) :
  (Z.land flags (uint32_not m) =? 0) = true <->
  forall i, 0 <= i < 32 -> Z.testbit flags i = true -> Z.testbit m i = true.
Proof.
  rewrite Z.eqb_eq. split.
  - intros H i Hi Hf.
    assert (Hb : Z.testbit (Z.land flags (uint32_not m)) i = false)
      by (rewrite H; apply Z.bits_0).
    rewrite Z.land_spec, uint32_not_spec, Hf in Hb by lia.
    destruct (Z.ltb_spec i 32); [|lia]. cbn [andb] in Hb.
    apply negb_false_iff in Hb. exact Hb.
  - intros H. apply Z.bits_inj'. intros i Hi.
    rewrite Z.bits_0, Z.land_spec, uint32_not_spec by lia.
    destruct (Z.ltb_spec i 32) as [Hlt|Hge]; [|apply andb_false_r].
    destruct (Z.testbit flags i) eqn:Hf; [|reflexivity].
    rewrite (H i) by (try lia; exact Hf). reflexivity.
Qed.

(** X12. The flag checks are bit masks on the low 32 bits. Write flags
    are valid exactly when every bit set in them is a bit of
    [GRPC_WRITE_USED_MASK] or of [GRPC_WRITE_INTERNAL_USED_MASK];
    initial-metadata flags are valid exactly when every bit set in them is
    a bit of [GRPC_INITIAL_METADATA_USED_MASK] and, on a server, no bit of
    [GRPC_INITIAL_METADATA_IDEMPOTENT_REQUEST] (a 32-bit constant). So no
    flags at all are always valid. *)
Theorem flags_are_checked_bit_by_bit (flags : Z) (is_client : bool) :
  0 <= GRPC_INITIAL_METADATA_IDEMPOTENT_REQUEST < UINT32_MODULUS ->
  (are_write_flags_valid flags = true <->
   forall i, 0 <= i < 32 -> Z.testbit flags i = true ->
             Z.testbit GRPC_WRITE_USED_MASK i = true
             \/ Z.testbit GRPC_WRITE_INTERNAL_USED_MASK i = true)
  /\ (are_initial_metadata_flags_valid flags is_client = true <->
      forall i, 0 <= i < 32 -> Z.testbit flags i = true ->
                Z.testbit GRPC_INITIAL_METADATA_USED_MASK i = true
                /\ (is_client = false ->
                    Z.testbit GRPC_INITIAL_METADATA_IDEMPOTENT_REQUEST i = false))
  /\ are_write_flags_valid 0 = true
  /\ are_initial_metadata_flags_valid 0 is_client = true.
Proof.
  intros Hidem.
  assert (Hw : are_write_flags_valid flags = true <->
               forall i, 0 <= i < 32 -> Z.testbit flags i = true ->
                         Z.testbit GRPC_WRITE_USED_MASK i = true
                         \/ Z.testbit GRPC_WRITE_INTERNAL_USED_MASK i = true).
  { unfold are_write_flags_valid. cbv zeta. rewrite land_not_zero.
    split; intros H i Hi Hf; specialize (H i Hi Hf);
      rewrite Z.lor_spec in *; apply orb_true_iff; exact H. }
  assert (Hm : forall fl,
             are_initial_metadata_flags_valid fl is_client = true <->
             forall i, 0 <= i < 32 -> Z.testbit fl i = true ->
                       Z.testbit GRPC_INITIAL_METADATA_USED_MASK i = true
                       /\ (is_client = false ->
                           Z.testbit GRPC_INITIAL_METADATA_IDEMPOTENT_REQUEST i = false)).
  { intros fl. unfold are_initial_metadata_flags_valid. cbv zeta. rewrite Z.eqb_eq.
    destruct is_client; cbn [negb].
    - rewrite <- Z.eqb_eq, land_not_zero.
      split; intros H i Hi Hf; [split; [apply (H i Hi Hf)|discriminate]|apply (H i Hi Hf)].
    - split.
      + intros H i Hi Hf.
        assert (Hb : Z.testbit
                       (Z.land fl (Z.lor (uint32_not GRPC_INITIAL_METADATA_USED_MASK)
                                     GRPC_INITIAL_METADATA_IDEMPOTENT_REQUEST)) i = false)
          by (rewrite H; apply Z.bits_0).
        rewrite Z.land_spec, Z.lor_spec, uint32_not_spec, Hf in Hb by lia.
        destruct (Z.ltb_spec i 32); [|lia]. cbn [andb] in Hb.
        apply orb_false_iff in Hb. destruct Hb as (Hb1 & Hb2).
        apply negb_false_iff in Hb1. auto.
      + intros H. apply Z.bits_inj'. intros i Hi.
        rewrite Z.bits_0, Z.land_spec, Z.lor_spec, uint32_not_spec by lia.
        destruct (Z.testbit fl i) eqn:Hf; [|reflexivity]. cbn [andb].
        destruct (Z.ltb_spec i 32) as [Hlt|Hge].
        * destruct (H i) as (H1 & H2); [lia|exact Hf|].
          rewrite H1, H2 by reflexivity. reflexivity.
        * cbn [andb orb].
          destruct (Z.eq_dec GRPC_INITIAL_METADATA_IDEMPOTENT_REQUEST 0) as [Hz|Hz];
            [rewrite Hz; apply Z.bits_0|].
          apply Z.bits_above_log2; [lia|].
          eapply Z.lt_le_trans; [|exact Hge].
          apply Z.log2_lt_pow2; [lia|exact (proj2 Hidem)]. }
  split; [exact Hw|]. split; [apply Hm|].
  split.
  - unfold are_write_flags_valid. cbv zeta. rewrite Z.land_0_l. reflexivity.
  - apply Hm. intros i _ Hf. rewrite Z.bits_0 in Hf. discriminate.
Qed.

Lemma testbit_one (k : Z) : Z.testbit 1 k = (k =? 0).
Proof.
  destruct (Z.eqb_spec k 0) as [->|Hk]; [reflexivity|].
  destruct (Z.lt_ge_cases k 0) as [Hneg|Hpos]; [apply Z.testbit_neg_r; exact Hneg|].
  apply Z.bits_above_log2; [lia|]. change (Z.log2 1) with 0. lia.
Qed.

Lemma GPR_BITSET_spec (bits a i : Z) :
  0 <= i < 32 ->
  Z.testbit (GPR_BITSET bits a) i = Z.testbit bits i || (i =? a).
Proof.
  intros Hi. unfold GPR_BITSET, UINT32_MODULUS.
  rewrite Z.mod_pow2_bits_low by lia.
  rewrite Z.lor_spec, Z.shiftl_spec, testbit_one by lia.
  f_equal. destruct (Z.eqb_spec (i - a) 0), (Z.eqb_spec i a); try reflexivity; lia.
Qed.

Lemma GPR_BITSET_range (bits a : Z) : 0 <= GPR_BITSET bits a < UINT32_MODULUS.
Proof. unfold GPR_BITSET, UINT32_MODULUS. apply Z.mod_pos_bound. reflexivity. Qed.

Lemma accepted_bits (parse : grpc_slice -> option Z) (l : list grpc_slice) (bits i : Z) :
  0 <= i < 32 ->
  Z.testbit
    (fold_left
       (fun bits entry =>
          match parse entry with
          | Some algorithm => GPR_BITSET bits algorithm
          | None => bits
          end) l bits) i = true <->
  Z.testbit bits i = true \/ exists entry, In entry l /\ parse entry = Some i.
Proof.
  intros Hi. revert bits. induction l as [|entry l IH]; intros bits; cbn [fold_left].
  - split; [auto|]. intros [H|(entry & [] & _)]. exact H.
  - rewrite IH. destruct (parse entry) as [a|] eqn:Hp.
    + rewrite GPR_BITSET_spec by exact Hi. rewrite orb_true_iff, Z.eqb_eq. split.
      * intros [[H| ->]|(e & He & Hpe)]; [auto| |].
        -- right. exists entry. split; [left; reflexivity|exact Hp].
        -- right. exists e. split; [right; exact He|exact Hpe].
      * intros [H|(e & [<-|He] & Hpe)]; [auto| |].
        -- left. right. congruence.
        -- right. exists e. auto.
    + split.
      * intros [H|(e & He & Hpe)]; [auto|]. right. exists e. split; [right; exact He|exact Hpe].
      * intros [H|(e & [<-|He] & Hpe)]; [auto|congruence|]. right. exists e. auto.
Qed.

(** X13. Decoding a [grpc-status] element caches the result on it, and the
    cache agrees with the parse: decoding the element again gives the same
    status, the key and the value are untouched, and a value that does not
    parse (on an element with no cache yet) decodes to
    [GRPC_STATUS_UNKNOWN]. The parser is assumed to return a [uint32_t]. *)
Theorem decode_status_caches_what_it_parsed (md : grpc_mdelem) :
  (forall s, grpc_parse_slice_to_uint32 (GRPC_MDVALUE md) = Some s ->
             0 <= s < UINT32_MODULUS) ->
  fst (decode_status (snd (decode_status md))) = fst (decode_status md)
  /\ GRPC_MDKEY (snd (decode_status md)) = GRPC_MDKEY md
  /\ GRPC_MDVALUE (snd (decode_status md)) = GRPC_MDVALUE md
  /\ (forall k v,
        md = MDELEM k v None ->
        grpc_mdelem_get_user_data (snd (decode_status md)) destroy_status
        = (fst (decode_status md) + 1) mod UINT32_MODULUS
        /\ (grpc_parse_slice_to_uint32 v = None ->
            fst (decode_status md) = GRPC_STATUS_UNKNOWN)).
Proof.
  intros Hrange.
  destruct md as [| | |k v [[key u]|]]; try (cbn; repeat split; intros; discriminate).
  - (* an element that already carries user data *)
    unfold decode_status. cbn [grpc_mdelem_eq].
    cbn [grpc_mdelem_get_user_data grpc_mdelem_set_user_data GRPC_MDVALUE GRPC_MDKEY].
    destruct (negb ((if user_data_key_eqb key destroy_status then u else 0) =? 0)) eqn:Hu;
      cbn [fst snd grpc_mdelem_eq grpc_mdelem_get_user_data grpc_mdelem_set_user_data
             GRPC_MDVALUE GRPC_MDKEY]; rewrite ?Hu; cbn [fst snd];
      repeat split; intros; discriminate.
  - (* a fresh element *)
    unfold decode_status. cbn [grpc_mdelem_eq].
    cbn [grpc_mdelem_get_user_data grpc_mdelem_set_user_data GRPC_MDVALUE GRPC_MDKEY] in *.
    change (negb (0 =? 0)) with false. cbv iota.
    set (status := match grpc_parse_slice_to_uint32 v with
                   | Some s => s
                   | None => GRPC_STATUS_UNKNOWN
                   end).
    assert (Hs : 0 <= status < UINT32_MODULUS).
    { unfold status. destruct (grpc_parse_slice_to_uint32 v) as [s|] eqn:Hp.
      - apply Hrange. reflexivity.
      - unfold GRPC_STATUS_UNKNOWN, UINT32_MODULUS. lia. }
    cbn [fst snd grpc_mdelem_eq grpc_mdelem_get_user_data grpc_mdelem_set_user_data
           GRPC_MDVALUE GRPC_MDKEY user_data_key_eqb].
    split; [|split; [reflexivity|split; [reflexivity|]]].
    + destruct (negb ((status + STATUS_OFFSET) mod UINT32_MODULUS =? 0)) eqn:Hc;
        cbn [fst]; [|reflexivity].
      apply negb_true_iff, Z.eqb_neq in Hc.
      unfold STATUS_OFFSET, UINT32_MODULUS in *.
      rewrite Z.mod_mod by lia.
      assert (status + 1 < 2 ^ 32 \/ status + 1 = 2 ^ 32) as [Hlt| Heq] by lia.
      * rewrite (Z.mod_small (status + 1)) by lia.
        replace (status + 1 - 1) with status by lia. apply Z.mod_small. lia.
      * rewrite Heq, Z.mod_same in Hc by lia. contradiction.
    + intros k' v' Heq. injection Heq as <- <-. split; [reflexivity|].
      intros Hp. unfold status. rewrite Hp. reflexivity.
Qed.

(** X14. With no cached value on the element, the accepted encodings are
    read off the comma-separated value: bit 0 (no compression) is always
    set, every entry that parses sets the bit of its algorithm, entries
    that do not parse are ignored, and no other of the 32 bits is set. *)
Theorem accepted_encodings_are_the_parsed_entries
    (mdel : grpc_mdelem) (stream_encoding : bool) (i : Z) :
  grpc_mdelem_get_user_data mdel destroy_encodings_accepted_by_peer = 0 ->
  0 <= i < 32 ->
  0 <= set_encodings_accepted_by_peer mdel stream_encoding < UINT32_MODULUS
  /\ Z.testbit (set_encodings_accepted_by_peer mdel stream_encoding) 0 = true
  /\ (Z.testbit (set_encodings_accepted_by_peer mdel stream_encoding) i = true <->
      i = 0
      \/ exists entry,
           In entry (grpc_slice_split_without_space (GRPC_MDVALUE mdel))
           /\ (if stream_encoding
               then grpc_stream_compression_algorithm_parse entry
               else grpc_message_compression_algorithm_parse entry) = Some i).
Proof.
  intros Hcache Hi. unfold set_encodings_accepted_by_peer. cbv zeta.
  rewrite Hcache. change (negb (0 =? 0)) with false. cbv iota.
  set (parse := fun entry =>
                  if negb stream_encoding
                  then grpc_message_compression_algorithm_parse entry
                  else grpc_stream_compression_algorithm_parse entry).
  assert (Hparse : forall entry,
             parse entry = if stream_encoding
                           then grpc_stream_compression_algorithm_parse entry
                           else grpc_message_compression_algorithm_parse entry)
    by (intros entry; unfold parse; destruct stream_encoding; reflexivity).
  change (fold_left _ ?l ?b) with
    (fold_left (fun bits entry => match parse entry with
                                  | Some algorithm => GPR_BITSET bits algorithm
                                  | None => bits
                                  end) l b).
  assert (Hzero : Z.testbit (GPR_BITSET 0 GRPC_COMPRESS_NONE) 0 = true) by reflexivity.
  split; [|split].
  - generalize (GPR_BITSET_range 0 GRPC_COMPRESS_NONE).
    generalize (GPR_BITSET 0 GRPC_COMPRESS_NONE).
    induction (grpc_slice_split_without_space (GRPC_MDVALUE mdel)) as [|e l IH];
      intros b Hb; cbn [fold_left]; [exact Hb|].
    apply IH. destruct (parse e); [apply GPR_BITSET_range|exact Hb].
  - apply accepted_bits; [lia|]. left. exact Hzero.
  - rewrite accepted_bits by exact Hi.
    rewrite GPR_BITSET_spec by exact Hi. rewrite Z.bits_0. cbn [orb].
    unfold GRPC_COMPRESS_NONE. rewrite Z.eqb_eq.
    split; (intros [H|(e & He & Hp)]; [left; exact H|right; exists e; split; [exact He|]]).
    + rewrite <- Hparse. exact Hp.
    + rewrite Hparse. exact Hp.
Qed.

Lemma remove_named_filter (key : grpc_slice) (l : list grpc_mdelem) :
  at_most_once key l ->
  remove_named key l = List.filter (fun md => negb (is_named key md)) l.
Proof.
  unfold at_most_once. induction l as [|md l IH]; intros H; [reflexivity|].
  cbn [remove_named List.filter] in *. unfold is_named in *.
  destruct (String.eqb (GRPC_MDKEY md) key) eqn:Hk; cbn [negb length] in *.
  - clear IH. induction l as [|md' l IH]; [reflexivity|].
    cbn [List.filter] in *.
    destruct (String.eqb (GRPC_MDKEY md') key) eqn:Hk'; cbn [negb length] in *; [lia|].
    f_equal. apply IH. exact H.
  - f_equal. apply IH. exact H.
Qed.

Lemma at_most_once_filter (key : grpc_slice) (p : grpc_mdelem -> bool)
    (l : list grpc_mdelem) :
  at_most_once key l -> at_most_once key (List.filter p l).
Proof.
  unfold at_most_once. intros H.
  induction l as [|md l IH]; [exact H|].
  cbn [List.filter] in *.
  destruct (is_named key md) eqn:Hk, (p md) eqn:Hp; cbn [List.filter length] in *;
    rewrite ?Hk; cbn [length]; try (apply IH; lia).
  - assert (length (List.filter (is_named key) (List.filter p l))
            <= length (List.filter (is_named key) l))%nat; [|lia].
    clear. induction l as [|md l IH]; [reflexivity|]. cbn [List.filter].
    destruct (p md), (is_named key md) eqn:Hk; cbn [List.filter length];
      rewrite ?Hk; cbn [length]; lia.
Qed.

Lemma named_step {A} (b : grpc_metadata_batch) (key : grpc_slice)
    (f : grpc_mdelem -> A) (d : A) :
  match idx_named b key with
  | Some md => (f md, grpc_metadata_batch_remove b key)
  | None => (d, b)
  end
  = (match idx_named b key with Some md => f md | None => d end,
     grpc_metadata_batch_remove b key).
Proof.
  destruct (idx_named b key) eqn:Hf; [reflexivity|]. f_equal.
  unfold idx_named, grpc_metadata_batch_remove in *. destruct b as [l t]. cbn in *.
  f_equal. induction l as [|md l IH]; [reflexivity|]. cbn [find remove_named] in *.
  destruct (String.eqb (GRPC_MDKEY md) key); [discriminate|]. f_equal. apply IH, Hf.
Qed.

Lemma decoded_in_range (count algorithm : Z) :
  0 < count -> algorithm <= count ->
  ((if algorithm =? count then 0 else algorithm) <? count) = true.
Proof. intros. destruct (Z.eqb_spec algorithm count); apply Z.ltb_lt; lia. Qed.

(** X15. [recv_initial_filter] hands the application every element of the
    received initial metadata except the four transport headers
    ([content-encoding], [grpc-encoding], [grpc-accept-encoding],
    [accept-encoding]), in the order received, appended to what the
    destination array already holds; the headers are unlinked from the
    batch. It sends nothing to the transport and does not touch the
    trailing metadata. The decoders are assumed to answer within the
    algorithm count, as they do for any slice. *)
Theorem recv_initial_filter_strips_transport_headers
    (call : grpc_call) (dest : grpc_metadata_array) :
  0 < GRPC_MESSAGE_COMPRESS_ALGORITHMS_COUNT ->
  0 < GRPC_STREAM_COMPRESS_ALGORITHMS_COUNT ->
  (forall s, grpc_message_compression_algorithm_from_slice s
             <= GRPC_MESSAGE_COMPRESS_ALGORITHMS_COUNT) ->
  (forall s, grpc_stream_compression_algorithm_from_slice s
             <= GRPC_STREAM_COMPRESS_ALGORITHMS_COUNT) ->
  Forall (fun key => at_most_once key (md_list (metadata_batch call true false)))
    transport_headers ->
  buffered_metadata call false = Some dest ->
  exists call',
    recv_initial_filter call = Ret call'
    /\ buffered_metadata call' false
       = Some (dest ++ map mdusr
                 (List.filter for_application (md_list (metadata_batch call true false))))
    /\ md_list (metadata_batch call' true false)
       = List.filter for_application (md_list (metadata_batch call true false))
    /\ buffered_metadata call' true = buffered_metadata call true
    /\ dispatched call' = dispatched call.
Proof.
  intros Hm Hs Hmsg Hstr Honce Hdest.
  unfold transport_headers in Honce.
  apply Forall_cons in Honce as (H1 & Honce). apply Forall_cons in Honce as (H2 & Honce).
  apply Forall_cons in Honce as (H3 & Honce). apply Forall_cons in Honce as (H4 & _).
  set (l := md_list (metadata_batch call true false)) in *.
  set (p1 := fun md => negb (is_named GRPC_MDSTR_CONTENT_ENCODING md)).
  set (p2 := fun md => negb (is_named GRPC_MDSTR_GRPC_ENCODING md)).
  set (p3 := fun md => negb (is_named GRPC_MDSTR_GRPC_ACCEPT_ENCODING md)).
  set (p4 := fun md => negb (is_named GRPC_MDSTR_ACCEPT_ENCODING md)).
  assert (Hall : List.filter p4 (List.filter p3 (List.filter p2 (List.filter p1 l)))
                 = List.filter for_application l).
  { clear. induction l as [|md l IH]; [reflexivity|].
    cbn [List.filter]. unfold for_application, transport_headers. cbn [existsb].
    unfold p1 at 1. destruct (is_named GRPC_MDSTR_CONTENT_ENCODING md);
      cbn [negb orb List.filter]; [exact IH|].
    unfold p2 at 1. destruct (is_named GRPC_MDSTR_GRPC_ENCODING md);
      cbn [negb orb List.filter]; [exact IH|].
    unfold p3 at 1. destruct (is_named GRPC_MDSTR_GRPC_ACCEPT_ENCODING md);
      cbn [negb orb List.filter]; [exact IH|].
    unfold p4 at 1. destruct (is_named GRPC_MDSTR_ACCEPT_ENCODING md);
      cbn [negb orb List.filter]; [exact IH|].
    f_equal. exact IH. }
  assert (Hrem :
            remove_named GRPC_MDSTR_ACCEPT_ENCODING
              (remove_named GRPC_MDSTR_GRPC_ACCEPT_ENCODING
                 (remove_named GRPC_MDSTR_GRPC_ENCODING
                    (remove_named GRPC_MDSTR_CONTENT_ENCODING l)))
            = List.filter for_application l).
  { rewrite <- Hall.
    rewrite (remove_named_filter GRPC_MDSTR_CONTENT_ENCODING l H1). fold p1.
    rewrite (remove_named_filter GRPC_MDSTR_GRPC_ENCODING (List.filter p1 l))
      by (apply at_most_once_filter, H2). fold p2.
    rewrite (remove_named_filter GRPC_MDSTR_GRPC_ACCEPT_ENCODING
               (List.filter p2 (List.filter p1 l)))
      by (do 2 apply at_most_once_filter; exact H3). fold p3.
    rewrite (remove_named_filter GRPC_MDSTR_ACCEPT_ENCODING
               (List.filter p3 (List.filter p2 (List.filter p1 l))))
      by (do 3 apply at_most_once_filter; exact H4).
    reflexivity. }
  unfold recv_initial_filter. cbv zeta.
  set (c0 := emit (EvMark Enter_recv_initial_filter) call).
  set (b0 := metadata_batch c0 true false).
  assert (Hb0 : md_list b0 = l) by reflexivity.
  assert (Hstage1 :
            exists c1,
              match idx_named b0 GRPC_MDSTR_CONTENT_ENCODING with
              | Some md =>
                  let* call :=
                    set_incoming_stream_compression_algorithm c0
                      (decode_stream_compression md) in
                  Ret (call, grpc_metadata_batch_remove b0 GRPC_MDSTR_CONTENT_ENCODING)
              | None => Ret (c0, b0)
              end = Ret (c1, grpc_metadata_batch_remove b0 GRPC_MDSTR_CONTENT_ENCODING)
              /\ buffered_metadata c1 = buffered_metadata call
              /\ trace c1 = trace c0).
  { pose proof (named_step b0 GRPC_MDSTR_CONTENT_ENCODING (fun _ => tt) tt) as Hn.
    destruct (idx_named b0 GRPC_MDSTR_CONTENT_ENCODING) as [md|].
    - unfold set_incoming_stream_compression_algorithm, decode_stream_compression.
      cbv zeta. unfold GRPC_STREAM_COMPRESS_NONE.
      rewrite decoded_in_range by (try apply Hstr; exact Hs).
      cbn [GPR_ASSERT obind]. eexists. split; [reflexivity|]. split; reflexivity.
    - apply (f_equal snd) in Hn. cbn [snd] in Hn. rewrite <- Hn. exists c0. split; [reflexivity|].
      split; reflexivity. }
  destruct Hstage1 as (c1 & -> & Hbuf1 & Htr1). cbn [obind].
  set (b1 := grpc_metadata_batch_remove b0 GRPC_MDSTR_CONTENT_ENCODING).
  assert (Hstage2 :
            exists c2,
              match idx_named b1 GRPC_MDSTR_GRPC_ENCODING with
              | Some md =>
                  let* call :=
                    set_incoming_message_compression_algorithm c1
                      (decode_message_compression md) in
                  Ret (call, grpc_metadata_batch_remove b1 GRPC_MDSTR_GRPC_ENCODING)
              | None => Ret (c1, b1)
              end = Ret (c2, grpc_metadata_batch_remove b1 GRPC_MDSTR_GRPC_ENCODING)
              /\ buffered_metadata c2 = buffered_metadata call
              /\ trace c2 = trace c0).
  { pose proof (named_step b1 GRPC_MDSTR_GRPC_ENCODING (fun _ => tt) tt) as Hn.
    destruct (idx_named b1 GRPC_MDSTR_GRPC_ENCODING) as [md|].
    - unfold set_incoming_message_compression_algorithm, decode_message_compression.
      cbv zeta. unfold GRPC_MESSAGE_COMPRESS_NONE.
      rewrite decoded_in_range by (try apply Hmsg; exact Hm).
      cbn [GPR_ASSERT obind]. eexists. split; [reflexivity|].
      split; [exact Hbuf1|exact Htr1].
    - apply (f_equal snd) in Hn. cbn [snd] in Hn. rewrite <- Hn. exists c1. split; [reflexivity|].
      split; [exact Hbuf1|exact Htr1]. }
  destruct Hstage2 as (c2 & -> & Hbuf2 & Htr2). cbn [obind].
  set (b2 := grpc_metadata_batch_remove b1 GRPC_MDSTR_GRPC_ENCODING).
  rewrite (named_step b2 GRPC_MDSTR_GRPC_ACCEPT_ENCODING).
  set (b3 := grpc_metadata_batch_remove b2 GRPC_MDSTR_GRPC_ACCEPT_ENCODING).
  rewrite (named_step b3 GRPC_MDSTR_ACCEPT_ENCODING).
  set (b4 := grpc_metadata_batch_remove b3 GRPC_MDSTR_ACCEPT_ENCODING).
  assert (Hb4 : md_list b4 = List.filter for_application l) by exact Hrem.
  unfold publish_app_metadata. rewrite Hb4.
  destruct (List.filter for_application l) as [|md rest] eqn:Hrest.
  - eexists. split; [reflexivity|].
    cbn [buffered_metadata metadata_batch set_md_batch upd_metadata_batch
           upd_encodings_accepted_by_peer store2 Bool.eqb andb].
    rewrite Hbuf2, Hdest, app_nil_r.
    repeat split; try reflexivity; [exact Hb4|].
    unfold dispatched. cbn [trace set_md_batch upd_metadata_batch
                              upd_encodings_accepted_by_peer].
    rewrite Htr2. unfold c0, emit. cbn [trace upd_trace].
    rewrite omap_app. cbn [omap]. apply app_nil_r.
  - cbn [buffered_metadata metadata_batch set_md_batch upd_metadata_batch
           upd_encodings_accepted_by_peer store2 Bool.eqb andb].
    rewrite Hbuf2, Hdest.
    eexists. split; [reflexivity|].
    cbn [buffered_metadata metadata_batch set_md_batch upd_metadata_batch
           upd_encodings_accepted_by_peer upd_buffered_metadata store1 store2
           Bool.eqb andb].
    rewrite ?Hbuf2.
    repeat split; try reflexivity; [exact Hb4|].
    unfold dispatched. cbn [trace set_md_batch upd_metadata_batch
                              upd_encodings_accepted_by_peer upd_buffered_metadata].
    rewrite Htr2. unfold c0, emit. cbn [trace upd_trace].
    rewrite omap_app. cbn [omap]. apply app_nil_r.
Qed.

End Headers.

(** ** A message arriving in slices *)

Section Slices.
Context {ext : Externals}.

Lemma obind_ret {A} (m : outcome A) : (let* x := m in Ret x) = m.
Proof. destruct m; reflexivity. Qed.

Lemma continue_from_eq (script : list stream_step) (length flags : Z)
    (call : grpc_call) (bctlp : nat) :
  continue_receiving_slices_from script length flags call bctlp
  = let* buffer := deref_receiving_buffer call in
    match buffer with
    | None => Abort "*call->receiving_buffer: null pointer"
    | Some buffer =>
        let remaining := (length - slice_buffer_length (bb_slices buffer)) mod 2 ^ 64 in
        if remaining =? 0 then
          let call := set_call_flag receiving_message false call in
          let call := destroy_receiving_stream call in
          finish_batch_step call bctlp
        else
          match script with
          | NextReady (PullSlice slice) :: script' =>
              let call :=
                upd_receiving_stream
                  (Some {| bs_length := length; bs_flags := flags; bs_script := script' |})
                  call in
              let* call :=
                store_receiving_buffer (Some (grpc_slice_buffer_add buffer slice)) call in
              continue_receiving_slices_from script' length flags call bctlp
          | NextReady (PullError _) :: _ => abandon_message call bctlp
          | NextPending _ :: _ | [] => Ret call
          end
    end.
Proof. destruct script; reflexivity. Qed.

Lemma slice_length_nonneg (s : grpc_slice) : 0 <= slice_length s.
Proof. unfold slice_length. lia. Qed.

Lemma slice_buffer_length_nonneg (l : list grpc_slice) : 0 <= slice_buffer_length l.
Proof.
  unfold slice_buffer_length.
  induction l as [|s l IH]; cbn [fold_right]; [lia|].
  pose proof (slice_length_nonneg s). lia.
Qed.

Lemma slice_buffer_length_app (l : list grpc_slice) (s : grpc_slice) :
  slice_buffer_length (l ++ [s]) = slice_buffer_length l + slice_length s.
Proof.
  unfold slice_buffer_length.
  induction l as [|x l IH]; cbn [fold_right app]; [lia|]. rewrite IH. lia.
Qed.

Lemma with_slices_spec (buffer : grpc_byte_buffer) (slices : list grpc_slice) :
  bb_slices (with_slices buffer slices) = bb_slices buffer ++ slices
  /\ bb_compression (with_slices buffer slices) = bb_compression buffer.
Proof.
  revert buffer. induction slices as [|s l IH]; intros buffer; cbn [with_slices fold_left].
  - rewrite app_nil_r. split; reflexivity.
  - destruct (IH (grpc_slice_buffer_add buffer s)) as (H1 & H2).
    unfold with_slices in H1, H2. rewrite H1, H2. cbn [grpc_slice_buffer_add bb_slices
      bb_compression]. rewrite <- app_assoc. split; reflexivity.
Qed.

Lemma total_positive (arrivals : list (bool * grpc_slice)) :
  arrivals <> [] ->
  (forall a, last arrivals = Some a -> 0 < slice_length (snd a)) ->
  0 < slice_buffer_length (map snd arrivals).
Proof.
  unfold slice_buffer_length.
  induction arrivals as [|a l IH]; intros Hne Hlast; [contradiction|].
  cbn [map fold_right].
  destruct l as [|a' l'].
  - cbn [map fold_right]. specialize (Hlast a eq_refl). lia.
  - assert (0 < fold_right (fun s n => slice_length s + n) 0 (map snd (a' :: l'))).
    { apply IH; [discriminate|]. intros x Hx. apply Hlast. exact Hx. }
    pose proof (slice_length_nonneg (snd a)). lia.
Qed.

Lemma message_assembly (bctlp : nat) (bctl : batch_control) (rest : list stream_step)
    (arrivals : list (bool * grpc_slice)) :
  forall (call : grpc_call) (buf : grpc_byte_buffer) (bs : grpc_byte_stream),
    get_bctl call bctlp = Ret bctl ->
    receiving_stream call = Some bs ->
    bs_script bs = map arrival_step arrivals ++ rest ->
    receiving_buffer call = Some (Some buf) ->
    0 <= bs_length bs < 2 ^ 64 ->
    slice_buffer_length (bb_slices buf) + slice_buffer_length (map snd arrivals)
    = bs_length bs ->
    (forall a, last arrivals = Some a -> 0 < slice_length (snd a)) ->
    (let* c := continue_receiving_slices call bctlp in
     run c (repeat (SliceReady bctlp GRPC_ERROR_NONE) (deferred arrivals)))
    = finish_batch_step (message_complete (with_slices buf (map snd arrivals)) call) bctlp.
Proof.
  induction arrivals as [|[ready s] l IH];
    intros call buf bs Hget Hstream Hscript Hbuf Hlen Htotal Hlast.
  - cbn [map app] in Hscript. cbn [map slice_buffer_length fold_right] in Htotal.
    unfold continue_receiving_slices. rewrite Hget. cbn [obind]. rewrite Hstream.
    rewrite continue_from_eq. unfold deref_receiving_buffer. rewrite Hbuf. cbn [obind].
    cbv zeta.
    replace (bs_length bs - slice_buffer_length (bb_slices buf)) with 0 by lia.
    change (0 mod 2 ^ 64 =? 0) with true. cbv iota.
    cbn [deferred List.filter length repeat run]. rewrite obind_ret.
    f_equal. destruct call. cbn in Hbuf. subst. reflexivity.
  - assert (Hpos : 0 < slice_buffer_length (map snd ((ready, s) :: l)))
      by (apply total_positive; [discriminate|exact Hlast]).
    assert (Hrem : ((bs_length bs - slice_buffer_length (bb_slices buf)) mod 2 ^ 64 =? 0)
                   = false).
    { apply Z.eqb_neq. pose proof (slice_buffer_length_nonneg (bb_slices buf)).
      rewrite Z.mod_small by lia. lia. }
    set (call2 :=
           upd_receiving_buffer (Some (Some (grpc_slice_buffer_add buf s)))
             (upd_receiving_stream
                (Some {| bs_length := bs_length bs; bs_flags := bs_flags bs;
                         bs_script := map arrival_step l ++ rest |}) call)).
    assert (Hnext :
              (let* c := continue_receiving_slices call2 bctlp in
               run c (repeat (SliceReady bctlp GRPC_ERROR_NONE) (deferred l)))
              = finish_batch_step
                  (message_complete (with_slices (grpc_slice_buffer_add buf s) (map snd l))
                     call2) bctlp).
    { apply (IH call2 (grpc_slice_buffer_add buf s)
               {| bs_length := bs_length bs; bs_flags := bs_flags bs;
                  bs_script := map arrival_step l ++ rest |}).
      - exact Hget.
      - reflexivity.
      - reflexivity.
      - reflexivity.
      - exact Hlen.
      - cbn [grpc_slice_buffer_add bb_slices bs_length].
        rewrite slice_buffer_length_app.
        cbn [map slice_buffer_length fold_right snd] in Htotal.
        unfold slice_buffer_length in *. lia.
      - intros a Ha. apply Hlast. rewrite last_cons, Ha. reflexivity. }
    assert (Hcont : continue_receiving_slices call2 bctlp
                    = continue_receiving_slices_from (map arrival_step l ++ rest)
                        (bs_length bs) (bs_flags bs) call2 bctlp).
    { unfold continue_receiving_slices.
      change (get_bctl call2 bctlp) with (get_bctl call bctlp). rewrite Hget.
      reflexivity. }
    cbn [map app] in Hscript. change (arrival_step (ready, s)) with
      (if ready then NextReady (PullSlice s) else NextPending (PullSlice s)) in Hscript.
    destruct ready.
    + (* the slice is there at once *)
      unfold continue_receiving_slices at 1. rewrite Hget. cbn [obind]. rewrite Hstream.
      rewrite continue_from_eq. unfold deref_receiving_buffer at 1. rewrite Hbuf.
      cbn [obind]. cbv zeta. rewrite Hrem. rewrite Hscript.
      unfold store_receiving_buffer at 1.
      cbn [receiving_buffer upd_receiving_stream]. rewrite Hbuf. cbn [obind].
      fold call2. rewrite <- Hcont.
      cbn [deferred List.filter fst negb]. exact Hnext.
    + (* the slice comes later, through the closure *)
      unfold continue_receiving_slices at 1. rewrite Hget. cbn [obind]. rewrite Hstream.
      rewrite continue_from_eq. unfold deref_receiving_buffer at 1. rewrite Hbuf.
      cbn [obind]. cbv zeta. rewrite Hrem. rewrite Hscript. cbn [obind].
      cbn [deferred List.filter fst negb length repeat run act].
      unfold receiving_slice_ready. rewrite Hget. cbn [obind is_error_none].
      rewrite Hstream, Hscript.
      unfold deref_receiving_buffer at 1.
      cbn [receiving_buffer upd_receiving_stream]. rewrite Hbuf. cbn [obind].
      unfold store_receiving_buffer at 1.
      cbn [receiving_buffer upd_receiving_stream]. rewrite Hbuf. cbn [obind].
      fold call2. exact Hnext.
Qed.

(** X16. A message whose slices arrive one by one, some at once and some
    later through [receiving_slice_ready], is assembled in the order of
    arrival: when the announced length is reached the buffer holds the
    slices it had followed by the arrived ones, under the same
    compression, the stream is destroyed, [receiving_message] is cleared,
    and the batch step is finished exactly then, once. *)
Theorem message_is_assembled_in_order
    (bctlp : nat) (bctl : batch_control) (rest : list stream_step)
    (arrivals : list (bool * grpc_slice))
    (call : grpc_call) (buf : grpc_byte_buffer) (bs : grpc_byte_stream) :
  get_bctl call bctlp = Ret bctl ->
  receiving_stream call = Some bs ->
  bs_script bs = map arrival_step arrivals ++ rest ->
  receiving_buffer call = Some (Some buf) ->
  0 <= bs_length bs < 2 ^ 64 ->
  slice_buffer_length (bb_slices buf) + slice_buffer_length (map snd arrivals)
  = bs_length bs ->
  (forall a, last arrivals = Some a -> 0 < slice_length (snd a)) ->
  exists message,
    (let* c := continue_receiving_slices call bctlp in
     run c (repeat (SliceReady bctlp GRPC_ERROR_NONE) (deferred arrivals)))
    = finish_batch_step (message_complete message call) bctlp
    /\ bb_slices message = bb_slices buf ++ map snd arrivals
    /\ bb_compression message = bb_compression buf
    /\ receiving_buffer (message_complete message call) = Some (Some message)
    /\ receiving_stream (message_complete message call) = None
    /\ flag (message_complete message call) receiving_message = false.
Proof.
  intros Hget Hstream Hscript Hbuf Hlen Htotal Hlast.
  exists (with_slices buf (map snd arrivals)).
  split; [exact (message_assembly bctlp bctl rest arrivals call buf bs
                   Hget Hstream Hscript Hbuf Hlen Htotal Hlast)|].
  destruct (with_slices_spec buf (map snd arrivals)) as (H1 & H2).
  repeat split; assumption || reflexivity.
Qed.

Lemma abandon_message_eq (call : grpc_call) (bctlp : nat) (b : option grpc_byte_buffer) :
  receiving_buffer call = Some b ->
  abandon_message call bctlp = finish_batch_step (message_dropped call) bctlp.
Proof.
  intros Hbuf. unfold abandon_message, deref_receiving_buffer, store_receiving_buffer.
  cbn [receiving_buffer destroy_receiving_stream upd_receiving_stream].
  rewrite Hbuf. reflexivity.
Qed.

(** X17. A message is never handed over in part. If, before the announced
    length is reached, a pull fails (at once or on a later slice) or the
    transport reports an error to [receiving_slice_ready], the slices
    received so far are discarded: the application's buffer is set to
    null, the stream is destroyed, [receiving_message] is cleared and the
    batch step is finished. *)
Theorem failed_stream_drops_the_message
    (bctlp : nat) (bctl : batch_control) (rest : list stream_step)
    (st : stream_step) (e : grpc_error) (final : list activity)
    (arrivals : list (bool * grpc_slice)) :
  forall (call : grpc_call) (buf : grpc_byte_buffer) (bs : grpc_byte_stream),
    get_bctl call bctlp = Ret bctl ->
    receiving_stream call = Some bs ->
    bs_script bs = map arrival_step arrivals ++ st :: rest ->
    receiving_buffer call = Some (Some buf) ->
    0 <= bs_length bs < 2 ^ 64 ->
    slice_buffer_length (bb_slices buf) + slice_buffer_length (map snd arrivals)
    < bs_length bs ->
    (st = NextReady (PullError e) /\ final = [])
    \/ (st = NextPending (PullError e) /\ final = [SliceReady bctlp GRPC_ERROR_NONE])
    \/ ((exists r, st = NextPending r) /\ is_error_none e = false
        /\ final = [SliceReady bctlp e]) ->
    (let* c := continue_receiving_slices call bctlp in
     run c (repeat (SliceReady bctlp GRPC_ERROR_NONE) (deferred arrivals) ++ final))
    = finish_batch_step (message_dropped call) bctlp
    /\ receiving_buffer (message_dropped call) = Some None
    /\ receiving_stream (message_dropped call) = None
    /\ flag (message_dropped call) receiving_message = false.
Proof.
  induction arrivals as [|[ready s] l IH];
    intros call buf bs Hget Hstream Hscript Hbuf Hlen Htotal Hfail;
    (split; [|repeat split; reflexivity]).
  - cbn [map app] in Hscript. cbn [map slice_buffer_length fold_right] in Htotal.
    assert (Hrem : ((bs_length bs - slice_buffer_length (bb_slices buf)) mod 2 ^ 64 =? 0)
                   = false).
    { apply Z.eqb_neq. pose proof (slice_buffer_length_nonneg (bb_slices buf)).
      rewrite Z.mod_small by lia. lia. }
    unfold continue_receiving_slices. rewrite Hget. cbn [obind]. rewrite Hstream.
    rewrite continue_from_eq. unfold deref_receiving_buffer. rewrite Hbuf. cbn [obind].
    cbv zeta. rewrite Hrem, Hscript.
    cbn [deferred List.filter length repeat app].
    destruct Hfail as [(-> & ->)|[(-> & ->)|((r & ->) & He & ->)]].
    + cbn [run]. rewrite obind_ret. apply (abandon_message_eq call bctlp _ Hbuf).
    + cbn [obind run act]. rewrite obind_ret.
      unfold receiving_slice_ready. rewrite Hget. cbn [obind is_error_none].
      rewrite Hstream, Hscript.
      rewrite (abandon_message_eq _ bctlp (Some buf)) by exact Hbuf. reflexivity.
    + cbn [obind run act]. rewrite obind_ret.
      unfold receiving_slice_ready. rewrite Hget. cbn [obind]. rewrite He.
      apply (abandon_message_eq call bctlp _ Hbuf).
  - pose proof (slice_buffer_length_nonneg (map snd l)) as Hl.
    pose proof (slice_length_nonneg s) as Hs.
    assert (Hsum : slice_buffer_length (map snd ((ready, s) :: l))
                   = slice_length s + slice_buffer_length (map snd l)) by reflexivity.
    assert (Hrem : ((bs_length bs - slice_buffer_length (bb_slices buf)) mod 2 ^ 64 =? 0)
                   = false).
    { apply Z.eqb_neq. pose proof (slice_buffer_length_nonneg (bb_slices buf)).
      rewrite Z.mod_small by lia. lia. }
    set (call2 :=
           upd_receiving_buffer (Some (Some (grpc_slice_buffer_add buf s)))
             (upd_receiving_stream
                (Some {| bs_length := bs_length bs; bs_flags := bs_flags bs;
                         bs_script := map arrival_step l ++ st :: rest |}) call)).
    assert (Hnext :
              (let* c := continue_receiving_slices call2 bctlp in
               run c (repeat (SliceReady bctlp GRPC_ERROR_NONE) (deferred l) ++ final))
              = finish_batch_step (message_dropped call2) bctlp).
    { apply (IH call2 (grpc_slice_buffer_add buf s)
               {| bs_length := bs_length bs; bs_flags := bs_flags bs;
                  bs_script := map arrival_step l ++ st :: rest |}).
      - exact Hget.
      - reflexivity.
      - reflexivity.
      - reflexivity.
      - exact Hlen.
      - cbn [grpc_slice_buffer_add bb_slices bs_length].
        rewrite slice_buffer_length_app. lia.
      - exact Hfail. }
    assert (Hcont : continue_receiving_slices call2 bctlp
                    = continue_receiving_slices_from (map arrival_step l ++ st :: rest)
                        (bs_length bs) (bs_flags bs) call2 bctlp).
    { unfold continue_receiving_slices.
      change (get_bctl call2 bctlp) with (get_bctl call bctlp). rewrite Hget.
      reflexivity. }
    cbn [map app] in Hscript. change (arrival_step (ready, s)) with
      (if ready then NextReady (PullSlice s) else NextPending (PullSlice s)) in Hscript.
    destruct ready.
    + unfold continue_receiving_slices at 1. rewrite Hget. cbn [obind]. rewrite Hstream.
      rewrite continue_from_eq. unfold deref_receiving_buffer at 1. rewrite Hbuf.
      cbn [obind]. cbv zeta. rewrite Hrem. rewrite Hscript.
      unfold store_receiving_buffer at 1.
      cbn [receiving_buffer upd_receiving_stream]. rewrite Hbuf. cbn [obind].
      fold call2. rewrite <- Hcont.
      cbn [deferred List.filter fst negb]. exact Hnext.
    + unfold continue_receiving_slices at 1. rewrite Hget. cbn [obind]. rewrite Hstream.
      rewrite continue_from_eq. unfold deref_receiving_buffer at 1. rewrite Hbuf.
      cbn [obind]. cbv zeta. rewrite Hrem. rewrite Hscript. cbn [obind].
      cbn [deferred List.filter fst negb length repeat app run act].
      unfold receiving_slice_ready. rewrite Hget. cbn [obind is_error_none].
      rewrite Hstream, Hscript.
      unfold deref_receiving_buffer at 1.
      cbn [receiving_buffer upd_receiving_stream]. rewrite Hbuf. cbn [obind].
      unfold store_receiving_buffer at 1.
      cbn [receiving_buffer upd_receiving_stream]. rewrite Hbuf. cbn [obind].
      fold call2. exact Hnext.
Qed.

End Slices.

(** ** The further properties on runs of the model *)

(** X3 on the client call with an internal error recorded from SURFACE and
    an OK recorded from the wire: the final status is not OK. *)
Lemma recorded_error_is_not_masked_witness :
  fst (get_final_status
         (set_status_from_error
            (set_status_from_error client_call STATUS_FROM_SURFACE
               (error_from_status GRPC_STATUS_INTERNAL "boom"))
            STATUS_FROM_WIRE GRPC_ERROR_NONE))
  <> GRPC_STATUS_OK.
Proof.
  apply (proj1 (recorded_error_is_not_masked _) STATUS_FROM_SURFACE
           (error_from_status GRPC_STATUS_INTERNAL "boom")).
  - vm_compute. reflexivity.
  - vm_compute. discriminate.
Defined.

(** X4 on the client call: after [grpc_call_cancel_with_status] with
    NOT_FOUND the final status is NOT_FOUND with its description. *)
Lemma api_override_wins_witness :
  exists call',
    grpc_call_cancel_with_status client_call 5 "not found" false
    = Ret (GRPC_CALL_OK, call')
    /\ get_final_status call' = (5, Some "not found"%string).
Proof.
  apply (proj2 (api_override_wins client_call) 5 "not found"%string).
  - vm_compute. reflexivity.
  - vm_compute. discriminate.
  - vm_compute. reflexivity.
  - vm_compute. reflexivity.
Defined.

(** X5 on a creation whose call stack fails to initialise: the error
    returned is the one recorded from SURFACE, and the one batch handed to
    the filter stack cancels the stream with it. *)
Lemma creation_cancels_what_it_reports_witness :
  grpc_call_create stackless_args
  = Ret (grpc_error_add_child (GRPC_ERROR_CREATE "Call creation failed")
           (GRPC_ERROR_CREATE "no stack"),
         created (grpc_call_create stackless_args), None)
  /\ status (created (grpc_call_create stackless_args)) STATUS_FROM_SURFACE
     = ATM_SET (grpc_error_add_child (GRPC_ERROR_CREATE "Call creation failed")
                  (GRPC_ERROR_CREATE "no stack"))
  /\ status (created (grpc_call_create stackless_args)) STATUS_FROM_API_OVERRIDE
     = ATM_ZERO
  /\ map (fun b => (cancel_stream b, cancel_error b))
       (dispatched (created (grpc_call_create stackless_args)))
     = [(true, grpc_error_add_child (GRPC_ERROR_CREATE "Call creation failed")
                 (GRPC_ERROR_CREATE "no stack"))].
Proof.
  assert (H : grpc_call_create stackless_args
              = Ret (grpc_error_add_child (GRPC_ERROR_CREATE "Call creation failed")
                       (GRPC_ERROR_CREATE "no stack"),
                     created (grpc_call_create stackless_args), None))
    by (vm_compute; reflexivity).
  split; [exact H|].
  destruct (creation_cancels_what_it_reports _ _ _ _ H)
    as (_ & Hsurface & Hoverride & _ & _ & _ & Hd).
  split; [exact Hsurface|]. split; [exact Hoverride|]. exact Hd.
Defined.

(** X6 on the creation of an heir of the server call: the parent has the
    new call as its one child, inheriting cancellation, and the child's
    deadline is the earlier of the two. *)
Lemma child_joins_the_ring_witness :
  exists p',
    grpc_call_create heir_args
    = Ret (GRPC_ERROR_NONE, created (grpc_call_create heir_args), Some p')
    /\ children p'
       = [{| child_id := 1; child_cancellation_is_inherited := true |}]
    /\ send_deadline (created (grpc_call_create heir_args)) = gpr_time 30.
Proof.
  assert (H : grpc_call_create heir_args
              = Ret (GRPC_ERROR_NONE, created (grpc_call_create heir_args),
                     Some family_call))
    by (vm_compute; reflexivity).
  pose proof (child_joins_the_ring _ _ _ _ H) as W.
  change (parent_call_arg heir_args) with (Some server_call) in W.
  destruct W as (p' & Hp & _ & _ & Hring & Hdeadline).
  injection Hp as <-.
  exists family_call. split; [exact H|].
  split; [rewrite Hring; vm_compute; reflexivity|].
  rewrite Hdeadline. vm_compute. reflexivity.
Defined.

(** X7 on the server call with one heir and RECV_CLOSE_ON_SERVER in
    flight: the completion of the batch marks the final op as received and
    cancels the heir. *)
Lemma final_op_cancels_the_heirs_witness :
  exists call',
    post_batch_completion closing_parent 5 = Ret call'
    /\ received_final_op_atm call' = 1
    /\ cancelled_children call' = [1%nat].
Proof.
  assert (Hget : get_bctl closing_parent 5 = Ret (bctl_of closing_parent 5))
    by (vm_compute; reflexivity).
  assert (Hn : 0 <= num_errors (bctl_of closing_parent 5)
               <= Z.of_nat (length (errors (bctl_of closing_parent 5))))
    by (vm_compute; split; discriminate).
  assert (Hd : recv_trailing_metadata (stream_op (bctl_of closing_parent 5)) = true ->
               is_Some (buffered_metadata closing_parent true)
               \/ md_list (metadata_batch closing_parent true true) = [])
    by (intros _; right; vm_compute; reflexivity).
  destruct (final_op_cancels_the_heirs closing_parent 5 _ Hget Hn Hd)
    as (call' & Hrun & H).
  assert (Ht : recv_trailing_metadata (stream_op (bctl_of closing_parent 5)) = true)
    by (vm_compute; reflexivity).
  rewrite Ht in H. destruct H as (Hfinal & Hheirs).
  exists call'. split; [exact Hrun|]. split; [exact Hfinal|].
  rewrite Hheirs. vm_compute. reflexivity.
Defined.

(** X8 on the client call with RECV_STATUS_ON_CLIENT in flight, completed
    through the queue: slot 5 stays in use until the completion is
    consumed and is free afterwards. *)
Lemma slot_is_freed_with_the_completion_witness :
  exists call' free,
    post_batch_completion closing_call 5 = Ret call'
    /\ slot_in_use call' 5
    /\ finish_batch_completion call' 5 = Ret free
    /\ ~ slot_in_use free 5.
Proof.
  assert (Hget : get_bctl closing_call 5 = Ret (bctl_of closing_call 5))
    by (vm_compute; reflexivity).
  assert (Hn : 0 <= num_errors (bctl_of closing_call 5)
               <= Z.of_nat (length (errors (bctl_of closing_call 5))))
    by (vm_compute; split; discriminate).
  assert (Hd : recv_trailing_metadata (stream_op (bctl_of closing_call 5)) = true ->
               is_Some (buffered_metadata closing_call true)
               \/ md_list (metadata_batch closing_call true true) = [])
    by (intros _; right; vm_compute; reflexivity).
  destruct (slot_is_freed_with_the_completion closing_call 5 _ Hget Hn Hd)
    as (call' & Hrun & _ & free & Hif & Hfree & _).
  assert (Hq : is_closure (bctl_of closing_call 5) = false) by (vm_compute; reflexivity).
  rewrite Hq in Hif. destruct Hif as (Hused & Hconsume & _).
  exists call', free. split; [exact Hrun|]. split; [exact Hused|].
  split; [exact Hconsume|exact Hfree].
Defined.

(** X9 on the accepted batch of SEND_INITIAL_METADATA and
    RECV_INITIAL_METADATA of the client call. *)
Lemma accepted_batch_is_well_formed_witness :
  Forall (fun o => passes_own_checks (is_client client_call) o = true)
    [send_initial_op; recv_initial_op]
  /\ NoDup (map (fun o => flag_of_op (op o)) [send_initial_op; recv_initial_op]).
Proof.
  assert (H : call_start_batch client_call [send_initial_op; recv_initial_op] 7 false
              = Ret (GRPC_CALL_OK,
                     call_after (call_start_batch client_call
                                   [send_initial_op; recv_initial_op] 7 false)))
    by (vm_compute; reflexivity).
  destruct (accepted_batch_is_well_formed _ _ _ _ _ H) as (Hchecks & Hdistinct & _).
  split; [exact Hchecks|exact Hdistinct].
Defined.

(** X10 on the client call cancelled with NOT_FOUND by the application: a
    plain cancel and a batch later, the slot of API_OVERRIDE still holds
    the first error. *)
Lemma recorded_status_is_never_lost_witness :
  status (call_of (run refused_call [Cancel; Submit [send_initial_op] 7 false]))
    STATUS_FROM_API_OVERRIDE
  = ATM_SET (error_from_status 5 "not found").
Proof.
  apply (recorded_status_is_never_lost [Cancel; Submit [send_initial_op] 7 false]
           refused_call).
  - vm_compute. reflexivity.
  - vm_compute. reflexivity.
Defined.

(** X11 on the server call: SEND_STATUS_FROM_SERVER followed by a
    SEND_MESSAGE without a message is refused, the status sent is recorded
    all the same and [sent_final_op] is clear. *)
Lemma sent_status_outlives_the_rollback_witness :
  call_start_batch server_call [send_status_op; null_message_op] 7 false
  = Ret (GRPC_CALL_ERROR_INVALID_MESSAGE,
         call_after (call_start_batch server_call
                       [send_status_op; null_message_op] 7 false))
  /\ status (call_after (call_start_batch server_call
                           [send_status_op; null_message_op] 7 false))
       STATUS_FROM_API_OVERRIDE
     = ATM_SET (grpc_error_set_str (GRPC_ERROR_CREATE "Error from server send status")
                  GRPC_ERROR_STR_GRPC_MESSAGE "not found"%string)
  /\ flag (call_after (call_start_batch server_call
                         [send_status_op; null_message_op] 7 false))
       sent_final_op = false.
Proof.
  assert (H : call_start_batch server_call [send_status_op; null_message_op] 7 false
              = Ret (GRPC_CALL_ERROR_INVALID_MESSAGE,
                     call_after (call_start_batch server_call
                                   [send_status_op; null_message_op] 7 false)))
    by (vm_compute; reflexivity).
  split; [exact H|].
  assert (Hfree : ~ slot_in_use server_call 2)
    by (intros (bctl & Hb & _); vm_compute in Hb; discriminate Hb).
  destruct (sent_status_outlives_the_rollback server_call
              (call_after (call_start_batch server_call
                             [send_status_op; null_message_op] 7 false))
              [] 5 (Some "not found"%string) [null_message_op] 7 false
              GRPC_CALL_ERROR_INVALID_MESSAGE)
    as (Hstatus & Hflag).
  - vm_compute. reflexivity.
  - vm_compute. reflexivity.
  - vm_compute. reflexivity.
  - exact Hfree.
  - vm_compute. discriminate.
  - vm_compute. reflexivity.
  - exact H.
  - split; [exact Hstatus|]. apply Hflag. discriminate.
Defined.

(** X12 with the masks of the public headers: on a server, flags with bit 0
    set are not valid initial-metadata flags, bit 0 being no bit of the
    used mask. *)
Lemma flags_are_checked_bit_by_bit_witness :
  0 <= GRPC_INITIAL_METADATA_IDEMPOTENT_REQUEST < UINT32_MODULUS
  /\ are_initial_metadata_flags_valid 1 false <> true.
Proof.
  assert (Hrange : 0 <= GRPC_INITIAL_METADATA_IDEMPOTENT_REQUEST < UINT32_MODULUS)
    by (vm_compute; split; [discriminate|reflexivity]).
  split; [exact Hrange|]. intros Hvalid.
  destruct (proj1 (proj1 (proj2 (flags_are_checked_bit_by_bit 1 false Hrange)))
              Hvalid 0) as (Hbit & _).
  - lia.
  - reflexivity.
  - vm_compute in Hbit. discriminate Hbit.
Defined.

(** X13 on a [grpc-status] element of value 5 with nothing cached: the
    decoded status is 5, also at the second decoding. *)
Lemma decode_status_caches_what_it_parsed_witness :
  fst (decode_status
         (snd (decode_status (MDELEM GRPC_MDSTR_GRPC_STATUS "5"%string None))))
  = fst (decode_status (MDELEM GRPC_MDSTR_GRPC_STATUS "5"%string None))
  /\ grpc_mdelem_get_user_data
       (snd (decode_status (MDELEM GRPC_MDSTR_GRPC_STATUS "5"%string None)))
       destroy_status = 6.
Proof.
  destruct (decode_status_caches_what_it_parsed
              (MDELEM GRPC_MDSTR_GRPC_STATUS "5"%string None))
    as (Hagain & _ & _ & Hcache).
  - intros s Hs. vm_compute in Hs. injection Hs as <-.
    vm_compute. split; [discriminate|reflexivity].
  - split; [exact Hagain|].
    destruct (Hcache _ _ eq_refl) as (Hdata & _). rewrite Hdata.
    vm_compute. reflexivity.
Defined.

(** X14 on a [grpc-accept-encoding] element of value gzip: bit 2 is set. *)
Lemma accepted_encodings_are_the_parsed_entries_witness :
  Z.testbit
    (set_encodings_accepted_by_peer
       (MDELEM GRPC_MDSTR_GRPC_ACCEPT_ENCODING "gzip"%string None) false) 2
  = true.
Proof.
  apply (accepted_encodings_are_the_parsed_entries
           (MDELEM GRPC_MDSTR_GRPC_ACCEPT_ENCODING "gzip"%string None) false 2).
  - reflexivity.
  - lia.
  - right. exists "gzip"%string. split; [left; reflexivity|reflexivity].
Defined.

(** X15 on received initial metadata with [grpc-encoding],
    [grpc-accept-encoding] and one element of the application: the
    application gets that element alone. *)
Lemma recv_initial_filter_strips_transport_headers_witness :
  exists call',
    recv_initial_filter answered_call = Ret call'
    /\ buffered_metadata call' false
       = Some [{| md_key := "x-served-by"%string; md_value := "b7"%string |}].
Proof.
  destruct (recv_initial_filter_strips_transport_headers answered_call [])
    as (call' & Hrun & Hbuf & _).
  - reflexivity.
  - reflexivity.
  - intros s. cbn. unfold model_algorithm_of_name.
    repeat match goal with |- context [String.eqb ?a ?b] => destruct (String.eqb a b) end;
      lia.
  - intros s. cbn.
    repeat match goal with |- context [String.eqb ?a ?b] => destruct (String.eqb a b) end;
      lia.
  - repeat constructor; vm_compute; lia.
  - vm_compute. reflexivity.
  - exists call'. split; [exact Hrun|]. rewrite Hbuf. vm_compute. reflexivity.
Defined.

(** X16 on the message of ten bytes in three slices, two of which come
    later: after the two calls of [receiving_slice_ready] the buffer holds
    the three slices in order. *)
Lemma message_is_assembled_in_order_witness :
  exists message,
    (let* c := continue_receiving_slices streaming_call 3 in
     run c (repeat (SliceReady 3 GRPC_ERROR_NONE) 2))
    = finish_batch_step (message_complete message streaming_call) 3
    /\ bb_slices message = ["hello"%string; " "%string; "gRPC"%string].
Proof.
  destruct (message_is_assembled_in_order 3 (bctl_of streaming_call 3) [] greeting
              streaming_call grpc_raw_byte_buffer_create greeting_stream)
    as (message & Hrun & Hslices & _).
  - vm_compute. reflexivity.
  - reflexivity.
  - reflexivity.
  - reflexivity.
  - vm_compute. split; [discriminate|reflexivity].
  - vm_compute. reflexivity.
  - intros a Ha. vm_compute in Ha. injection Ha as <-. vm_compute. reflexivity.
  - exists message. split; [exact Hrun|]. rewrite Hslices. reflexivity.
Defined.

(** X17 on the same message when the stream fails after the first slice:
    the call of [receiving_slice_ready] drops the message. *)
Lemma failed_stream_drops_the_message_witness :
  (let* c := continue_receiving_slices breaking_call 3 in
   run c [SliceReady 3 GRPC_ERROR_NONE])
  = finish_batch_step (message_dropped breaking_call) 3
  /\ receiving_buffer (message_dropped breaking_call) = Some None.
Proof.
  destruct (failed_stream_drops_the_message 3 (bctl_of breaking_call 3) []
              (NextPending (PullError connection_lost)) connection_lost
              [SliceReady 3 GRPC_ERROR_NONE] [(true, "hello"%string)]
              breaking_call grpc_raw_byte_buffer_create broken_stream)
    as (Hrun & Hbuf & _).
  - vm_compute. reflexivity.
  - reflexivity.
  - reflexivity.
  - reflexivity.
  - vm_compute. split; [discriminate|reflexivity].
  - vm_compute. reflexivity.
  - right. left. split; reflexivity.
  - split; [exact Hrun|exact Hbuf].
Defined.
